(** * Crop windowing and batching of [braindecode.datautil.iterators]

    A shallow embedding of [CropsFromTrialsIterator] and of the module-level
    helpers it calls, followed by the properties of the window planner, of
    the batch partitioner and of the iterator.

    Python integers are unbounded, so they are modelled by [Z]; list
    positions and lengths are [nat].  The [while] loop of the planner may run
    forever (for a non-positive step), so it is modelled with fuel: one unit
    of fuel is spent on every evaluation of the loop condition. *)

From Stdlib Require Import ZArith List Lia Bool Permutation Sorted.
From Stdlib Require String DecimalString.
Import ListNotations.
Local Open Scope Z_scope.

(** ** Python values shared by the functions below *)

(** The assertions of the module, each with the values its message shows. *)
Inductive assertion : Type :=
| InputTooShort (input_len : Z) (i_trial : nat) (input_time_length : Z)
| PredictedSamplesDiffer
| FirstBlockStart
| LastBlockStop.

Inductive exn : Type :=
| AssertionError (a : assertion)
| ValueError
| IndexError.

(** What running a piece of the program gives: a value, a raised exception,
    or no answer within the fuel given to the planner's loop. *)
Inductive outcome (A : Type) : Type :=
| Ok (a : A)
| Raise (e : exn)
| OutOfFuel.
Arguments Ok {A} a.
Arguments Raise {A} e.
Arguments OutOfFuel {A}.

Definition bind {A B : Type} (m : outcome A) (k : A -> outcome B)
  : outcome B :=
  match m with
  | Ok a => k a
  | Raise e => Raise e
  | OutOfFuel => OutOfFuel
  end.

Notation "x <- m ;; k" := (bind m (fun x => k))
  (at level 61, m at next level, right associativity).
Notation "m ;;; k" := (bind m (fun _ => k))
  (at level 61, right associativity).

Definition py_assert (b : bool) (a : assertion) : outcome unit :=
  if b then Ok tt else Raise (AssertionError a).

Definition of_fuel {A : Type} (o : option A) : outcome A :=
  match o with Some a => Ok a | None => OutOfFuel end.

(** [for x in xs: f(x)], collecting the results; the first exception ends
    the loop. *)
Fixpoint for_each {A B : Type} (f : A -> outcome B) (xs : list A)
  : outcome (list B) :=
  match xs with
  | [] => Ok []
  | x :: xs' => b <- f x ;; bs <- for_each f xs' ;; Ok (b :: bs)
  end.

(** [l[i]] on a sequence: a negative index counts from the end. *)
Definition py_index {A : Type} (l : list A) (i : Z) : outcome A :=
  let len := Z.of_nat (length l) in
  let j := if i <? 0 then i + len else i in
  if (j <? 0) || (len <=? j) then Raise IndexError
  else match nth_error l (Z.to_nat j) with
       | Some a => Ok a
       | None => Raise IndexError
       end.

(** [l[start:stop]]: negative bounds count from the end, and both bounds
    are clamped to the sequence. *)
Definition py_slice_bound (len i : Z) : Z :=
  if i <? 0 then Z.max (i + len) 0 else Z.min i len.

Definition py_slice {A : Type} (l : list A) (start stop : Z) : list A :=
  let len := Z.of_nat (length l) in
  let a := py_slice_bound len start in
  let b := py_slice_bound len stop in
  firstn (Z.to_nat (b - a)) (skipn (Z.to_nat a) l).

(** A window is the 2-tuple [(i_window_start, i_adjusted_stop)]. *)
Definition window : Type := (Z * Z)%type.

(** [range(a, b)] with the default step. *)
Definition py_range (a b : Z) : list Z :=
  map (fun i => a + Z.of_nat i) (seq 0 (Z.to_nat (b - a))).

(** ** The window planner: [_get_start_stop_blocks_for_trial] *)

Module WindowPlanner.

Section Trial.

Variables i_trial_start i_trial_stop : Z.
Variables input_time_length n_preds_per_input : Z.

(** The loop
    [while i_window_stop < i_trial_stop: ...], with the cursor
    [i_window_stop] and the list built so far as its state. *)
Fixpoint while_loop (fuel : nat) (i_window_stop : Z)
         (start_stop_blocks : list window) : option (list window) :=
  match fuel with
  | O => None
  | S fuel' =>
      if i_window_stop <? i_trial_stop then
        let i_window_stop := i_window_stop + n_preds_per_input in
        let i_adjusted_stop := Z.min i_window_stop i_trial_stop in
        let i_window_start := i_adjusted_stop - input_time_length in
        while_loop fuel' i_window_stop
                   (start_stop_blocks ++ [(i_window_start, i_adjusted_stop)])
      else Some start_stop_blocks
  end.

Definition _get_start_stop_blocks_for_trial (fuel : nat)
  : option (list window) :=
  while_loop fuel i_trial_start [].

(** The samples a window predicts:
    [range(stop - n_preds_per_input, stop)]. *)
Definition predicted_range (w : window) : list Z :=
  let '(_, stop) := w in py_range (stop - n_preds_per_input) stop.

(** [all_predicted_samples] of [_compute_start_stop_block_inds]. *)
Definition all_predicted_samples (start_stop_blocks : list window)
  : list (list Z) :=
  map predicted_range start_stop_blocks.

(** *** Quantities used to describe the loop *)

(** Number of loop iterations still to run from cursor [c]:
    [ceil((i_trial_stop - c) / n_preds_per_input)], and 0 once the cursor
    has reached the trial stop. *)
Definition iterations (c : Z) : nat :=
  Z.to_nat ((i_trial_stop - c + n_preds_per_input - 1) / n_preds_per_input).

(** The windows that [k] iterations append, starting from cursor [c]. *)
Fixpoint emit (k : nat) (c : Z) : list window :=
  match k with
  | O => []
  | S k' =>
      let c' := c + n_preds_per_input in
      let e := Z.min c' i_trial_stop in
      (e - input_time_length, e) :: emit k' c'
  end.

(** Membership of a sample in a window's predicted range. *)
Definition predicts (w : window) (x : Z) : Prop :=
  snd w - n_preds_per_input <= x < snd w.

End Trial.

End WindowPlanner.

(** ** The trial-set planner: [_compute_start_stop_block_inds] *)

Module TrialSetWindowPlanner.

Import WindowPlanner.

(** [np.unique] on a 1-d integer array: the sorted distinct values. *)
Fixpoint insert_unique (x : Z) (l : list Z) : list Z :=
  match l with
  | [] => [x]
  | y :: l' =>
      if x <? y then x :: l
      else if x =? y then l
      else y :: insert_unique x l'
  end.

Definition np_unique (l : list Z) : list Z := fold_right insert_unique [] l.

(** [np.array_equal] on two 1-d integer sequences. *)
Definition np_array_equal (a b : list Z) : bool :=
  if list_eq_dec Z.eq_dec a b then true else false.

(** The body of [if check_preds_smaller_trial_len:].  [np.concatenate]
    raises [ValueError] when it is given no array at all. *)
Definition check_preds (i_trial_start i_trial_stop n_preds_per_input : Z)
           (start_stop_blocks : list window) : outcome unit :=
  let all_predicted_samples :=
    all_predicted_samples n_preds_per_input start_stop_blocks in
  match all_predicted_samples with
  | [] => Raise ValueError
  | _ :: _ =>
      py_assert
        (np_array_equal (py_range i_trial_start i_trial_stop)
                        (np_unique (concat all_predicted_samples)))
        PredictedSamplesDiffer
  end.

(** One iteration of [for i_trial in range(len(i_trial_starts)):]. *)
Definition blocks_of_trial (fuel : nat) (i_trial_starts i_trial_stops : list Z)
           (input_time_length n_preds_per_input : Z)
           (check_preds_smaller_trial_len : bool) (i_trial : nat)
  : outcome (list window) :=
  i_trial_start <- py_index i_trial_starts (Z.of_nat i_trial) ;;
  i_trial_stop <- py_index i_trial_stops (Z.of_nat i_trial) ;;
  start_stop_blocks <-
    of_fuel (_get_start_stop_blocks_for_trial
               i_trial_start i_trial_stop input_time_length n_preds_per_input
               fuel) ;;
  (if check_preds_smaller_trial_len
   then check_preds i_trial_start i_trial_stop n_preds_per_input
                    start_stop_blocks
   else Ok tt) ;;;
  Ok start_stop_blocks.

Definition _compute_start_stop_block_inds (fuel : nat)
           (i_trial_starts i_trial_stops : list Z)
           (input_time_length n_preds_per_input : Z)
           (check_preds_smaller_trial_len : bool)
  : outcome (list (list window)) :=
  for_each (blocks_of_trial fuel i_trial_starts i_trial_stops
                            input_time_length n_preds_per_input
                            check_preds_smaller_trial_len)
           (seq 0 (length i_trial_starts)).

End TrialSetWindowPlanner.

(** ** The batch partitioner: [get_balanced_batches] *)

Module BatchPartitioner.

Section Partition.

(** [numpy.random.RandomState]: its state, and [rng.shuffle] as a function
    of the state and of the array it permutes in place. *)
Variable rng_state : Type.
Variable rng_shuffle : rng_state -> list nat -> list nat * rng_state.

(** [n_groups] contiguous blocks of [batch_size] positions each; the last
    block takes what is left. *)
Fixpoint contiguous_blocks (n_groups batch_size : nat) (inds : list nat)
  : list (list nat) :=
  match n_groups with
  | O => []
  | S k =>
      firstn batch_size inds
        :: contiguous_blocks k batch_size (skipn batch_size inds)
  end.

Definition n_groups (n_items : nat) (batch_size : Z) : nat :=
  Z.to_nat ((Z.of_nat n_items + batch_size - 1) / batch_size).

(** Modelled from the spec: [braindecode.util.get_balanced_batches] is
    imported and called by [iterators.py], but [braindecode/util.py] is
    not among the source files.  The spec (4.1) gives its contract for
    [n_items >= 0] and [batch_size >= 1]: [ceil(n_items / batch_size)]
    groups, each a contiguous block of [batch_size] indices (after the
    optional permutation, which is drawn once from [rng]), the final
    group covering the remainder.  The spec says nothing for
    [batch_size < 1]; no statement below uses the model there. *)
Definition get_balanced_batches (n_items : nat) (batch_size : Z)
           (rng : rng_state) (shuffle : bool)
  : list (list nat) * rng_state :=
  let '(all_inds, rng) :=
    if shuffle then rng_shuffle rng (seq 0 n_items)
    else (seq 0 n_items, rng) in
  (contiguous_blocks (n_groups n_items batch_size) (Z.to_nat batch_size)
                     all_inds,
   rng).

End Partition.

End BatchPartitioner.

(** ** The iterator: [CropsFromTrialsIterator] *)

Module CropsFromTrialsIterator.

Import WindowPlanner TrialSetWindowPlanner BatchPartitioner.

Section Iterator.

(** Signal values and label values; the code only moves them around. *)
Variables sample_t label_t : Type.

(** [numpy.random.RandomState] and the seed it is built from. *)
Variables seed_t rng_state : Type.
Variable RandomState : seed_t -> rng_state.
Variable rng_shuffle : rng_state -> list nat -> list nat * rng_state.

(** A trial is a 2-d array [channels x time]: its shape and its rows. *)
Record trial : Type := {
  shape : nat * nat;
  channels : list (list sample_t)
}.

(** A trial's label has a length (a sequence of per-sample labels) or has
    none (a scalar): the [hasattr(y[i_trial], "__len__")] test. *)
Inductive label : Type :=
| Scalar (v : label_t)
| Sequence (vs : list label_t).

Record dataset : Type := {
  X : list trial;
  y : list label
}.

Record iterator : Type := {
  batch_size : Z;
  input_time_length : Z;
  n_preds_per_input : Z;
  seed : seed_t;
  rng : rng_state
}.

Definition __init__ (batch_size input_time_length n_preds_per_input : Z)
           (seed : seed_t) : iterator :=
  {| batch_size := batch_size;
     input_time_length := input_time_length;
     n_preds_per_input := n_preds_per_input;
     seed := seed;
     rng := RandomState seed |}.

Definition reset_rng (self : iterator) : iterator :=
  {| batch_size := batch_size self;
     input_time_length := input_time_length self;
     n_preds_per_input := n_preds_per_input self;
     seed := seed self;
     rng := RandomState (seed self) |}.

(** The integer array [np.array(i_trial_start_stop_block)]: 1-d when the
    list is empty, one row of three numbers per triple otherwise. *)
Inductive ndarray : Type :=
| Array1 (elems : list Z)
| Array2 (rows : list (list Z)).

Definition np_array (l : list (nat * Z * Z)) : ndarray :=
  match l with
  | [] => Array1 []
  | _ :: _ =>
      Array2 (map (fun '(i_trial, start, stop) =>
                     [Z.of_nat i_trial; start; stop]) l)
  end.

(** [if a.ndim == 1: a = a[None, :]], after which the array is 2-d; the
    result is its list of rows. *)
Definition rows_2d (a : ndarray) : list (list Z) :=
  match a with
  | Array1 elems => [elems]
  | Array2 rows => rows
  end.

(** A batch before stacking: the crops [Xs] and the labels [ys].
    [np.array(Xs)], [np.array(ys)] and the trailing axis only change the
    representation of these lists. *)
Record batch : Type := {
  batch_X : list (list (list sample_t));
  batch_y : list label
}.

(** One iteration of the loop of
    [_create_batch_from_i_trial_start_stop_blocks]; unpacking a row that
    does not hold three numbers raises [ValueError]. *)
Definition crop_of_row (X : list trial) (y : list label)
           (n_preds_per_input : Z) (row : list Z)
  : outcome (list (list sample_t) * label) :=
  match row with
  | [i_trial; start; stop] =>
      x_trial <- py_index X i_trial ;;
      let crop := map (fun chan => py_slice chan start stop)
                      (channels x_trial) in
      y_trial <- py_index y i_trial ;;
      match y_trial with
      | Scalar v => Ok (crop, Scalar v)
      | Sequence vs =>
          Ok (crop, Sequence (py_slice vs (stop - n_preds_per_input) stop))
      end
  | _ => Raise ValueError
  end.

Definition _create_batch_from_i_trial_start_stop_blocks
           (X : list trial) (y : list label)
           (i_trial_start_stop_block : list (list Z))
           (n_preds_per_input : Z) : outcome batch :=
  crops <- for_each (crop_of_row X y n_preds_per_input)
                    i_trial_start_stop_block ;;
  Ok {| batch_X := map fst crops; batch_y := map snd crops |}.

(** The suspended generator that [get_batches] returns: the arguments of
    [_yield_block_batches].  Its body runs when it is consumed. *)
Record generator : Type := {
  gen_X : list trial;
  gen_y : list label;
  gen_blocks : list (list window);
  gen_shuffle : bool
}.

Definition get_batches (fuel : nat) (self : iterator) (d : dataset)
           (shuffle : bool) : outcome generator :=
  let n_receptive_field :=
    input_time_length self - n_preds_per_input self + 1 in
  let i_trial_starts := repeat (n_receptive_field - 1) (length (X d)) in
  let i_trial_stops := map (fun t => Z.of_nat (snd (shape t))) (X d) in
  let input_lens := i_trial_stops in
  for_each
    (fun '(i_trial, input_len) =>
       py_assert (input_time_length self <=? input_len)
                 (InputTooShort input_len i_trial (input_time_length self)))
    (combine (seq 0 (length input_lens)) input_lens) ;;;
  start_stop_blocks_per_trial <-
    _compute_start_stop_block_inds
      fuel i_trial_starts i_trial_stops
      (input_time_length self) (n_preds_per_input self) true ;;
  for_each
    (fun '(i_trial, trial_blocks) =>
       first <- py_index trial_blocks 0 ;;
       py_assert (fst first =? 0) FirstBlockStart ;;;
       last <- py_index trial_blocks (-1) ;;
       i_trial_stop <- py_index i_trial_stops (Z.of_nat i_trial) ;;
       py_assert (snd last =? i_trial_stop) LastBlockStop)
    (combine (seq 0 (length start_stop_blocks_per_trial))
             start_stop_blocks_per_trial) ;;;
  Ok {| gen_X := X d; gen_y := y d;
        gen_blocks := start_stop_blocks_per_trial;
        gen_shuffle := shuffle |}.

(** What a consumer that pulls until the end sees: the batches yielded,
    then normal exhaustion ([Ok tt]) or the exception that ended it. *)
Record consumed : Type := {
  yielded : list batch;
  ending : outcome unit
}.

(** [for i_blocks in blocks_per_batch: ... yield batch]. *)
Fixpoint yield_loop (X : list trial) (y : list label)
         (n_preds_per_input : Z) (i_trial_start_stop_block : list (list Z))
         (blocks_per_batch : list (list nat)) : consumed :=
  match blocks_per_batch with
  | [] => {| yielded := []; ending := Ok tt |}
  | i_blocks :: rest =>
      match
        (start_stop_blocks <-
           for_each (fun i => py_index i_trial_start_stop_block
                                       (Z.of_nat i)) i_blocks ;;
         _create_batch_from_i_trial_start_stop_blocks
           X y start_stop_blocks n_preds_per_input)
      with
      | Ok b =>
          let r := yield_loop X y n_preds_per_input
                              i_trial_start_stop_block rest in
          {| yielded := b :: yielded r; ending := ending r |}
      | Raise e => {| yielded := []; ending := Raise e |}
      | OutOfFuel => {| yielded := []; ending := OutOfFuel |}
      end
  end.

(** The body of [_yield_block_batches], run to the end on the iterator
    [self]; the iterator comes back with the generator state that
    [get_balanced_batches] left. *)
Definition _yield_block_batches (self : iterator) (g : generator)
  : consumed * iterator :=
  let i_trial_start_stop_block :=
    flat_map (fun '(i_trial, block) =>
                map (fun '(start, stop) => (i_trial, start, stop)) block)
             (combine (seq 0 (length (gen_blocks g))) (gen_blocks g)) in
  let i_trial_start_stop_block :=
    rows_2d (np_array i_trial_start_stop_block) in
  let '(blocks_per_batch, rng') :=
    get_balanced_batches rng_state rng_shuffle
                         (length i_trial_start_stop_block)
                         (batch_size self) (rng self) (gen_shuffle g) in
  (yield_loop (gen_X g) (gen_y g) (n_preds_per_input self)
              i_trial_start_stop_block blocks_per_batch,
   {| batch_size := batch_size self;
      input_time_length := input_time_length self;
      n_preds_per_input := n_preds_per_input self;
      seed := seed self;
      rng := rng' |}).

(** Calls a client makes on one iterator object. *)
Inductive call : Type :=
| GetBatches (d : dataset) (shuffle : bool)
| ResetRng.

(** [list(self.get_batches(d, shuffle))]: the call, then the returned
    generator consumed to its end. *)
Definition all_batches (fuel : nat) (self : iterator) (d : dataset)
           (shuffle : bool) : outcome consumed * iterator :=
  match get_batches fuel self d shuffle with
  | Ok g => let '(c, self') := _yield_block_batches self g in (Ok c, self')
  | Raise e => (Raise e, self)
  | OutOfFuel => (OutOfFuel, self)
  end.

Definition do_call (fuel : nat) (self : iterator) (c : call) : iterator :=
  match c with
  | GetBatches d shuffle => snd (all_batches fuel self d shuffle)
  | ResetRng => reset_rng self
  end.

Definition do_calls (fuel : nat) (self : iterator) (cs : list call)
  : iterator :=
  fold_left (do_call fuel) cs self.

End Iterator.

Arguments shape {sample_t}.
Arguments channels {sample_t}.
Arguments Build_trial {sample_t}.
Arguments Scalar {label_t}.
Arguments Sequence {label_t}.
Arguments X {sample_t label_t}.
Arguments y {sample_t label_t}.
Arguments Build_dataset {sample_t label_t}.
Arguments batch_size {seed_t rng_state}.
Arguments input_time_length {seed_t rng_state}.
Arguments n_preds_per_input {seed_t rng_state}.
Arguments seed {seed_t rng_state}.
Arguments rng {seed_t rng_state}.
Arguments Build_iterator {seed_t rng_state}.
Arguments __init__ {seed_t rng_state}.
Arguments reset_rng {seed_t rng_state}.
Arguments batch_X {sample_t label_t}.
Arguments batch_y {sample_t label_t}.
Arguments Build_batch {sample_t label_t}.
Arguments crop_of_row {sample_t label_t}.
Arguments _create_batch_from_i_trial_start_stop_blocks {sample_t label_t}.
Arguments gen_X {sample_t label_t}.
Arguments gen_y {sample_t label_t}.
Arguments gen_blocks {sample_t label_t}.
Arguments gen_shuffle {sample_t label_t}.
Arguments Build_generator {sample_t label_t}.
Arguments get_batches {sample_t label_t seed_t rng_state}.
Arguments yielded {sample_t label_t}.
Arguments ending {sample_t label_t}.
Arguments Build_consumed {sample_t label_t}.
Arguments yield_loop {sample_t label_t}.
Arguments _yield_block_batches {sample_t label_t seed_t rng_state}.
Arguments GetBatches {sample_t label_t}.
Arguments ResetRng {sample_t label_t}.
Arguments all_batches {sample_t label_t seed_t rng_state}.
Arguments do_call {sample_t label_t seed_t rng_state}.
Arguments do_calls {sample_t label_t seed_t rng_state}.

End CropsFromTrialsIterator.

(** ** A concrete generator, to run the definitions on examples *)

Module ExampleRng.

Definition state : Type := nat.

Definition RandomState (seed : nat) : state := seed.

(** Reverses the array on even states, leaves it on odd ones, and advances
    the state. *)
Definition shuffle (s : state) (l : list nat) : list nat * state :=
  (if Nat.even s then rev l else l, S s).

End ExampleRng.

Module ExampleRun.

Import CropsFromTrialsIterator.

(** One trial of one channel and six samples, labelled 7. *)
Definition example_dataset : dataset Z Z :=
  {| X := [ {| shape := (1%nat, 6%nat);
               channels := [[10; 11; 12; 13; 14; 15]] |} ];
     y := [Scalar 7] |}.

(** [batch_size = 1], [input_time_length = 4], [n_preds_per_input = 2]. *)
Definition example_iterator : iterator nat ExampleRng.state :=
  __init__ ExampleRng.RandomState 1 4 2 O.

End ExampleRun.

(** ** The dataset adapter of [braindecode.datasets.moabb_datasets] *)

Module Moabb.

Import TrialSetWindowPlanner.

(** Exceptions raised in this module; [ExternalError] stands for whatever
    a callable handed in by the caller raises. *)
Inductive error : Type :=
| TypeError
| ValueError
| IndexError
| KeyError
| NotImplementedError
| ExternalError.

Inductive res (A : Type) : Type :=
| Return (a : A)
| Throw (e : error).
Arguments Return {A} a.
Arguments Throw {A} e.

Definition rbind {A B : Type} (m : res A) (k : A -> res B) : res B :=
  match m with
  | Return a => k a
  | Throw e => Throw e
  end.

Notation "x <~ m ;; k" := (rbind m (fun x => k))
  (at level 61, m at next level, right associativity).

(** [for x in xs: f(x)], collecting the results. *)
Fixpoint rfor_each {A B : Type} (f : A -> res B) (xs : list A)
  : res (list B) :=
  match xs with
  | [] => Return []
  | x :: xs' => b <~ f x ;; bs <~ rfor_each f xs' ;; Return (b :: bs)
  end.

(** A description: a [str], [None], or a value of any other type. *)
Inductive pyval : Type :=
| PyStr (s : String.string)
| PyNone
| PyOther.

Definition is_none (v : pyval) : bool :=
  match v with PyNone => true | _ => false end.

(** [str(code)] of an integer event code. *)
Definition str (code : Z) : String.string :=
  DecimalString.NilZero.string_of_int (Z.to_int code).

(** A row [sample, previous value, code] of the [(n_events, 3)] array. *)
Definition event : Type := (Z * Z * Z)%type.

Definition sample_of (e : event) : Z := fst (fst e).
Definition code_of (e : event) : Z := snd e.

(** A [dict] with integer keys: its items in insertion order. *)
Definition dict (V : Type) : Type := list (Z * V).

Fixpoint dict_get {V : Type} (d : dict V) (k : Z) : option V :=
  match d with
  | [] => None
  | (k', v) :: d' => if k =? k' then Some v else dict_get d' k
  end.

(** [d[k] = v]: replaces the value of a key already there, else appends. *)
Fixpoint dict_set {V : Type} (d : dict V) (k : Z) (v : V) : dict V :=
  match d with
  | [] => [(k, v)]
  | (k', v') :: d' =>
      if k =? k' then (k, v) :: d' else (k', v') :: dict_set d' k v
  end.

(** [k in d]. *)
Definition dict_contains {V : Type} (d : dict V) (k : Z) : bool :=
  match dict_get d k with Some _ => true | None => false end.

(** [d[k]], raising [KeyError] for a missing key. *)
Definition dict_item {V : Type} (d : dict V) (k : Z) : res V :=
  match dict_get d k with Some v => Return v | None => Throw KeyError end.

(** [dict(zip(keys, values))]. *)
Definition dict_of_zip {V : Type} (keys : list Z) (values : list V)
  : dict V :=
  fold_left (fun d '(k, v) => dict_set d k v) (combine keys values) [].

(** [np.unique(a, return_index=True)[1]]: for every distinct value, in
    increasing order, the position of its first occurrence. *)
Fixpoint first_index (v : Z) (a : list Z) : nat :=
  match a with
  | [] => O
  | x :: a' => if v =? x then O else S (first_index v a')
  end.

Definition np_unique_index (a : list Z) : list nat :=
  map (fun v => first_index v a) (np_unique a).

(** The [event_desc] argument: [None], a [dict] from codes to descriptions,
    a list or array of codes (1-d, or of another dimension), a callable, or
    anything else. *)
Inductive event_desc_arg : Type :=
| DescNone
| DescDict (d : dict pyval)
| DescArray1 (codes : list Z)
| DescArrayND
| DescCallable (f : Z -> pyval)
| DescOther.

(** What [_check_event_description] returns: a [dict] or a callable. *)
Inductive checked_desc : Type :=
| CheckedDict (d : dict pyval)
| CheckedCallable (f : Z -> pyval).

(** [mne.utils._validate_type(val, (str, None), "Event names")]: raises
    [TypeError] unless [val] is a [str] or [None]. *)
Definition _validate_type (val : pyval) : res unit :=
  match val with
  | PyOther => Throw TypeError
  | _ => Return tt
  end.

(** The tests are made in the order of the source: [dict], then
    [collections.Iterable] (as Python up to 3.9 has it), then callable. *)
Definition _check_event_description (event_desc : event_desc_arg)
           (events : list event) : res checked_desc :=
  let event_desc :=
    match event_desc with
    | DescNone => DescArray1 (np_unique (map code_of events))
    | _ => event_desc
    end in
  match event_desc with
  | DescDict d =>
      _ <~ rfor_each _validate_type (map snd d) ;;
      Return (CheckedDict d)
  | DescArray1 codes =>
      Return (CheckedDict
                (dict_of_zip codes (map (fun c => PyStr (str c)) codes)))
  | DescArrayND => Throw ValueError
  | DescCallable f => Return (CheckedCallable f)
  | DescNone | DescOther => Throw ValueError
  end.

(** [event_desc.get if isinstance(event_desc, dict) else event_desc]. *)
Definition func_of (event_desc : checked_desc) : Z -> pyval :=
  match event_desc with
  | CheckedDict d =>
      fun e => match dict_get d e with Some v => v | None => PyNone end
  | CheckedCallable f => f
  end.

Definition _select_events_based_on_id (events : list event)
           (event_desc : checked_desc) : list nat * dict pyval :=
  let func := func_of event_desc in
  let codes := map code_of events in
  let event_ids := map (fun i => nth i codes 0) (np_unique_index codes) in
  let event_desc_ :=
    fold_left (fun event_desc_ e =>
                 let trigger := func e in
                 if is_none trigger then event_desc_
                 else dict_set event_desc_ e trigger)
              event_ids [] in
  let event_sel :=
    map fst (filter (fun '(ii, e) => dict_contains event_desc_ (code_of e))
                    (combine (seq 0 (length events)) events)) in
  (event_sel, event_desc_).

(** [events[event_sel]]: the rows at the listed positions. *)
Definition take_rows (events : list event) (event_sel : list nat)
  : res (list event) :=
  rfor_each (fun i => match nth_error events i with
                      | Some e => Return e
                      | None => Throw IndexError
                      end) event_sel.

Section Annotations.

(** Floating-point numbers and the operations the module does on them,
    left abstract: [(samples - first_samp) / sfreq], [0.0], [x + y],
    [x - y] and [int(x * y)]. *)
Variable float : Type.
Variable true_div : Z -> float -> float.
Variable fzero : float.
Variable fadd fsub : float -> float -> float.
Variable int_of_product : float -> float -> Z.

(** The value of [orig_time], passed on untouched. *)
Variable orig_time_t : Type.

(** An [mne.Annotations] object, as the arguments it is built from. *)
Record Annotations : Type := {
  onset : list float;
  duration : list float;
  description : list pyval;
  orig_time : orig_time_t
}.

Definition annotations_from_events (events : list event) (sfreq : float)
           (event_desc : event_desc_arg) (first_samp : Z)
           (orig_time : orig_time_t) : res Annotations :=
  event_desc <~ _check_event_description event_desc events ;;
  let '(event_sel, event_desc_) :=
    _select_events_based_on_id events event_desc in
  events_sel <~ take_rows events event_sel ;;
  let onsets :=
    map (fun e => true_div (sample_of e - first_samp) sfreq) events_sel in
  descriptions <~
    rfor_each (fun e => dict_item event_desc_ (code_of e)) events_sel ;;
  let durations := repeat fzero (length events_sel) in
  Return {| onset := onsets;
            duration := durations;
            description := descriptions;
            orig_time := orig_time |}.

(** What the docstring of [annotations_from_events] describes: one
    annotation of zero duration for every event whose code has a
    description, in the order of the events; [describe] gives the
    description of a code, or [None]. *)
Definition annotations_of_described (describe : Z -> pyval)
           (events : list event) (sfreq : float) (first_samp : Z)
           (orig_time : orig_time_t) : Annotations :=
  let described :=
    filter (fun e => negb (is_none (describe (code_of e)))) events in
  {| onset :=
       map (fun e => true_div (sample_of e - first_samp) sfreq) described;
     duration := repeat fzero (length described);
     description := map (fun e => describe (code_of e)) described;
     orig_time := orig_time |}.

(** *** [MOABBDataset] *)

(** Keys of the nested dict that [get_data] returns, and the part of a
    recording that this module only hands on (signals, channels,
    annotations). *)
Variables subj_t sess_t run_t payload_t : Type.

(** A recording: the entries of [raw.info] that the module reads or writes,
    [raw.first_samp], and the rest. *)
Record Raw : Type := {
  info_sfreq : float;
  info_subject_id : option subj_t;
  info_session : option sess_t;
  info_run : option run_t;
  info_events : option (list event);
  first_samp : Z;
  payload : payload_t
}.

(** Calls into [mne]: [mne.find_events(raw, stim_channel="stim")],
    [raw.set_annotations(annots)], [len(raw.annotations.onset)], and
    [mne.pick_types] followed by [raw.pick_channels]; and [None] as the
    value of [orig_time]. *)
Variable find_events : Raw -> res (list event).
Variable set_annotations : Raw -> Annotations -> res Raw.
Variable n_annotations : Raw -> nat.
Variable pick_eeg_channels : Raw -> res Raw.
Variable orig_time_none : orig_time_t.

(** The moabb dataset object: [interval], [event_id] (a dict from event
    names to codes, as its items in insertion order) and the rest. *)
Variable dataset_payload_t : Type.

Record moabb_dataset : Type := {
  interval : float * float;
  event_id : list (String.string * Z);
  dataset_payload : dataset_payload_t
}.

(** [self.dataset.get_data(self.subject)]: per subject, per session and
    per run, a recording; every dict as its items in insertion order. *)
Variable get_data :
  moabb_dataset -> list Z ->
  res (list (subj_t * list (sess_t * list (run_t * Raw)))).

(** The windows that a windower returns, a transformer of windows, and
    [WindowsDataset(windows, transforms=transformer)]. *)
Variables windows_t window_transformer_t : Type.

Record WindowsDataset : Type := {
  windows : windows_t;
  transforms : list (option window_transformer_t)
}.

(** A value that is called: [None] (calling it raises [TypeError]) or a
    callable. *)
Definition call1 {A B : Type} (f : option (A -> res B)) (a : A) : res B :=
  match f with
  | Some f => f a
  | None => Throw TypeError
  end.

(** The attributes of a [MOABBDataset] object. *)
Record MOABBDataset : Type := {
  dataset : moabb_dataset;
  subject : list Z;
  raw_transformer : list (option (Raw -> res Raw));
  windower :
    option (Raw * list (String.string * Z) -> res windows_t);
  transformer : list (option window_transformer_t);
  transform_online : bool
}.

(** [{v: k for k, v in self.dataset.event_id.items()}]. *)
Definition inverse_mapping (event_id : list (String.string * Z))
  : dict pyval :=
  fold_left (fun mapping '(k, v) => dict_set mapping v (PyStr k))
            event_id [].

Definition _populate_raw_from_moabb (self : MOABBDataset) (raw : Raw)
           (subj_id : subj_t) (sess_id : sess_t) (run_id : run_t)
  : res Raw :=
  let fs := info_sfreq raw in
  let raw :=
    {| info_sfreq := info_sfreq raw;
       info_subject_id := Some subj_id;
       info_session := Some sess_id;
       info_run := Some run_id;
       info_events := info_events raw;
       first_samp := first_samp raw;
       payload := payload raw |} in
  events <~ find_events raw ;;
  let '(event_onset, event_offset) := interval (dataset self) in
  let events :=
    map (fun '(s, previous, code) =>
           (s + int_of_product event_onset fs, previous, code)) events in
  let raw :=
    {| info_sfreq := info_sfreq raw;
       info_subject_id := info_subject_id raw;
       info_session := info_session raw;
       info_run := info_run raw;
       info_events := Some events;
       first_samp := first_samp raw;
       payload := payload raw |} in
  let mapping := inverse_mapping (event_id (dataset self)) in
  annots <~
    annotations_from_events events (info_sfreq raw) (DescDict mapping)
                            (first_samp raw) orig_time_none ;;
  let annots :=
    {| onset := onset annots;
       duration :=
         map (fun x => fadd x (fsub event_offset event_onset))
             (duration annots);
       description := description annots;
       orig_time := orig_time annots |} in
  set_annotations raw annots.

(** The body of the innermost loop of [_base_datasets_from_moabb]:
    [None] for [continue], else the dataset that is appended. *)
Definition base_dataset_of_run (self : MOABBDataset)
           (subj_id : subj_t) (sess_id : sess_t) (run_id : run_t) (raw : Raw)
  : res (option WindowsDataset) :=
  raw <~ _populate_raw_from_moabb self raw subj_id sess_id run_id ;;
  if (n_annotations raw =? 0)%nat then Return None
  else
    raw <~ pick_eeg_channels raw ;;
    raw <~ fold_left (fun r transformer =>
                        raw <~ r ;; call1 transformer raw)
                     (raw_transformer self) (Return raw) ;;
    windows <~ call1 (windower self) (raw, event_id (dataset self)) ;;
    if transform_online self then
      Return (Some {| windows := windows; transforms := transformer self |})
    else Throw NotImplementedError.

(** The three nested loops, in the order of the items of the dicts. *)
Definition runs_of
           (data : list (subj_t * list (sess_t * list (run_t * Raw))))
  : list (subj_t * sess_t * run_t * Raw) :=
  flat_map (fun '(subj_id, subj_data) =>
              flat_map (fun '(sess_id, sess_data) =>
                          map (fun '(run_id, raw) =>
                                 (subj_id, sess_id, run_id, raw))
                              sess_data)
                       subj_data)
           data.

(** The elements that are not [None], in order. *)
Fixpoint appended {A : Type} (l : list (option A)) : list A :=
  match l with
  | [] => []
  | Some a :: l' => a :: appended l'
  | None :: l' => appended l'
  end.

Definition _base_datasets_from_moabb (self : MOABBDataset)
  : res (list WindowsDataset) :=
  data <~ get_data (dataset self) (subject self) ;;
  results <~
    rfor_each (fun '(subj_id, sess_id, run_id, raw) =>
                 base_dataset_of_run self subj_id sess_id run_id raw)
              (runs_of data) ;;
  Return (appended results).

(** A class of [moabb.datasets.utils.dataset_list]: its [__name__] and what
    calling it gives. *)
Record dataset_class : Type := {
  __name__ : String.string;
  instantiate : res moabb_dataset
}.

Fixpoint find_data_set (dataset_list : list dataset_class)
         (dataset_name : String.string) : res dataset_class :=
  match dataset_list with
  | [] => Throw ValueError
  | dataset :: rest =>
      if String.eqb dataset_name (__name__ dataset) then Return dataset
      else find_data_set rest dataset_name
  end.

(** An argument that may be a list or a single value (or [None]):
    [x if isinstance(x, list) else [x]]. *)
Inductive maybe_list (A : Type) : Type :=
| NotAList (a : A)
| AList (l : list A).
Arguments NotAList {A} a.
Arguments AList {A} l.

Definition as_list {A : Type} (x : maybe_list A) : list A :=
  match x with
  | NotAList a => [a]
  | AList l => l
  end.

(** [ConcatDataset.__init__(base_datasets)], of [torch]. *)
Variable concat_t : Type.
Variable concat_init : list WindowsDataset -> res concat_t.

(** [MOABBDataset.__init__]; [subject] is an [int] ([inl]) or a list of
    them ([inr]).  [path] is not used. *)
Definition MOABBDataset_init (dataset_list : list dataset_class)
           (dataset_name : String.string) (subject : Z + list Z)
           (raw_transformer : maybe_list (option (Raw -> res Raw)))
           (windower :
              option (Raw * list (String.string * Z) -> res windows_t))
           (transformer : maybe_list (option window_transformer_t))
           (transform_online : bool)
  : res (MOABBDataset * concat_t) :=
  cls <~ find_data_set dataset_list dataset_name ;;
  dataset <~ instantiate cls ;;
  let self :=
    {| dataset := dataset;
       subject := match subject with inl s => [s] | inr l => l end;
       raw_transformer := as_list raw_transformer;
       windower := windower;
       transformer := as_list transformer;
       transform_online := transform_online |} in
  base_datasets <~ _base_datasets_from_moabb self ;;
  concat <~ concat_init base_datasets ;;
  Return (self, concat).

End Annotations.

Arguments onset {float orig_time_t}.
Arguments duration {float orig_time_t}.
Arguments description {float orig_time_t}.
Arguments orig_time {float orig_time_t}.
Arguments Build_Annotations {float orig_time_t}.
Arguments annotations_from_events {float} true_div fzero {orig_time_t}.
Arguments annotations_of_described {float} true_div fzero {orig_time_t}.
Arguments NotAList {A} a.
Arguments AList {A} l.
Arguments info_sfreq {float subj_t sess_t run_t payload_t}.
Arguments info_subject_id {float subj_t sess_t run_t payload_t}.
Arguments info_session {float subj_t sess_t run_t payload_t}.
Arguments info_run {float subj_t sess_t run_t payload_t}.
Arguments info_events {float subj_t sess_t run_t payload_t}.
Arguments first_samp {float subj_t sess_t run_t payload_t}.
Arguments payload {float subj_t sess_t run_t payload_t}.
Arguments Build_Raw {float subj_t sess_t run_t payload_t}.
Arguments interval {float dataset_payload_t}.
Arguments event_id {float dataset_payload_t}.
Arguments dataset_payload {float dataset_payload_t}.
Arguments Build_moabb_dataset {float dataset_payload_t}.
Arguments windows {windows_t window_transformer_t}.
Arguments transforms {windows_t window_transformer_t}.
Arguments Build_WindowsDataset {windows_t window_transformer_t}.
Arguments dataset {float subj_t sess_t run_t payload_t dataset_payload_t
                   windows_t window_transformer_t}.
Arguments subject {float subj_t sess_t run_t payload_t dataset_payload_t
                   windows_t window_transformer_t}.
Arguments raw_transformer {float subj_t sess_t run_t payload_t
                           dataset_payload_t windows_t window_transformer_t}.
Arguments windower {float subj_t sess_t run_t payload_t dataset_payload_t
                    windows_t window_transformer_t}.
Arguments transformer {float subj_t sess_t run_t payload_t dataset_payload_t
                       windows_t window_transformer_t}.
Arguments transform_online {float subj_t sess_t run_t payload_t
                            dataset_payload_t windows_t window_transformer_t}.
Arguments Build_MOABBDataset {float subj_t sess_t run_t payload_t
                              dataset_payload_t windows_t
                              window_transformer_t}.
Arguments __name__ {float dataset_payload_t}.
Arguments instantiate {float dataset_payload_t}.
Arguments Build_dataset_class {float dataset_payload_t}.
Arguments find_data_set {float dataset_payload_t}.
Arguments runs_of {float subj_t sess_t run_t payload_t}.
Arguments _populate_raw_from_moabb
  {float} true_div fzero fadd fsub int_of_product
  {orig_time_t subj_t sess_t run_t payload_t}
  find_events set_annotations orig_time_none
  {dataset_payload_t windows_t window_transformer_t}.
Arguments base_dataset_of_run
  {float} true_div fzero fadd fsub int_of_product
  {orig_time_t subj_t sess_t run_t payload_t}
  find_events set_annotations n_annotations pick_eeg_channels orig_time_none
  {dataset_payload_t windows_t window_transformer_t}.
Arguments _base_datasets_from_moabb
  {float} true_div fzero fadd fsub int_of_product
  {orig_time_t subj_t sess_t run_t payload_t}
  find_events set_annotations n_annotations pick_eeg_channels orig_time_none
  {dataset_payload_t} get_data {windows_t window_transformer_t}.
Arguments MOABBDataset_init
  {float} true_div fzero fadd fsub int_of_product
  {orig_time_t subj_t sess_t run_t payload_t}
  find_events set_annotations n_annotations pick_eeg_channels orig_time_none
  {dataset_payload_t} get_data {windows_t window_transformer_t concat_t}
  concat_init.

End Moabb.

(** ** A concrete adapter, to run the definitions on examples *)

Module MoabbExample.

Import Moabb.
Import String.StringSyntax.
Delimit Scope string_scope with string.

(** Numbers are integers here, and a recording carries the events of its
    stim channel and its annotations. *)
Definition float : Type := Z.
Definition true_div (a : Z) (b : float) : float := a / b.
Definition fzero : float := 0.
Definition fadd (a b : float) : float := a + b.
Definition fsub (a b : float) : float := a - b.
Definition int_of_product (a b : float) : Z := a * b.

Definition annots_t : Type := Annotations float unit.
Definition raw_t : Type := Raw float Z Z Z (list event * annots_t).

Definition find_events (raw : raw_t) : res (list event) :=
  Return (fst (payload raw)).

Definition set_annotations (raw : raw_t) (annots : annots_t) : res raw_t :=
  Return {| info_sfreq := info_sfreq raw;
            info_subject_id := info_subject_id raw;
            info_session := info_session raw;
            info_run := info_run raw;
            info_events := info_events raw;
            first_samp := first_samp raw;
            payload := (fst (payload raw), annots) |}.

Definition n_annotations (raw : raw_t) : nat :=
  length (onset (snd (payload raw))).

Definition pick_eeg_channels (raw : raw_t) : res raw_t := Return raw.

Definition no_annotations : annots_t :=
  {| onset := []; duration := []; description := []; orig_time := tt |}.

(** A recording at 250 Hz with three events, coded 1, 7 and 2. *)
Definition example_raw : raw_t :=
  {| info_sfreq := 250;
     info_subject_id := None;
     info_session := None;
     info_run := None;
     info_events := None;
     first_samp := 100;
     payload := ([(600, 0, 1); (1100, 0, 7); (1600, 0, 2)],
                 no_annotations) |}.

Definition example_moabb_dataset : moabb_dataset float unit :=
  {| interval := (2, 6);
     event_id := [("left_hand"%string, 1); ("right_hand"%string, 2)];
     dataset_payload := tt |}.

Definition get_data (ds : moabb_dataset float unit) (subjects : list Z)
  : res (list (Z * list (Z * list (Z * raw_t)))) :=
  Return (map (fun s => (s, [(0, [(0, example_raw)])])) subjects).

Definition example_class : dataset_class float unit :=
  {| __name__ := "BNCI2014001"%string;
     instantiate := Return example_moabb_dataset |}.

Definition other_class : dataset_class float unit :=
  {| __name__ := "Zhou2016"%string;
     instantiate := Throw ExternalError |}.

Definition example_windower
           (arg : raw_t * list (String.string * Z)) : res nat :=
  Return (n_annotations (fst arg)).

(** The object that [MOABBDataset("BNCI2014001", 1, windower=...)] has
    when it reaches [_base_datasets_from_moabb]. *)
Definition example_self : MOABBDataset float Z Z Z (list event * annots_t)
                                       unit nat unit :=
  {| dataset := example_moabb_dataset;
     subject := [1];
     raw_transformer := [None];
     windower := Some example_windower;
     transformer := [None];
     transform_online := false |}.

Definition concat_init (l : list (WindowsDataset nat unit))
  : res (list (WindowsDataset nat unit)) :=
  Return l.

(** Two events and a dict that describes the code of the first one. *)
Definition example_events : list event := [(600, 0, 1); (1100, 0, 7)].

Definition example_desc : dict pyval :=
  [(1, PyStr "left_hand"%string); (7, PyNone)].

End MoabbExample.

(** * Loops and indexing *)

Module PyFacts.

(** A [for] loop over [range(len(l))] whose body succeeds on every index. *)
Lemma for_each_range {A B : Type} (f : nat -> outcome B) (h : A -> B)
      (l : list A) : forall s,
  (forall i a, nth_error l i = Some a -> f (s + i)%nat = Ok (h a)) ->
  for_each f (seq s (length l)) = Ok (map h l).
Proof.
  induction l as [|a l IH]; intros s Hf; [reflexivity|].
  cbn [length seq for_each map].
  pose proof (Hf O a eq_refl) as H0. rewrite Nat.add_0_r in H0.
  rewrite H0. cbn [bind].
  rewrite (IH (S s)); [reflexivity|].
  intros i b Hi. rewrite <- (Hf (S i) b Hi). f_equal. lia.
Qed.

(** A [for] loop over [enumerate(l)] whose body succeeds on every item. *)
Lemma for_each_enumerate {A : Type} (f : nat * A -> outcome unit)
      (l : list A) : forall s,
  (forall i a, nth_error l i = Some a -> f ((s + i)%nat, a) = Ok tt) ->
  exists r, for_each f (combine (seq s (length l)) l) = Ok r.
Proof.
  induction l as [|a l IH]; intros s Hf; [now exists []|].
  cbn [length seq combine for_each].
  pose proof (Hf O a eq_refl) as H0. rewrite Nat.add_0_r in H0.
  rewrite H0. cbn [bind].
  destruct (IH (S s)) as [r Hr].
  - intros i b Hi. rewrite <- (Hf (S i) b Hi). do 2 f_equal. lia.
  - rewrite Hr. now eexists.
Qed.

Lemma py_index_nth_error {A : Type} (l : list A) (i : nat) (a : A) :
  nth_error l i = Some a -> py_index l (Z.of_nat i) = Ok a.
Proof.
  intros Hi.
  assert (Hlt : (i < length l)%nat) by (apply nth_error_Some; congruence).
  unfold py_index.
  destruct (Z.ltb_spec (Z.of_nat i) 0) as [|_]; [lia|].
  destruct (Z.ltb_spec (Z.of_nat i) 0) as [|_]; [lia|].
  destruct (Z.leb_spec (Z.of_nat (length l)) (Z.of_nat i)) as [|_]; [lia|].
  cbn [orb]. now rewrite Nat2Z.id, Hi.
Qed.

Lemma py_index_last {A : Type} (pre : list A) (last : A) :
  py_index (pre ++ [last]) (-1) = Ok last.
Proof.
  unfold py_index. rewrite length_app. cbn [length].
  change (-1 <? 0) with true. cbv iota.
  destruct (Z.ltb_spec (-1 + Z.of_nat (length pre + 1)) 0) as [|_]; [lia|].
  destruct (Z.leb_spec (Z.of_nat (length pre + 1))
                       (-1 + Z.of_nat (length pre + 1))) as [|_]; [lia|].
  cbn [orb].
  replace (Z.to_nat (-1 + Z.of_nat (length pre + 1))) with (length pre) by lia.
  now rewrite nth_error_app2, Nat.sub_diag by lia.
Qed.

End PyFacts.

(** * Properties of the window planner *)

Module WindowPlannerFacts.

Import WindowPlanner.

Section Facts.

Variables i_trial_start i_trial_stop : Z.
Variables input_time_length n_preds_per_input : Z.

Local Notation "'plan'" :=
  (_get_start_stop_blocks_for_trial
     i_trial_start i_trial_stop input_time_length n_preds_per_input).
Local Notation "'loop'" :=
  (while_loop i_trial_stop input_time_length n_preds_per_input).
Local Notation "'iters'" := (iterations i_trial_stop n_preds_per_input).
Local Notation "'emitted'" :=
  (emit i_trial_stop input_time_length n_preds_per_input).
Local Notation "'n'" := n_preds_per_input.

Hypothesis n_pos : 1 <= n.

Lemma iterations_done c : i_trial_stop <= c -> iters c = O.
Proof.
  intros Hc. unfold iterations.
  assert ((i_trial_stop - c + n - 1) / n <= 0); [|lia].
  assert ((i_trial_stop - c + n - 1) / n < 1); [|lia].
  apply Z.div_lt_upper_bound; lia.
Qed.

Lemma iterations_step c :
  c < i_trial_stop -> iters c = S (iters (c + n)).
Proof.
  intros Hc. unfold iterations.
  replace (i_trial_stop - (c + n) + n - 1)
    with ((i_trial_stop - c + n - 1) + (-1) * n) by lia.
  rewrite Z.div_add by lia.
  assert (1 <= (i_trial_stop - c + n - 1) / n).
  { apply Z.div_le_lower_bound; lia. }
  lia.
Qed.

(** The number of iterations is the ceiling of the remaining length over
    the step. *)
Lemma iterations_ceil c :
  c < i_trial_stop ->
  (Z.of_nat (iters c) - 1) * n < i_trial_stop - c <= Z.of_nat (iters c) * n.
Proof.
  intros Hc. unfold iterations.
  set (a := i_trial_stop - c + n - 1).
  assert (Hq : 0 <= a / n) by (apply Z.div_pos; lia).
  rewrite Z2Nat.id by exact Hq.
  pose proof (Z.div_mod a n ltac:(lia)) as Hdm.
  pose proof (Z.mod_pos_bound a n ltac:(lia)) as Hm.
  nia.
Qed.

(** The loop, run from any cursor with enough fuel, appends exactly the
    windows of [emit]. *)
Lemma while_loop_emit k : forall fuel c acc,
  iters c = k -> (k < fuel)%nat ->
  loop fuel c acc = Some (acc ++ emitted k c).
Proof.
  induction k as [|k IH]; intros fuel c acc Hk Hfuel.
  - destruct fuel as [|fuel]; [lia|]. simpl.
    destruct (Z.ltb_spec c i_trial_stop) as [Hlt|Hge].
    + rewrite (iterations_step c Hlt) in Hk. discriminate.
    + now rewrite app_nil_r.
  - destruct fuel as [|fuel]; [lia|]. simpl.
    destruct (Z.ltb_spec c i_trial_stop) as [Hlt|Hge].
    + rewrite (iterations_step c Hlt) in Hk. injection Hk as Hk.
      rewrite (IH fuel (c + n)) by (assumption || lia).
      now rewrite <- app_assoc.
    + rewrite (iterations_done c Hge) in Hk. discriminate.
Qed.

Lemma emit_length k c : length (emitted k c) = k.
Proof. revert c. induction k; intros c; simpl; [|rewrite IHk]; reflexivity. Qed.

Lemma emit_nth k : forall c i,
  (i < k)%nat ->
  nth_error (emitted k c) i =
    Some (Z.min (c + (Z.of_nat i + 1) * n) i_trial_stop - input_time_length,
          Z.min (c + (Z.of_nat i + 1) * n) i_trial_stop).
Proof.
  induction k as [|k IH]; intros c i Hi; [lia|].
  destruct i as [|i]; cbn [emit nth_error].
  - now replace (c + (Z.of_nat 0 + 1) * n) with (c + n) by lia.
  - rewrite IH by lia.
    now replace (c + n + (Z.of_nat i + 1) * n)
      with (c + (Z.of_nat (S i) + 1) * n) by lia.
Qed.

(** With enough fuel the planner returns, and returns [emit]. *)
Lemma plan_emit fuel :
  (iters i_trial_start < fuel)%nat ->
  plan fuel = Some (emitted (iters i_trial_start) i_trial_start).
Proof.
  intros Hfuel. unfold _get_start_stop_blocks_for_trial.
  now rewrite (while_loop_emit (iters i_trial_start)).
Qed.

(** The result does not depend on the fuel, once there is enough. *)
Lemma plan_fuel_irrelevant fuel blocks :
  plan fuel = Some blocks ->
  blocks = emitted (iters i_trial_start) i_trial_start.
Proof.
  intros Hrun.
  destruct (Nat.lt_ge_cases (iters i_trial_start) fuel) as [Hlt|Hge].
  - rewrite plan_emit in Hrun by assumption. now injection Hrun.
  - exfalso. revert Hrun Hge. unfold _get_start_stop_blocks_for_trial.
    generalize (@nil window) as acc. generalize i_trial_start as c.
    induction fuel as [|fuel IH]; intros c acc Hrun Hge; [discriminate|].
    simpl in Hrun.
    destruct (Z.ltb_spec c i_trial_stop) as [Hlt|Hge'].
    + rewrite (iterations_step c Hlt) in Hge.
      eapply IH; [exact Hrun|lia].
    + rewrite (iterations_done c Hge') in Hge. lia.
Qed.

(** Stop of the [i]-th window, for the windows before the last one and
    for the last one. *)
Lemma stop_before_last i :
  i_trial_start < i_trial_stop ->
  (S i < iters i_trial_start)%nat ->
  Z.min (i_trial_start + (Z.of_nat i + 1) * n) i_trial_stop
  = i_trial_start + (Z.of_nat i + 1) * n
  /\ i_trial_start + (Z.of_nat i + 1) * n < i_trial_stop.
Proof.
  intros Hlen Hi. pose proof (iterations_ceil _ Hlen) as Hc. nia.
Qed.

Lemma stop_of_last i :
  i_trial_start < i_trial_stop ->
  S i = iters i_trial_start ->
  Z.min (i_trial_start + (Z.of_nat i + 1) * n) i_trial_stop = i_trial_stop.
Proof.
  intros Hlen Hi. pose proof (iterations_ceil _ Hlen) as Hc. nia.
Qed.

Lemma loop_out_of_fuel fuel : forall c acc,
  (fuel <= iters c)%nat -> loop fuel c acc = None.
Proof.
  induction fuel as [|fuel IH]; intros c acc Hfuel; [reflexivity|].
  simpl. destruct (Z.ltb_spec c i_trial_stop) as [Hlt|Hge].
  - apply IH. rewrite (iterations_step c Hlt) in Hfuel. lia.
  - rewrite (iterations_done c Hge) in Hfuel. lia.
Qed.

(** Every emitted window is the [i]-th one for some [i], with its stop
    given by the clipped cursor. *)
Lemma emitted_nth_inv i w :
  nth_error (emitted (iters i_trial_start) i_trial_start) i = Some w ->
  (i < iters i_trial_start)%nat
  /\ snd w = Z.min (i_trial_start + (Z.of_nat i + 1) * n) i_trial_stop
  /\ fst w = snd w - input_time_length.
Proof.
  intros Hw.
  assert (Hi : (i < iters i_trial_start)%nat).
  { rewrite <- (emit_length (iters i_trial_start) i_trial_start).
    apply nth_error_Some. congruence. }
  rewrite emit_nth in Hw by exact Hi. injection Hw as <-. auto.
Qed.

Lemma emitted_split_last :
  i_trial_start < i_trial_stop ->
  exists pre last,
    emitted (iters i_trial_start) i_trial_start = pre ++ [last]
    /\ length pre = pred (iters i_trial_start)
    /\ snd last = i_trial_stop.
Proof.
  intros Hlen.
  pose proof (iterations_step _ Hlen) as Hk.
  pose proof (emit_length (iters i_trial_start) i_trial_start) as Hl.
  destruct (exists_last (l := emitted (iters i_trial_start) i_trial_start))
    as (pre & last & Heq).
  { intros E. rewrite E in Hl. simpl in Hl. lia. }
  exists pre, last. rewrite Heq in Hl. rewrite length_app in Hl.
  simpl in Hl. repeat split; [exact Heq|lia|].
  assert (Hnth : nth_error (emitted (iters i_trial_start) i_trial_start)
                           (length pre) = Some last).
  { rewrite Heq, nth_error_app2, Nat.sub_diag by lia. reflexivity. }
  apply emitted_nth_inv in Hnth. destruct Hnth as (_ & -> & _).
  apply stop_of_last; [exact Hlen|lia].
Qed.

End Facts.

(** C8 (window shape): on a valid planning call that is given enough fuel,
    the planner returns, and every window [(start, stop)] it emits has
    [stop - start = input_time_length] and [stop <= i_trial_stop]. *)
Theorem window_shape
        (i_trial_start i_trial_stop input_time_length n_preds_per_input : Z)
        (fuel : nat) :
  i_trial_start < i_trial_stop ->
  1 <= n_preds_per_input <= input_time_length ->
  (iterations i_trial_stop n_preds_per_input i_trial_start < fuel)%nat ->
  exists blocks,
    _get_start_stop_blocks_for_trial
      i_trial_start i_trial_stop input_time_length n_preds_per_input fuel
    = Some blocks
    /\ forall start stop,
        In (start, stop) blocks ->
        stop - start = input_time_length /\ stop <= i_trial_stop.
Proof.
  intros Hlen [Hn HT] Hfuel.
  eexists. split; [apply plan_emit; assumption|].
  intros start stop Hin.
  apply In_nth_error in Hin. destruct Hin as [i Hi].
  apply emitted_nth_inv in Hi.
  destruct Hi as (_ & Hstop & Hstart). simpl in Hstop, Hstart. lia.
Qed.

Lemma window_shape_witness :
  exists blocks,
    _get_start_stop_blocks_for_trial 40 100 50 10 7 = Some blocks
    /\ forall start stop,
        In (start, stop) blocks -> stop - start = 50 /\ stop <= 100.
Proof.
  apply (window_shape 40 100 50 10 7); [lia | lia | vm_compute; lia].
Defined.

(** C9 (termination): whenever [i_trial_stop > i_trial_start] and
    [n_preds_per_input >= 1] the loop terminates: there is a number [k] of
    iterations such that any fuel above [k] gives the same list of windows
    and no smaller fuel gives any.  The loop stops exactly when the clipped
    stop reaches the trial stop: the last window emitted has
    [i_adjusted_stop = i_trial_stop], and every window before it has
    [i_adjusted_stop < i_trial_stop]. *)
Theorem planner_terminates
        (i_trial_start i_trial_stop input_time_length n_preds_per_input : Z) :
  i_trial_start < i_trial_stop ->
  1 <= n_preds_per_input ->
  exists (k : nat) (blocks pre : list window) (last : window),
    (forall fuel, (k < fuel)%nat ->
       _get_start_stop_blocks_for_trial
         i_trial_start i_trial_stop input_time_length n_preds_per_input fuel
       = Some blocks)
    /\ (forall fuel, (fuel <= k)%nat ->
       _get_start_stop_blocks_for_trial
         i_trial_start i_trial_stop input_time_length n_preds_per_input fuel
       = None)
    /\ blocks = pre ++ [last]
    /\ snd last = i_trial_stop
    /\ forall w, In w pre -> snd w < i_trial_stop.
Proof.
  intros Hlen Hn.
  destruct (emitted_split_last i_trial_start i_trial_stop input_time_length
              n_preds_per_input Hn Hlen) as (pre & last & Heq & Hpre & Hlast).
  exists (iterations i_trial_stop n_preds_per_input i_trial_start),
    (emit i_trial_stop input_time_length n_preds_per_input
          (iterations i_trial_stop n_preds_per_input i_trial_start)
          i_trial_start), pre, last.
  split; [intros fuel Hf; apply plan_emit; assumption|].
  split; [intros fuel Hf; apply loop_out_of_fuel; assumption|].
  split; [exact Heq|]. split; [exact Hlast|].
  intros w Hin. apply In_nth_error in Hin. destruct Hin as [i Hi].
  assert (Hlt : (i < length pre)%nat) by (apply nth_error_Some; congruence).
  assert (Hnth : nth_error
                   (emit i_trial_stop input_time_length n_preds_per_input
                      (iterations i_trial_stop n_preds_per_input i_trial_start)
                      i_trial_start) i = Some w).
  { rewrite Heq, nth_error_app1 by exact Hlt. exact Hi. }
  apply emitted_nth_inv in Hnth.
  destruct Hnth as (_ & -> & _).
  destruct (stop_before_last i_trial_start i_trial_stop n_preds_per_input
              Hn i Hlen) as [-> Hb]; lia.
Qed.

Lemma planner_terminates_witness :
  exists (k : nat) (blocks pre : list window) (last : window),
    (forall fuel, (k < fuel)%nat ->
       _get_start_stop_blocks_for_trial 0 7 4 3 fuel = Some blocks)
    /\ (forall fuel, (fuel <= k)%nat ->
       _get_start_stop_blocks_for_trial 0 7 4 3 fuel = None)
    /\ blocks = pre ++ [last]
    /\ snd last = 7
    /\ forall w, In w pre -> snd w < 7.
Proof. apply (planner_terminates 0 7 4 3); lia. Defined.

(** C10 (window count): whenever [i_trial_stop > i_trial_start] and
    [n_preds_per_input >= 1], the planner, given enough fuel, emits exactly
    [ceil((i_trial_stop - i_trial_start) / n_preds_per_input)] windows (the
    integer [k] with [(k - 1) * n < i_trial_stop - i_trial_start <= k * n]),
    and their stops are strictly increasing. *)
Theorem window_count
        (i_trial_start i_trial_stop input_time_length n_preds_per_input : Z)
        (fuel : nat) :
  i_trial_start < i_trial_stop ->
  1 <= n_preds_per_input ->
  (iterations i_trial_stop n_preds_per_input i_trial_start < fuel)%nat ->
  exists blocks,
    _get_start_stop_blocks_for_trial
      i_trial_start i_trial_stop input_time_length n_preds_per_input fuel
    = Some blocks
    /\ (Z.of_nat (length blocks) - 1) * n_preds_per_input
       < i_trial_stop - i_trial_start
       <= Z.of_nat (length blocks) * n_preds_per_input
    /\ forall i j wi wj,
        (i < j)%nat ->
        nth_error blocks i = Some wi ->
        nth_error blocks j = Some wj ->
        snd wi < snd wj.
Proof.
  intros Hlen Hn Hfuel.
  eexists. split; [apply plan_emit; assumption|].
  rewrite emit_length. split; [apply iterations_ceil; assumption|].
  intros i j wi wj Hij Hi Hj.
  apply emitted_nth_inv in Hi.
  apply emitted_nth_inv in Hj.
  destruct Hi as (Hik & -> & _), Hj as (Hjk & -> & _).
  destruct (stop_before_last i_trial_start i_trial_stop n_preds_per_input
              Hn i Hlen) as [-> Hb]; [lia|].
  apply Z.min_glb_lt; nia.
Qed.

Lemma window_count_witness :
  exists blocks,
    _get_start_stop_blocks_for_trial 0 7 4 3 4 = Some blocks
    /\ (Z.of_nat (length blocks) - 1) * 3 < 7 - 0
       <= Z.of_nat (length blocks) * 3
    /\ forall i j wi wj,
        (i < j)%nat ->
        nth_error blocks i = Some wi ->
        nth_error blocks j = Some wj ->
        snd wi < snd wj.
Proof. apply (window_count 0 7 4 3 4); [lia | lia | vm_compute; lia]. Defined.

(** *** Predicted samples *)

Lemma In_py_range a b x : In x (py_range a b) <-> a <= x < b.
Proof.
  unfold py_range. rewrite in_map_iff. split.
  - intros (i & <- & Hi). apply in_seq in Hi. lia.
  - intros Hx. exists (Z.to_nat (x - a)). split; [lia|].
    apply in_seq. lia.
Qed.

Lemma In_predicted_range n w x :
  In x (predicted_range n w) <-> predicts n w x.
Proof. destruct w as [s e]. apply In_py_range. Qed.

Lemma In_all_predicted_samples n blocks x :
  In x (concat (all_predicted_samples n blocks))
  <-> exists w, In w blocks /\ predicts n w x.
Proof.
  unfold all_predicted_samples. rewrite in_concat. split.
  - intros (r & Hr & Hx). apply in_map_iff in Hr.
    destruct Hr as (w & <- & Hw). exists w.
    split; [exact Hw|]. now apply In_predicted_range.
  - intros (w & Hw & Hx). exists (predicted_range n w).
    split; [now apply in_map|]. now apply In_predicted_range.
Qed.

(** The window that predicts sample [x] first: the one of index
    [(x - i_trial_start) / n_preds_per_input]. *)
Lemma predicting_window i_trial_start i_trial_stop input_time_length n x :
  1 <= n ->
  i_trial_start <= x < i_trial_stop ->
  exists w,
    nth_error (emit i_trial_stop input_time_length n
                    (iterations i_trial_stop n i_trial_start) i_trial_start)
              (Z.to_nat ((x - i_trial_start) / n)) = Some w
    /\ predicts n w x.
Proof.
  intros Hn Hx.
  assert (Hlen : i_trial_start < i_trial_stop) by lia.
  pose proof (iterations_ceil i_trial_stop n Hn _ Hlen) as Hc.
  set (q := (x - i_trial_start) / n).
  assert (Hq : 0 <= q) by (apply Z.div_pos; lia).
  pose proof (Z.div_mod (x - i_trial_start) n ltac:(lia)) as Hdm.
  pose proof (Z.mod_pos_bound (x - i_trial_start) n ltac:(lia)) as Hm.
  fold q in Hdm.
  eexists. split.
  - apply emit_nth. nia.
  - unfold predicts. simpl. rewrite Z2Nat.id by exact Hq. nia.
Qed.

(** C1, as the code has it (coverage): on a valid planning call that is
    given enough fuel, the planner returns windows such that the union of
    the predicted ranges [range(stop - n_preds_per_input, stop)], clipped
    below at [i_trial_start], is exactly [range(i_trial_start, i_trial_stop)];
    and when the trial is at least [n_preds_per_input] long (as every trial
    that [get_batches] plans is) nothing is clipped: the union itself is
    exactly that range. *)
Theorem coverage_complete
        (i_trial_start i_trial_stop input_time_length n_preds_per_input : Z)
        (fuel : nat) :
  1 <= i_trial_stop - i_trial_start ->
  1 <= n_preds_per_input <= input_time_length ->
  (iterations i_trial_stop n_preds_per_input i_trial_start < fuel)%nat ->
  exists blocks,
    _get_start_stop_blocks_for_trial
      i_trial_start i_trial_stop input_time_length n_preds_per_input fuel
    = Some blocks
    /\ (forall x,
          In x (concat (all_predicted_samples n_preds_per_input blocks))
          /\ i_trial_start <= x
          <-> i_trial_start <= x < i_trial_stop)
    /\ (n_preds_per_input <= i_trial_stop - i_trial_start ->
        forall x,
          In x (concat (all_predicted_samples n_preds_per_input blocks))
          <-> i_trial_start <= x < i_trial_stop).
Proof.
  intros Hlen [Hn HT] Hfuel.
  eexists. split; [apply plan_emit; assumption|].
  assert (Hup : forall x,
             In x (concat (all_predicted_samples n_preds_per_input
                     (emit i_trial_stop input_time_length n_preds_per_input
                        (iterations i_trial_stop n_preds_per_input
                                    i_trial_start) i_trial_start))) ->
             x < i_trial_stop
             /\ (n_preds_per_input <= i_trial_stop - i_trial_start ->
                 i_trial_start <= x)).
  { intros x Hx. apply In_all_predicted_samples in Hx.
    destruct Hx as (w & Hw & Hx). apply In_nth_error in Hw.
    destruct Hw as [i Hi]. apply emitted_nth_inv in Hi.
    destruct Hi as (_ & Hstop & _). unfold predicts in Hx.
    rewrite Hstop in Hx. split; [lia|]. intros HL. nia. }
  assert (Hdown : forall x,
             i_trial_start <= x < i_trial_stop ->
             In x (concat (all_predicted_samples n_preds_per_input
                     (emit i_trial_stop input_time_length n_preds_per_input
                        (iterations i_trial_stop n_preds_per_input
                                    i_trial_start) i_trial_start)))).
  { intros x Hx. apply In_all_predicted_samples.
    destruct (predicting_window i_trial_start i_trial_stop input_time_length
                n_preds_per_input x Hn Hx) as (w & Hw & Hp).
    exists w. split; [eapply nth_error_In; exact Hw|exact Hp]. }
  split.
  - intros x. split.
    + intros [Hin Hlo]. destruct (Hup x Hin). lia.
    + intros Hx. split; [now apply Hdown|lia].
  - intros HL x. split.
    + intros Hin. destruct (Hup x Hin) as [? Hlo]. specialize (Hlo HL). lia.
    + apply Hdown.
Qed.

Lemma coverage_complete_witness :
  exists blocks,
    _get_start_stop_blocks_for_trial 0 7 4 3 4 = Some blocks
    /\ (forall x,
          In x (concat (all_predicted_samples 3 blocks)) /\ 0 <= x
          <-> 0 <= x < 7)
    /\ (3 <= 7 - 0 ->
        forall x,
          In x (concat (all_predicted_samples 3 blocks)) <-> 0 <= x < 7).
Proof.
  apply (coverage_complete 0 7 4 3 4); [lia | lia | vm_compute; lia].
Defined.

(** C1 as stated fails on a trial shorter than [n_preds_per_input]: for
    [i_trial_start = 0], [i_trial_stop = 1] and
    [input_time_length = n_preds_per_input = 2] the only window is
    [(-1, 1)], whose predicted range holds the sample [-1], outside
    [range(0, 1)]. *)
Lemma coverage_complete_counterexample :
  1 <= 1 - 0 /\ 1 <= 2 <= 2
  /\ exists blocks x,
      _get_start_stop_blocks_for_trial 0 1 2 2 2 = Some blocks
      /\ In x (concat (all_predicted_samples 2 blocks))
      /\ ~ (0 <= x < 1).
Proof.
  split; [lia|]. split; [lia|].
  exists [(-1, 1)], (-1). split; [reflexivity|].
  split; [simpl; auto|lia].
Qed.

(** C2, as the code has it (boundary anchoring): on a valid planning call
    that is given enough fuel, the planner returns at least one window; the
    first window starts at [i_trial_stop - input_time_length] exactly when
    the trial is at most [n_preds_per_input] long; the first predicted
    sample of the first window is [i_trial_start] when the trial is at
    least [n_preds_per_input] long, and [i_trial_stop - n_preds_per_input]
    (before the trial start) when it is shorter; the last window stops at
    [i_trial_stop]. *)
Theorem boundary_anchoring
        (i_trial_start i_trial_stop input_time_length n_preds_per_input : Z)
        (fuel : nat) :
  i_trial_start < i_trial_stop ->
  1 <= n_preds_per_input <= input_time_length ->
  (iterations i_trial_stop n_preds_per_input i_trial_start < fuel)%nat ->
  exists (first : window) (rest pre : list window) (last : window),
    _get_start_stop_blocks_for_trial
      i_trial_start i_trial_stop input_time_length n_preds_per_input fuel
    = Some (first :: rest)
    /\ first :: rest = pre ++ [last]
    /\ (fst first = i_trial_stop - input_time_length
        <-> i_trial_stop - i_trial_start <= n_preds_per_input)
    /\ (n_preds_per_input <= i_trial_stop - i_trial_start ->
        snd first - n_preds_per_input = i_trial_start)
    /\ (i_trial_stop - i_trial_start < n_preds_per_input ->
        snd first - n_preds_per_input = i_trial_stop - n_preds_per_input)
    /\ snd last = i_trial_stop.
Proof.
  intros Hlen [Hn HT] Hfuel.
  destruct (emitted_split_last i_trial_start i_trial_stop input_time_length
              n_preds_per_input Hn Hlen) as (pre & last & Heq & _ & Hlast).
  rewrite (plan_emit _ _ _ _ Hn fuel Hfuel).
  rewrite (iterations_step i_trial_stop n_preds_per_input Hn _ Hlen)
    in Heq |- *.
  cbn [emit] in Heq |- *.
  eexists _, _, pre, last. split; [reflexivity|].
  split; [exact Heq|]. cbn [fst snd].
  repeat split; intros; lia.
Qed.

Lemma boundary_anchoring_witness :
  exists (first : window) (rest pre : list window) (last : window),
    _get_start_stop_blocks_for_trial 0 7 4 3 4 = Some (first :: rest)
    /\ first :: rest = pre ++ [last]
    /\ (fst first = 7 - 4 <-> 7 - 0 <= 3)
    /\ (3 <= 7 - 0 -> snd first - 3 = 0)
    /\ (7 - 0 < 3 -> snd first - 3 = 7 - 3)
    /\ snd last = 7.
Proof.
  apply (boundary_anchoring 0 7 4 3 4); [lia | lia | vm_compute; lia].
Defined.

(** C2 as stated fails on a trial shorter than [n_preds_per_input]: for
    [i_trial_start = 0], [i_trial_stop = 1] and
    [input_time_length = n_preds_per_input = 2] the first window is
    [(-1, 1)], and its first predicted sample [1 - 2] is not the trial
    start. *)
Lemma boundary_anchoring_counterexample :
  0 < 1 /\ 1 <= 2 <= 2
  /\ exists first rest,
      _get_start_stop_blocks_for_trial 0 1 2 2 2 = Some (first :: rest)
      /\ snd first - 2 <> 0.
Proof.
  split; [lia|]. split; [lia|].
  exists (-1, 1), []. split; [reflexivity|]. simpl. lia.
Qed.

(** C3, as the code has it (overlap): on a planning call with
    [1 <= n_preds_per_input <= input_time_length] and a trial at least
    [n_preds_per_input] long, given enough fuel, the planner returns windows
    such that
    - every sample of the trial lies in the predicted range of exactly one
      window, except possibly the samples of the last [n_preds_per_input]
      when the trial length is not a multiple of [n_preds_per_input];
    - in that case there are at least two windows, the predicted ranges of
      the last two overlap exactly in
      [[i_trial_stop - n_preds_per_input, stop of the second-to-last)], which
      holds [n_preds_per_input - length mod n_preds_per_input] samples,
      between 1 and [n_preds_per_input - 1];
    - the predicted ranges of any other two windows are disjoint. *)
Theorem overlap_behaviour
        (i_trial_start i_trial_stop input_time_length n_preds_per_input : Z)
        (fuel : nat) :
  n_preds_per_input <= i_trial_stop - i_trial_start ->
  1 <= n_preds_per_input <= input_time_length ->
  (iterations i_trial_stop n_preds_per_input i_trial_start < fuel)%nat ->
  exists blocks,
    _get_start_stop_blocks_for_trial
      i_trial_start i_trial_stop input_time_length n_preds_per_input fuel
    = Some blocks
    /\ (forall x,
          i_trial_start <= x < i_trial_stop ->
          (i_trial_stop - i_trial_start) mod n_preds_per_input = 0
          \/ x < i_trial_stop - n_preds_per_input ->
          exists! i,
            exists w, nth_error blocks i = Some w
                      /\ predicts n_preds_per_input w x)
    /\ ((i_trial_stop - i_trial_start) mod n_preds_per_input <> 0 ->
        exists w1 w2,
          (2 <= length blocks)%nat
          /\ nth_error blocks (length blocks - 2) = Some w1
          /\ nth_error blocks (length blocks - 1) = Some w2
          /\ (forall x,
                predicts n_preds_per_input w1 x
                /\ predicts n_preds_per_input w2 x
                <-> i_trial_stop - n_preds_per_input <= x < snd w1)
          /\ snd w1 - (i_trial_stop - n_preds_per_input)
             = n_preds_per_input
               - (i_trial_stop - i_trial_start) mod n_preds_per_input
          /\ 1 <= snd w1 - (i_trial_stop - n_preds_per_input)
               <= n_preds_per_input - 1)
    /\ (forall i j wi wj x,
          (i < j)%nat ->
          nth_error blocks i = Some wi ->
          nth_error blocks j = Some wj ->
          (i_trial_stop - i_trial_start) mod n_preds_per_input = 0
          \/ (S i < j)%nat \/ (S j < length blocks)%nat ->
          ~ (predicts n_preds_per_input wi x
             /\ predicts n_preds_per_input wj x)).
Proof.
  intros HL [Hn HT] Hfuel.
  assert (Hlen : i_trial_start < i_trial_stop) by lia.
  eexists. split; [apply plan_emit; assumption|].
  rewrite emit_length.
  pose proof (iterations_ceil i_trial_stop n_preds_per_input Hn _ Hlen) as Hc.
  pose proof (Z.div_mod (i_trial_stop - i_trial_start) n_preds_per_input
                ltac:(lia)) as Hdm.
  pose proof (Z.mod_pos_bound (i_trial_stop - i_trial_start)
                n_preds_per_input ltac:(lia)) as Hm.
  set (k := iterations i_trial_stop n_preds_per_input i_trial_start) in *.
  set (r := (i_trial_stop - i_trial_start) mod n_preds_per_input) in *.
  set (q := (i_trial_stop - i_trial_start) / n_preds_per_input) in *.
  assert (Hq : 1 <= q) by nia.
  assert (Hk : (r = 0 /\ Z.of_nat k = q) \/ (0 < r /\ Z.of_nat k = q + 1))
    by nia.
  split; [|split].
  - intros x Hx Hcase.
    destruct (predicting_window i_trial_start i_trial_stop input_time_length
                n_preds_per_input x Hn Hx) as (w & Hw & Hp).
    fold k in Hw.
    exists (Z.to_nat ((x - i_trial_start) / n_preds_per_input)). split.
    + exists w. split; assumption.
    + intros i (w' & Hw' & Hp').
      apply emitted_nth_inv in Hw'. fold k in Hw'.
      destruct Hw' as (Hi & Hs & _). unfold predicts in Hp'.
      rewrite Hs in Hp'.
      assert (Hdiv : Z.of_nat i = (x - i_trial_start) / n_preds_per_input).
      { apply Z.div_unique
          with (r := x - i_trial_start - n_preds_per_input * Z.of_nat i);
          [|lia].
        left. nia. }
      lia.
  - intros Hr.
    assert (Hk' : Z.of_nat k = q + 1) by lia.
    eexists _, _. split; [lia|].
    split; [apply emit_nth; lia|]. split; [apply emit_nth; lia|].
    cbn [snd]. unfold predicts. cbn [snd].
    replace (Z.of_nat (k - 2) + 1) with q by lia.
    replace (Z.of_nat (k - 1) + 1) with (q + 1) by lia.
    replace (Z.min (i_trial_start + q * n_preds_per_input) i_trial_stop)
      with (i_trial_start + q * n_preds_per_input) by nia.
    replace (Z.min (i_trial_start + (q + 1) * n_preds_per_input) i_trial_stop)
      with i_trial_stop by nia.
    split; [intros x; nia|]. split; nia.
  - intros i j wi wj x Hij Hi Hj Hcase [Hpi Hpj].
    apply emitted_nth_inv in Hi, Hj. fold k in Hi, Hj.
    destruct Hi as (Hik & Hsi & _), Hj as (Hjk & Hsj & _).
    unfold predicts in Hpi, Hpj. rewrite Hsi in Hpi. rewrite Hsj in Hpj.
    destruct (stop_before_last i_trial_start i_trial_stop n_preds_per_input
                Hn i Hlen) as [Hei Hbi]; [fold k; lia|].
    rewrite Hei in Hpi.
    destruct (Nat.eq_dec (S j) k) as [Hlast|Hnot].
    + rewrite (stop_of_last i_trial_start i_trial_stop n_preds_per_input
                 Hn j Hlen) in Hpj by (fold k; lia).
      destruct Hcase as [Hr0|[Hgap|Hjk']]; [| |lia].
      * nia.
      * nia.
    + destruct (stop_before_last i_trial_start i_trial_stop n_preds_per_input
                  Hn j Hlen) as [Hej Hbj]; [fold k; lia|].
      rewrite Hej in Hpj. nia.
Qed.

Lemma overlap_behaviour_witness :
  exists blocks,
    _get_start_stop_blocks_for_trial 0 7 4 3 4 = Some blocks
    /\ (forall x,
          0 <= x < 7 ->
          (7 - 0) mod 3 = 0 \/ x < 7 - 3 ->
          exists! i,
            exists w, nth_error blocks i = Some w /\ predicts 3 w x)
    /\ ((7 - 0) mod 3 <> 0 ->
        exists w1 w2,
          (2 <= length blocks)%nat
          /\ nth_error blocks (length blocks - 2) = Some w1
          /\ nth_error blocks (length blocks - 1) = Some w2
          /\ (forall x,
                predicts 3 w1 x /\ predicts 3 w2 x <-> 7 - 3 <= x < snd w1)
          /\ snd w1 - (7 - 3) = 3 - (7 - 0) mod 3
          /\ 1 <= snd w1 - (7 - 3) <= 3 - 1)
    /\ (forall i j wi wj x,
          (i < j)%nat ->
          nth_error blocks i = Some wi ->
          nth_error blocks j = Some wj ->
          (7 - 0) mod 3 = 0 \/ (S i < j)%nat \/ (S j < length blocks)%nat ->
          ~ (predicts 3 wi x /\ predicts 3 wj x)).
Proof.
  apply (overlap_behaviour 0 7 4 3 4); [lia | lia | vm_compute; lia].
Defined.

(** C3 as stated fails on a trial shorter than [n_preds_per_input]: for
    [i_trial_start = 0], [i_trial_stop = 1] and
    [input_time_length = n_preds_per_input = 2] the trial length 1 is not a
    multiple of 2, yet the planner emits the single window [(-1, 1)]: there
    is no second-to-last window for the last one to overlap. *)
Lemma overlap_behaviour_counterexample :
  0 < 1 /\ 1 <= 2 <= 2 /\ (1 - 0) mod 2 <> 0
  /\ exists blocks,
      _get_start_stop_blocks_for_trial 0 1 2 2 2 = Some blocks
      /\ ~ (exists pre w1 w2 x,
             blocks = pre ++ [w1; w2]
             /\ predicts 2 w1 x /\ predicts 2 w2 x).
Proof.
  split; [lia|]. split; [lia|]. split; [discriminate|].
  exists [(-1, 1)]. split; [reflexivity|].
  intros (pre & w1 & w2 & x & Heq & _).
  apply (f_equal (@length window)) in Heq.
  rewrite length_app in Heq. simpl in Heq. lia.
Qed.

(** Read to the letter, "the final predicted sample" of a window is the
    single sample [stop - 1]; then the first sentence of C3 already fails on
    a trial of length 4 with [n_preds_per_input = 2]: the length is a
    multiple of 2 and no window stops at 1, so sample 0 is the final
    predicted sample of none.  The statements above read it as "a predicted
    sample". *)
Lemma final_sample_reading :
  _get_start_stop_blocks_for_trial 0 4 2 2 3 = Some [(0, 2); (2, 4)]
  /\ (4 - 0) mod 2 = 0
  /\ forall w, In w [(0, 2); (2, 4)] -> snd w - 1 <> 0.
Proof.
  split; [reflexivity|]. split; [reflexivity|].
  intros w [<-|[<-|[]]]; simpl; lia.
Qed.

End WindowPlannerFacts.

(** * Properties of the trial-set planner *)

Module TrialSetWindowPlannerFacts.

Import WindowPlanner TrialSetWindowPlanner WindowPlannerFacts.

Lemma insert_unique_In x l y :
  In y (insert_unique x l) <-> y = x \/ In y l.
Proof.
  induction l as [|h l IH]; simpl.
  - intuition.
  - destruct (Z.ltb_spec x h); [simpl; intuition|].
    destruct (Z.eqb_spec x h); simpl.
    + subst h. intuition.
    + rewrite IH. intuition.
Qed.

Lemma insert_unique_sorted x l :
  StronglySorted Z.lt l -> StronglySorted Z.lt (insert_unique x l).
Proof.
  induction 1 as [|h l Hs IH Hh]; simpl.
  - repeat constructor.
  - destruct (Z.ltb_spec x h) as [Hlt|Hge].
    + constructor; [now constructor|].
      constructor; [exact Hlt|].
      eapply Forall_impl; [|exact Hh]. intros z Hz. lia.
    + destruct (Z.eqb_spec x h) as [Heq|Hne]; [now constructor|].
      constructor; [exact IH|].
      apply Forall_forall. intros z Hz. apply insert_unique_In in Hz.
      destruct Hz as [->|Hz]; [lia|].
      rewrite Forall_forall in Hh. now apply Hh.
Qed.

Lemma np_unique_In l y : In y (np_unique l) <-> In y l.
Proof.
  induction l as [|x l IH]; simpl; [reflexivity|].
  rewrite insert_unique_In, IH. intuition.
Qed.

Lemma np_unique_sorted l : StronglySorted Z.lt (np_unique l).
Proof.
  induction l as [|x l IH]; simpl; [constructor|].
  now apply insert_unique_sorted.
Qed.

Lemma py_range_sorted a b : StronglySorted Z.lt (py_range a b).
Proof.
  unfold py_range. generalize (Z.to_nat (b - a)) as len.
  generalize O as s. intros s len. revert s.
  induction len as [|len IH]; intros s; simpl; constructor.
  - apply IH.
  - apply Forall_forall. intros z Hz. apply in_map_iff in Hz.
    destruct Hz as (i & <- & Hi). apply in_seq in Hi. lia.
Qed.

(** Two strictly increasing lists with the same elements are equal. *)
Lemma sorted_same_elements l1 : forall l2,
  StronglySorted Z.lt l1 -> StronglySorted Z.lt l2 ->
  (forall x, In x l1 <-> In x l2) -> l1 = l2.
Proof.
  induction l1 as [|a l1 IH]; intros l2 H1 H2 Hsame.
  - destruct l2 as [|b l2]; [reflexivity|].
    destruct (proj2 (Hsame b) (or_introl eq_refl)).
  - destruct l2 as [|b l2].
    { destruct (proj1 (Hsame a) (or_introl eq_refl)). }
    inversion H1 as [|? ? Hs1 Hf1]; subst.
    inversion H2 as [|? ? Hs2 Hf2]; subst.
    rewrite Forall_forall in Hf1, Hf2.
    assert (Hab : a = b).
    { destruct (proj1 (Hsame a) (or_introl eq_refl)) as [Hba|Hin2];
        [now symmetry|].
      destruct (proj2 (Hsame b) (or_introl eq_refl)) as [Hab|Hin1];
        [exact Hab|].
      specialize (Hf1 _ Hin1). specialize (Hf2 _ Hin2). lia. }
    subst b. f_equal. apply IH; [assumption|assumption|].
    intros x. split; intros Hx.
    + destruct (proj1 (Hsame x) (or_intror Hx)) as [Heq|Hin]; [|exact Hin].
      specialize (Hf1 _ Hx). lia.
    + destruct (proj2 (Hsame x) (or_intror Hx)) as [Heq|Hin]; [|exact Hin].
      specialize (Hf2 _ Hx). lia.
Qed.

(** The assertion of [_compute_start_stop_block_inds] holds on what the
    planner returns for a trial at least [n_preds_per_input] long. *)
Lemma check_preds_ok i_trial_start i_trial_stop input_time_length n :
  1 <= n ->
  n <= i_trial_stop - i_trial_start ->
  check_preds i_trial_start i_trial_stop n
              (emit i_trial_stop input_time_length n
                    (iterations i_trial_stop n i_trial_start) i_trial_start)
  = Ok tt.
Proof.
  intros Hn HL.
  assert (Hlen : i_trial_start < i_trial_stop) by lia.
  unfold check_preds.
  set (blocks := emit i_trial_stop input_time_length n
                      (iterations i_trial_stop n i_trial_start)
                      i_trial_start).
  assert (Hsame : forall x,
             In x (py_range i_trial_start i_trial_stop)
             <-> In x (np_unique (concat (all_predicted_samples n blocks)))).
  { intros x. rewrite np_unique_In, In_py_range, In_all_predicted_samples.
    split.
    - intros Hx.
      destruct (predicting_window i_trial_start i_trial_stop
                  input_time_length n x Hn Hx) as (w & Hw & Hp).
      exists w. split; [eapply nth_error_In; exact Hw|exact Hp].
    - intros (w & Hw & Hp). apply In_nth_error in Hw.
      destruct Hw as [i Hi]. apply emitted_nth_inv in Hi.
      destruct Hi as (_ & Hstop & _). unfold predicts in Hp.
      rewrite Hstop in Hp. nia. }
  destruct (all_predicted_samples n blocks) as [|r rs] eqn:Hall.
  - exfalso. apply (f_equal (@length (list Z))) in Hall.
    unfold all_predicted_samples, blocks in Hall.
    rewrite length_map, emit_length in Hall.
    rewrite (iterations_step i_trial_stop n Hn _ Hlen) in Hall.
    discriminate.
  - unfold np_array_equal.
    destruct (list_eq_dec Z.eq_dec _ _) as [_|Hne]; [reflexivity|].
    exfalso. apply Hne.
    apply sorted_same_elements;
      [apply py_range_sorted|apply np_unique_sorted|exact Hsame].
Qed.

(** On a trial shorter than [n_preds_per_input] the assertion fails: the
    planner's window for the trial [0..1] with [n_preds_per_input = 2]
    predicts sample [-1]. *)
Example check_preds_short_trial :
  _get_start_stop_blocks_for_trial 0 1 2 2 2 = Some [(-1, 1)]
  /\ check_preds 0 1 2 [(-1, 1)]
     = Raise (AssertionError PredictedSamplesDiffer).
Proof. split; reflexivity. Qed.

End TrialSetWindowPlannerFacts.

(** * Properties of the batch partitioner *)

Module BatchPartitionerFacts.

Import BatchPartitioner.

Lemma example_shuffle_perm (s : ExampleRng.state) (l : list nat) :
  Permutation l (fst (ExampleRng.shuffle s l)).
Proof.
  unfold ExampleRng.shuffle. simpl.
  destruct (Nat.even s); [apply Permutation_rev|apply Permutation_refl].
Qed.

Lemma contiguous_blocks_length k bs inds :
  length (contiguous_blocks k bs inds) = k.
Proof.
  revert inds. induction k as [|k IH]; intros inds; simpl;
    [|rewrite IH]; reflexivity.
Qed.

Lemma contiguous_blocks_concat k bs : forall inds,
  (length inds <= k * bs)%nat ->
  concat (contiguous_blocks k bs inds) = inds.
Proof.
  induction k as [|k IH]; intros inds Hlen; simpl.
  - destruct inds; [reflexivity|simpl in Hlen; lia].
  - rewrite IH; [apply firstn_skipn|].
    rewrite length_skipn. simpl in Hlen. lia.
Qed.

Lemma contiguous_blocks_nth k bs : forall inds i g,
  nth_error (contiguous_blocks k bs inds) i = Some g ->
  g = firstn bs (skipn (i * bs) inds).
Proof.
  induction k as [|k IH]; intros inds i g Hg; simpl in Hg.
  - destruct i; discriminate.
  - destruct i as [|i]; simpl in Hg.
    + injection Hg as <-. reflexivity.
    + apply IH in Hg. rewrite Hg, skipn_skipn. f_equal. f_equal. lia.
Qed.

Lemma n_groups_ceil n_items batch_size :
  1 <= batch_size ->
  (Z.of_nat (n_groups n_items batch_size) - 1) * batch_size
  < Z.of_nat n_items
  <= Z.of_nat (n_groups n_items batch_size) * batch_size.
Proof.
  intros Hbs. unfold n_groups.
  set (a := Z.of_nat n_items + batch_size - 1).
  assert (Hq : 0 <= a / batch_size) by (apply Z.div_pos; lia).
  rewrite Z2Nat.id by exact Hq.
  pose proof (Z.div_mod a batch_size ltac:(lia)) as Hdm.
  pose proof (Z.mod_pos_bound a batch_size ltac:(lia)) as Hm.
  nia.
Qed.

Section Partition.

Variable rng_state : Type.
Variable rng_shuffle : rng_state -> list nat -> list nat * rng_state.

(** [rng.shuffle] permutes the array it is given. *)
Hypothesis rng_shuffle_perm :
  forall s l, Permutation l (fst (rng_shuffle s l)).

(** The index array after the optional shuffle. *)
Lemma groups_of_permutation n_items batch_size rng shuffle :
  exists all_inds,
    Permutation (seq 0 n_items) all_inds
    /\ fst (get_balanced_batches rng_state rng_shuffle
                                 n_items batch_size rng shuffle)
       = contiguous_blocks (n_groups n_items batch_size)
                           (Z.to_nat batch_size) all_inds.
Proof.
  unfold get_balanced_batches. destruct shuffle.
  - pose proof (rng_shuffle_perm rng (seq 0 n_items)) as Hp.
    destruct (rng_shuffle rng (seq 0 n_items)) as [inds rng'].
    exists inds. split; [exact Hp|reflexivity].
  - exists (seq 0 n_items). split; [apply Permutation_refl|reflexivity].
Qed.

(** C4 (partition completeness and balance): for every [n_items >= 0]
    and [batch_size >= 1], with or without shuffling, the partitioner
    returns [ceil(n_items / batch_size)] groups (the integer [k] with
    [(k - 1) * batch_size < n_items <= k * batch_size]); every group but
    the final one holds exactly [batch_size] indices, so the sizes of
    those differ by at most 1, and the final group holds between 1 and
    [batch_size]; the groups put end to end are a permutation of
    [0, ..., n_items - 1], so every index is in exactly one group; and
    for [n_items = 0] there is no group. *)
Theorem partition_complete
        (n_items : nat) (batch_size : Z) (rng : rng_state) (shuffle : bool) :
  1 <= batch_size ->
  let groups :=
    fst (get_balanced_batches rng_state rng_shuffle
                              n_items batch_size rng shuffle) in
  (Z.of_nat (length groups) - 1) * batch_size
    < Z.of_nat n_items <= Z.of_nat (length groups) * batch_size
  /\ (forall i j gi gj,
        nth_error groups i = Some gi -> nth_error groups j = Some gj ->
        (S i < length groups)%nat -> (S j < length groups)%nat ->
        Z.of_nat (length gi) = batch_size
        /\ Z.abs (Z.of_nat (length gi) - Z.of_nat (length gj)) <= 1)
  /\ (forall i g,
        nth_error groups i = Some g -> S i = length groups ->
        1 <= Z.of_nat (length g) <= batch_size)
  /\ Permutation (concat groups) (seq 0 n_items)
  /\ (n_items = O -> groups = []).
Proof.
  intros Hbs groups.
  destruct (groups_of_permutation n_items batch_size rng shuffle)
    as (inds & Hperm & Hgroups).
  subst groups. rewrite Hgroups. clear Hgroups.
  rewrite contiguous_blocks_length.
  pose proof (n_groups_ceil n_items batch_size Hbs) as Hceil.
  pose proof (Permutation_length Hperm) as Hlen.
  rewrite length_seq in Hlen.
  set (k := n_groups n_items batch_size) in *.
  assert (Hsize : forall i g,
             nth_error (contiguous_blocks k (Z.to_nat batch_size) inds) i
             = Some g ->
             (i < k)%nat
             /\ Z.of_nat (length g)
                = Z.min batch_size
                        (Z.of_nat n_items - Z.of_nat i * batch_size)).
  { intros i g Hg.
    assert (Hi : (i < k)%nat).
    { rewrite <- (contiguous_blocks_length k (Z.to_nat batch_size) inds).
      apply nth_error_Some. congruence. }
    split; [exact Hi|].
    apply contiguous_blocks_nth in Hg. subst g.
    rewrite length_firstn, length_skipn, <- Hlen. nia. }
  split; [exact Hceil|]. split; [|split; [|split]].
  - intros i j gi gj Hi Hj Hik Hjk.
    apply Hsize in Hi, Hj. destruct Hi as [_ Hi], Hj as [_ Hj].
    split; nia.
  - intros i g Hg Hik. apply Hsize in Hg. destruct Hg as [_ Hg]. nia.
  - rewrite contiguous_blocks_concat; [now apply Permutation_sym|nia].
  - intros ->. assert (Hk0 : k = O) by nia.
    rewrite Hk0. reflexivity.
Qed.

End Partition.

Lemma partition_complete_witness :
  let groups :=
    fst (get_balanced_batches ExampleRng.state ExampleRng.shuffle
                              5 2 O true) in
  (Z.of_nat (length groups) - 1) * 2 < Z.of_nat 5
    <= Z.of_nat (length groups) * 2
  /\ (forall i j gi gj,
        nth_error groups i = Some gi -> nth_error groups j = Some gj ->
        (S i < length groups)%nat -> (S j < length groups)%nat ->
        Z.of_nat (length gi) = 2
        /\ Z.abs (Z.of_nat (length gi) - Z.of_nat (length gj)) <= 1)
  /\ (forall i g,
        nth_error groups i = Some g -> S i = length groups ->
        1 <= Z.of_nat (length g) <= 2)
  /\ Permutation (concat groups) (seq 0 5)
  /\ (5%nat = O -> groups = []).
Proof.
  apply (partition_complete ExampleRng.state ExampleRng.shuffle
                            example_shuffle_perm 5 2 O true).
  lia.
Defined.

End BatchPartitionerFacts.

(** * Properties of the iterator *)

Module CropsFromTrialsIteratorFacts.

Import WindowPlanner TrialSetWindowPlanner BatchPartitioner.
Import CropsFromTrialsIterator ExampleRun.

(** The loop over [enumerate(input_lens)] raises at the first trial that is
    too short, with that trial's length and number in the message. *)
Lemma input_lens_check_raises (T : Z) (input_lens : list Z) : forall s,
  (exists len, In len input_lens /\ len < T) ->
  exists i len,
    nth_error input_lens i = Some len
    /\ len < T
    /\ (forall j len', (j < i)%nat -> nth_error input_lens j = Some len' ->
                       T <= len')
    /\ for_each (fun '(i_trial, input_len) =>
                   py_assert (T <=? input_len)
                             (InputTooShort input_len i_trial T))
                (combine (seq s (length input_lens)) input_lens)
       = Raise (AssertionError (InputTooShort len (s + i) T)).
Proof.
  induction input_lens as [|len0 lens IH]; intros s (len & Hin & Hlt).
  - destruct Hin.
  - destruct (Z.leb_spec T len0) as [Hok|Hbad].
    + destruct Hin as [->|Hin]; [lia|].
      destruct (IH (S s) (ex_intro _ len (conj Hin Hlt)))
        as (i & len1 & Hnth & Hlt1 & Hbefore & Hrun).
      exists (S i), len1. split; [exact Hnth|]. split; [exact Hlt1|]. split.
      * intros [|j] len' Hj Hnj; simpl in Hnj.
        -- now injection Hnj as <-.
        -- apply (Hbefore j); [lia|exact Hnj].
      * cbn [length seq combine for_each]. unfold py_assert at 1.
        destruct (Z.leb_spec T len0); [|lia]. cbn [bind].
        rewrite Hrun. cbn [bind]. do 3 f_equal. lia.
    + exists O, len0. split; [reflexivity|]. split; [exact Hbad|]. split.
      * intros j len' Hj. lia.
      * cbn [length seq combine for_each]. unfold py_assert at 1.
        destruct (Z.leb_spec T len0); [lia|]. cbn [bind].
        do 3 f_equal. lia.
Qed.

Section Iterator.

Variables sample_t label_t : Type.
Variables seed_t rng_state : Type.
Variable RandomState : seed_t -> rng_state.
Variable rng_shuffle : rng_state -> list nat -> list nat * rng_state.

Local Notation "'iterator'" := (iterator seed_t rng_state).
Local Notation "'dataset'" := (dataset sample_t label_t).

(** C6 (short trial): if some trial of the dataset is shorter than
    [input_time_length], [get_batches] raises [AssertionError] at the call
    itself: it returns no generator, so no batch is produced and the
    iterator is left as it was.  The message names the first such trial:
    its length, its number and [input_time_length]. *)
Theorem short_trial_raises (fuel : nat) (self : iterator) (d : dataset)
        (shuffle : bool) :
  (exists t, In t (X d)
             /\ Z.of_nat (snd (shape t)) < input_time_length self) ->
  exists i_trial t,
    nth_error (X d) i_trial = Some t
    /\ Z.of_nat (snd (shape t)) < input_time_length self
    /\ (forall j t', (j < i_trial)%nat ->
                     nth_error (X d) j = Some t' ->
                     input_time_length self <= Z.of_nat (snd (shape t')))
    /\ get_batches fuel self d shuffle
       = Raise (AssertionError
                  (InputTooShort (Z.of_nat (snd (shape t))) i_trial
                                 (input_time_length self)))
    /\ all_batches rng_shuffle fuel self d shuffle
       = (Raise (AssertionError
                   (InputTooShort (Z.of_nat (snd (shape t))) i_trial
                                  (input_time_length self))),
          self).
Proof.
  intros (t & Hin & Hshort).
  destruct (input_lens_check_raises
              (input_time_length self)
              (map (fun t => Z.of_nat (snd (shape t))) (X d)) O)
    as (i & len & Hnth & Hlt & Hbefore & Hrun).
  { exists (Z.of_nat (snd (shape t))). split; [|exact Hshort].
    apply in_map_iff. exists t. split; [reflexivity|exact Hin]. }
  rewrite nth_error_map in Hnth.
  destruct (nth_error (X d) i) as [ti|] eqn:Hti; [|discriminate].
  injection Hnth as <-.
  assert (Hget : get_batches fuel self d shuffle
                 = Raise (AssertionError
                            (InputTooShort (Z.of_nat (snd (shape ti))) i
                                           (input_time_length self)))).
  { unfold get_batches. rewrite Hrun. reflexivity. }
  exists i, ti. split; [exact Hti|]. split; [exact Hlt|]. split.
  - intros j t' Hj Hnj. apply (Hbefore j); [exact Hj|].
    rewrite nth_error_map. rewrite Hnj. reflexivity.
  - split; [exact Hget|]. unfold all_batches. rewrite Hget. reflexivity.
Qed.

(** On a dataset whose trials are all at least [input_time_length] long,
    with [n_preds_per_input >= 1] and enough fuel for every trial,
    [get_batches] passes all its assertions and returns the generator over
    the planned windows of every trial. *)
Lemma get_batches_ok (fuel : nat) (self : iterator) (d : dataset)
      (shuffle : bool) :
  1 <= n_preds_per_input self ->
  (forall t, In t (X d) ->
     input_time_length self <= Z.of_nat (snd (shape t))
     /\ (iterations (Z.of_nat (snd (shape t))) (n_preds_per_input self)
                    (input_time_length self - n_preds_per_input self)
         < fuel)%nat) ->
  get_batches fuel self d shuffle
  = Ok {| gen_X := X d;
          gen_y := y d;
          gen_blocks :=
            map (fun t =>
                   emit (Z.of_nat (snd (shape t))) (input_time_length self)
                        (n_preds_per_input self)
                        (iterations (Z.of_nat (snd (shape t)))
                           (n_preds_per_input self)
                           (input_time_length self - n_preds_per_input self))
                        (input_time_length self - n_preds_per_input self))
                (X d);
          gen_shuffle := shuffle |}.
Proof.
  intros Hn Hvalid. unfold get_batches.
  set (T := input_time_length self) in *.
  set (n := n_preds_per_input self) in *.
  replace (T - n + 1 - 1) with (T - n) by lia.
  set (stops := map (fun t => Z.of_nat (snd (shape t))) (X d)).
  set (plan_of := fun t : trial sample_t =>
                    emit (Z.of_nat (snd (shape t))) T n
                         (iterations (Z.of_nat (snd (shape t))) n (T - n))
                         (T - n)).
  (* the input lengths *)
  destruct (PyFacts.for_each_enumerate
              (fun '(i_trial, input_len) =>
                 py_assert (T <=? input_len)
                           (InputTooShort input_len i_trial T))
              stops O) as [r1 Hr1].
  { intros i len Hi. apply nth_error_In in Hi. apply in_map_iff in Hi.
    destruct Hi as (t & <- & Ht). destruct (Hvalid t Ht) as [Hlen _].
    unfold py_assert. destruct (Z.leb_spec T (Z.of_nat (snd (shape t))));
      [reflexivity|lia]. }
  rewrite Hr1. cbn [bind].
  (* the windows of every trial *)
  assert (Hplan : _compute_start_stop_block_inds
                    fuel (repeat (T - n) (length (X d))) stops T n true
                  = Ok (map plan_of (X d))).
  { unfold _compute_start_stop_block_inds. rewrite repeat_length.
    apply PyFacts.for_each_range. intros i t Hi. cbn [Nat.add].
    assert (Hlt : (i < length (X d))%nat)
      by (apply nth_error_Some; congruence).
    destruct (Hvalid t (nth_error_In _ _ Hi)) as [Hlen Hfuel].
    unfold blocks_of_trial.
    rewrite (PyFacts.py_index_nth_error _ i (T - n))
      by (now apply nth_error_repeat).
    cbn [bind].
    rewrite (PyFacts.py_index_nth_error stops i (Z.of_nat (snd (shape t))))
      by exact (map_nth_error (fun t => Z.of_nat (snd (shape t))) i (X d) Hi).
    cbn [bind].
    rewrite (WindowPlannerFacts.plan_emit _ _ _ _ Hn fuel Hfuel).
    cbn [of_fuel bind].
    rewrite TrialSetWindowPlannerFacts.check_preds_ok by lia.
    reflexivity. }
  rewrite Hplan. cbn [bind].
  (* the first and the last window of every trial *)
  match goal with
  | |- bind ?m _ = _ => assert (Hanchors : exists r, m = Ok r)
  end.
  { apply PyFacts.for_each_enumerate. intros i blocks Hi. cbn [Nat.add].
    rewrite nth_error_map in Hi.
    destruct (nth_error (X d) i) as [t|] eqn:Ht; [|discriminate].
    injection Hi as <-.
    destruct (Hvalid t (nth_error_In _ _ Ht)) as [Hlen _].
    assert (Hlt : T - n < Z.of_nat (snd (shape t))) by lia.
    destruct (WindowPlannerFacts.emitted_split_last
                (T - n) (Z.of_nat (snd (shape t))) T n Hn Hlt)
      as (pre & last & Heq & _ & Hlast).
    assert (Hfirst : @py_index (Z * Z) (plan_of t) 0
                     = Ok (Z.min (T - n + n) (Z.of_nat (snd (shape t))) - T,
                           Z.min (T - n + n) (Z.of_nat (snd (shape t))))).
    { unfold plan_of.
      rewrite (WindowPlannerFacts.iterations_step _ n Hn _ Hlt).
      reflexivity. }
    cbv beta iota. rewrite Hfirst. cbn [bind fst].
    unfold py_assert at 1.
    destruct (Z.eqb_spec
                (Z.min (T - n + n) (Z.of_nat (snd (shape t))) - T) 0);
      [|lia].
    cbn [bind]. unfold plan_of. rewrite Heq, PyFacts.py_index_last.
    cbn [bind].
    rewrite (PyFacts.py_index_nth_error stops i (Z.of_nat (snd (shape t))))
      by exact (map_nth_error (fun t => Z.of_nat (snd (shape t))) i (X d) Ht).
    cbn [bind]. unfold py_assert. rewrite Hlast, Z.eqb_refl. reflexivity. }
  destruct Hanchors as [r2 Hr2]. rewrite Hr2. reflexivity.
Qed.

(** The calls change nothing of an iterator but its generator state. *)
Lemma do_call_config fuel (self : iterator) (c : call sample_t label_t) :
  let self' := do_call RandomState rng_shuffle fuel self c in
  batch_size self' = batch_size self
  /\ input_time_length self' = input_time_length self
  /\ n_preds_per_input self' = n_preds_per_input self
  /\ seed self' = seed self.
Proof.
  destruct c as [d shuffle|]; cbn [do_call].
  - unfold all_batches.
    destruct (get_batches fuel self d shuffle) as [g| |]; cbn [snd]; auto.
    unfold _yield_block_batches.
    destruct (get_balanced_batches _ _ _ _ _ _) as [groups rng'].
    cbn. auto.
  - cbn. auto.
Qed.

Lemma do_calls_config fuel (cs : list (call sample_t label_t)) :
  forall self : iterator,
    let self' := do_calls RandomState rng_shuffle fuel self cs in
    batch_size self' = batch_size self
    /\ input_time_length self' = input_time_length self
    /\ n_preds_per_input self' = n_preds_per_input self
    /\ seed self' = seed self.
Proof.
  induction cs as [|c cs IH]; intros self; cbn [do_calls fold_left].
  - auto.
  - destruct (IH (do_call RandomState rng_shuffle fuel self c))
      as (H1 & H2 & H3 & H4).
    destruct (do_call_config fuel self c) as (G1 & G2 & G3 & G4).
    unfold do_calls in *. cbn zeta in *.
    rewrite H1, H2, H3, H4. auto.
Qed.

(** [reset_rng] brings an iterator back to the state it was built in,
    whatever was called on it since. *)
Lemma reset_after_calls fuel bs T n sd (cs : list (call sample_t label_t)) :
  reset_rng RandomState
            (do_calls RandomState rng_shuffle fuel
                      (__init__ RandomState bs T n sd) cs)
  = __init__ RandomState bs T n sd.
Proof.
  destruct (do_calls_config fuel cs (__init__ RandomState bs T n sd))
    as (H1 & H2 & H3 & H4).
  unfold reset_rng. rewrite H1, H2, H3, H4. reflexivity.
Qed.

(** C7 (determinism): two iterators built with the same configuration and
    seed give, on the same dataset with [shuffle = True], the same
    sequence of batches (and the same ending); and on one iterator,
    whatever calls were made since it was built, [reset_rng()] restores
    the state it was built in, so that [get_batches] consumed after the
    reset gives again what it gave on the newly built iterator, in
    particular what the call before the reset gave when that was the
    first one. *)
Theorem deterministic_batches
        (fuel : nat) (bs T n : Z) (sd : seed_t) (d : dataset)
        (shuffle : bool) (history : list (call sample_t label_t)) :
  let a := __init__ RandomState bs T n sd in
  let b := __init__ RandomState bs T n sd in
  fst (all_batches rng_shuffle fuel a d true)
  = fst (all_batches rng_shuffle fuel b d true)
  /\ reset_rng RandomState (do_calls RandomState rng_shuffle fuel a history)
     = a
  /\ fst (all_batches rng_shuffle fuel
            (reset_rng RandomState
               (do_calls RandomState rng_shuffle fuel a history))
            d shuffle)
     = fst (all_batches rng_shuffle fuel a d shuffle)
  /\ fst (all_batches rng_shuffle fuel
            (reset_rng RandomState
               (snd (all_batches rng_shuffle fuel a d shuffle)))
            d shuffle)
     = fst (all_batches rng_shuffle fuel a d shuffle).
Proof.
  intros a b. split; [reflexivity|].
  split; [apply reset_after_calls|].
  split.
  - unfold a. now rewrite reset_after_calls.
  - pose proof (reset_after_calls fuel bs T n sd [GetBatches d shuffle])
      as Hreset.
    cbn [do_calls fold_left do_call] in Hreset.
    unfold a. now rewrite Hreset.
Qed.

(** [rng.shuffle] permutes the array it is given. *)
Hypothesis rng_shuffle_perm :
  forall s l, Permutation l (fst (rng_shuffle s l)).

(** On a single item the partitioner returns the one group [[0]]. *)
Lemma one_item_groups (batch_size : Z) (r : rng_state) (shuffle : bool) :
  1 <= batch_size ->
  fst (get_balanced_batches rng_state rng_shuffle 1 batch_size r shuffle)
  = [[O]].
Proof.
  intros Hbs.
  destruct (BatchPartitionerFacts.groups_of_permutation
              rng_state rng_shuffle rng_shuffle_perm 1 batch_size r shuffle)
    as (inds & Hperm & ->).
  apply Permutation_length_1_inv in Hperm. subst inds.
  unfold n_groups.
  replace (Z.of_nat 1 + batch_size - 1) with batch_size by lia.
  rewrite Z.div_same by lia.
  destruct (Z.to_nat batch_size) as [|m] eqn:Hm; [lia|].
  change (Z.to_nat 1) with 1%nat. cbn [contiguous_blocks firstn].
  now rewrite firstn_nil.
Qed.

(** C5, on the code: for a dataset without trials [get_batches] returns a
    generator, and consuming it raises [ValueError] before any batch is
    yielded.  The empty list of triples becomes a 1-d array, which
    [a[None, :]] turns into one row of no element; the partitioner is
    asked to split one item, and unpacking that row into
    [i_trial, start, stop] fails. *)
Theorem empty_dataset_raises (fuel : nat) (self : iterator) (d : dataset)
        (shuffle : bool) :
  X d = [] ->
  1 <= batch_size self ->
  exists g,
    get_batches fuel self d shuffle = Ok g
    /\ fst (_yield_block_batches rng_shuffle self g)
       = {| yielded := []; ending := Raise ValueError |}.
Proof.
  intros HX Hbs. unfold get_batches. rewrite HX. cbn.
  eexists. split; [reflexivity|].
  unfold _yield_block_batches. cbn.
  pose proof (one_item_groups (batch_size self) (rng self) shuffle Hbs)
    as Hgroups.
  destruct (get_balanced_batches _ _ _ _ _ _) as [groups rng'].
  cbn [fst] in Hgroups. subst groups. reflexivity.
Qed.

End Iterator.

(** *** Runs with the example generator *)

(** The two windows [(0, 4)] and [(2, 6)] come in shuffled order on the
    first call and in plan order on the second. *)
Example example_two_calls :
  let '(first, it1) :=
    all_batches ExampleRng.shuffle 5 example_iterator example_dataset true in
  let '(second, _) :=
    all_batches ExampleRng.shuffle 5 it1 example_dataset true in
  first = Ok {| yielded :=
                  [ {| batch_X := [[[12; 13; 14; 15]]];
                       batch_y := [Scalar 7] |};
                    {| batch_X := [[[10; 11; 12; 13]]];
                       batch_y := [Scalar 7] |} ];
                ending := Ok tt |}
  /\ second = Ok {| yielded :=
                      [ {| batch_X := [[[10; 11; 12; 13]]];
                           batch_y := [Scalar 7] |};
                        {| batch_X := [[[12; 13; 14; 15]]];
                           batch_y := [Scalar 7] |} ];
                    ending := Ok tt |}.
Proof. vm_compute. split; reflexivity. Qed.

Lemma short_trial_raises_witness :
  exists i_trial t,
    nth_error (X example_dataset) i_trial = Some t
    /\ Z.of_nat (snd (shape t)) < 8
    /\ (forall j t', (j < i_trial)%nat ->
                     nth_error (X example_dataset) j = Some t' ->
                     8 <= Z.of_nat (snd (shape t')))
    /\ get_batches 5 (__init__ ExampleRng.RandomState 1 8 2 O)
                   example_dataset true
       = Raise (AssertionError
                  (InputTooShort (Z.of_nat (snd (shape t))) i_trial 8))
    /\ all_batches ExampleRng.shuffle 5
                   (__init__ ExampleRng.RandomState 1 8 2 O)
                   example_dataset true
       = (Raise (AssertionError
                   (InputTooShort (Z.of_nat (snd (shape t))) i_trial 8)),
          __init__ ExampleRng.RandomState 1 8 2 O).
Proof.
  apply (short_trial_raises
           Z Z nat ExampleRng.state ExampleRng.shuffle 5
           (__init__ ExampleRng.RandomState 1 8 2 O) example_dataset true).
  exists {| shape := (1%nat, 6%nat);
            channels := [[10; 11; 12; 13; 14; 15]] |}.
  split; [left; reflexivity | simpl; lia].
Defined.

Lemma empty_dataset_raises_witness :
  exists g,
    get_batches 5 example_iterator {| X := @nil (trial Z); y := @nil (label Z) |}
                false
    = Ok g
    /\ fst (_yield_block_batches ExampleRng.shuffle example_iterator g)
       = {| yielded := []; ending := Raise ValueError |}.
Proof.
  apply (empty_dataset_raises
           Z Z nat ExampleRng.state ExampleRng.shuffle
           BatchPartitionerFacts.example_shuffle_perm
           5 example_iterator {| X := []; y := [] |} false);
    [reflexivity | simpl; lia].
Defined.

End CropsFromTrialsIteratorFacts.

(** * Further properties of the window planner *)

Module WindowPlannerEdges.

Import WindowPlanner.

(** The loop only ever appends to the list it was started with. *)
Lemma while_loop_extends stop T n fuel : forall c acc blocks,
  while_loop stop T n fuel c acc = Some blocks ->
  exists more, blocks = acc ++ more.
Proof.
  induction fuel as [|fuel IH]; intros c acc blocks Hrun; [discriminate|].
  simpl in Hrun. destruct (c <? stop).
  - apply IH in Hrun. destruct Hrun as [more ->].
    rewrite <- app_assoc. now eexists.
  - injection Hrun as <-. exists []. now rewrite app_nil_r.
Qed.

Lemma while_loop_diverges stop T n fuel : forall c acc,
  n <= 0 -> c < stop -> while_loop stop T n fuel c acc = None.
Proof.
  induction fuel as [|fuel IH]; intros c acc Hn Hc; [reflexivity|].
  simpl. destruct (Z.ltb_spec c stop) as [_|Hge]; [|lia].
  apply IH; lia.
Qed.

(** With a step [n_preds_per_input <= 0] and a non-empty trial range the
    loop of [_get_start_stop_blocks_for_trial] is never left: the cursor
    does not advance, so after any number of iterations the loop condition
    still holds and no list is returned (the list only grows). *)
Theorem planner_diverges
        (i_trial_start i_trial_stop input_time_length n_preds_per_input : Z)
        (fuel : nat) :
  n_preds_per_input <= 0 ->
  i_trial_start < i_trial_stop ->
  _get_start_stop_blocks_for_trial
    i_trial_start i_trial_stop input_time_length n_preds_per_input fuel
  = None.
Proof.
  intros Hn Hlen. now apply while_loop_diverges.
Qed.

Lemma planner_diverges_witness :
  _get_start_stop_blocks_for_trial 0 5 3 0 1000 = None.
Proof. apply (planner_diverges 0 5 3 0 1000); lia. Defined.

(** The planner returns the empty list exactly when the trial range is
    empty ([i_trial_stop <= i_trial_start]), for any window length and any
    step, positive or not. *)
Theorem planner_empty_iff
        (i_trial_start i_trial_stop input_time_length n_preds_per_input : Z)
        (fuel : nat) :
  _get_start_stop_blocks_for_trial
    i_trial_start i_trial_stop input_time_length n_preds_per_input (S fuel)
  = Some []
  <-> i_trial_stop <= i_trial_start.
Proof.
  unfold _get_start_stop_blocks_for_trial. simpl.
  destruct (Z.ltb_spec i_trial_start i_trial_stop) as [Hlt|Hge].
  - split; [|lia]. intros Hrun.
    apply while_loop_extends in Hrun. destruct Hrun as [more Hmore].
    discriminate.
  - split; [intros _; exact Hge|reflexivity].
Qed.

End WindowPlannerEdges.

(** * Further properties of the trial-set planner *)

Module TrialSetWindowPlannerEdges.

Import WindowPlanner TrialSetWindowPlanner WindowPlannerFacts.
Import TrialSetWindowPlannerFacts.

(** A loop whose body succeeds on every item. *)
Lemma for_each_all_ok {A B : Type} (f : A -> outcome B) (g : A -> B)
      (xs : list A) :
  (forall x, In x xs -> f x = Ok (g x)) ->
  for_each f xs = Ok (map g xs).
Proof.
  induction xs as [|x xs IH]; intros Hf; [reflexivity|].
  cbn [for_each map]. rewrite (Hf x (or_introl eq_refl)). cbn [bind].
  rewrite IH; [reflexivity|]. intros x' Hx'. apply Hf. now right.
Qed.

(** A loop whose body can only fail with [e], and does fail on some item. *)
Lemma for_each_raises {A B : Type} (f : A -> outcome B) (e : exn)
      (xs : list A) :
  (forall x, In x xs -> (exists b, f x = Ok b) \/ f x = Raise e) ->
  (exists x, In x xs /\ f x = Raise e) ->
  for_each f xs = Raise e.
Proof.
  induction xs as [|x xs IH]; intros Hall (x0 & Hin & Hx0); [destruct Hin|].
  cbn [for_each].
  destruct (Hall x (or_introl eq_refl)) as [[b Hb]|Hr].
  - rewrite Hb. cbn [bind]. rewrite IH; [reflexivity| |].
    + intros x' Hx'. apply Hall. now right.
    + destruct Hin as [->|Hin]; [congruence|]. now exists x0.
  - rewrite Hr. reflexivity.
Qed.

Lemma py_index_out_of_range {A : Type} (l : list A) (i : nat) :
  (length l <= i)%nat -> py_index l (Z.of_nat i) = Raise IndexError.
Proof.
  intros Hi. unfold py_index.
  destruct (Z.ltb_spec (Z.of_nat i) 0) as [|_]; [lia|].
  destruct (Z.ltb_spec (Z.of_nat i) 0) as [|_]; [lia|].
  destruct (Z.leb_spec (Z.of_nat (length l)) (Z.of_nat i)) as [_|]; [|lia].
  reflexivity.
Qed.

(** The body of the loop on a trial at least [n] long. *)
Lemma blocks_of_trial_ok fuel starts stops T n check i a b :
  1 <= n ->
  nth_error starts i = Some a -> nth_error stops i = Some b ->
  n <= b - a -> (iterations b n a < fuel)%nat ->
  blocks_of_trial fuel starts stops T n check i
  = Ok (emit b T n (iterations b n a) a).
Proof.
  intros Hn Ha Hb HL Hfuel. unfold blocks_of_trial.
  rewrite (PyFacts.py_index_nth_error starts i a Ha). cbn [bind].
  rewrite (PyFacts.py_index_nth_error stops i b Hb). cbn [bind].
  rewrite (plan_emit _ _ _ _ Hn fuel Hfuel). cbn [of_fuel bind].
  destruct check; [|reflexivity].
  now rewrite check_preds_ok.
Qed.

(** The assertion fails on what the planner returns for a non-empty trial
    shorter than [n]: sample [b - n] is predicted and lies before [a]. *)
Lemma check_preds_short a b T n :
  1 <= n -> a < b -> b - a < n ->
  check_preds a b n (emit b T n (iterations b n a) a)
  = Raise (AssertionError PredictedSamplesDiffer).
Proof.
  intros Hn Hlen Hshort. unfold check_preds.
  destruct (emitted_split_last a b T n Hn Hlen)
    as (pre & last & Heq & _ & Hlast).
  set (blocks := emit b T n (iterations b n a) a) in *.
  destruct (all_predicted_samples n blocks) as [|r rs] eqn:Hall.
  { apply (f_equal (@length (list Z))) in Hall.
    unfold all_predicted_samples in Hall.
    rewrite length_map, Heq, length_app in Hall. simpl in Hall. lia. }
  unfold np_array_equal.
  destruct (list_eq_dec Z.eq_dec _ _) as [Heqs|_]; [|reflexivity].
  exfalso.
  assert (Hin : In (b - n) (np_unique (concat (r :: rs)))).
  { rewrite <- Hall. apply np_unique_In, In_all_predicted_samples.
    exists last. split.
    - rewrite Heq. apply in_or_app. right. now left.
    - unfold predicts. lia. }
  rewrite <- Heqs in Hin. apply In_py_range in Hin. lia.
Qed.

(** With or without the check, on trials that are all at least
    [n_preds_per_input] long, [_compute_start_stop_block_inds] returns one
    list of windows per trial, in the order of the trials, and the list of
    trial [i] is what the planner returns on trial [i] alone. *)
Theorem block_inds_per_trial
        (fuel : nat) (i_trial_starts i_trial_stops : list Z)
        (input_time_length n_preds_per_input : Z) (check : bool) :
  1 <= n_preds_per_input ->
  length i_trial_starts = length i_trial_stops ->
  (forall i a b,
      nth_error i_trial_starts i = Some a ->
      nth_error i_trial_stops i = Some b ->
      n_preds_per_input <= b - a
      /\ (iterations b n_preds_per_input a < fuel)%nat) ->
  exists blocks_per_trial,
    _compute_start_stop_block_inds
      fuel i_trial_starts i_trial_stops input_time_length n_preds_per_input
      check
    = Ok blocks_per_trial
    /\ length blocks_per_trial = length i_trial_starts
    /\ forall i a b,
        nth_error i_trial_starts i = Some a ->
        nth_error i_trial_stops i = Some b ->
        nth_error blocks_per_trial i
        = _get_start_stop_blocks_for_trial
            a b input_time_length n_preds_per_input fuel.
Proof.
  intros Hn Hlen Hvalid.
  set (g := fun i : nat =>
              emit (nth i i_trial_stops 0) input_time_length
                   n_preds_per_input
                   (iterations (nth i i_trial_stops 0) n_preds_per_input
                               (nth i i_trial_starts 0))
                   (nth i i_trial_starts 0)).
  exists (map g (seq 0 (length i_trial_starts))). split; [|split].
  - unfold _compute_start_stop_block_inds. apply for_each_all_ok.
    intros i Hi. apply in_seq in Hi.
    assert (Ha : nth_error i_trial_starts i
                 = Some (nth i i_trial_starts 0))
      by (apply nth_error_nth'; lia).
    assert (Hb : nth_error i_trial_stops i = Some (nth i i_trial_stops 0))
      by (apply nth_error_nth'; lia).
    destruct (Hvalid i _ _ Ha Hb) as [HL Hfuel].
    now apply blocks_of_trial_ok.
  - now rewrite length_map, length_seq.
  - intros i a b Ha Hb.
    assert (Hi : (i < length i_trial_starts)%nat)
      by (apply nth_error_Some; congruence).
    destruct (Hvalid i a b Ha Hb) as [HL Hfuel].
    rewrite (plan_emit _ _ _ _ Hn fuel Hfuel).
    rewrite nth_error_map, nth_error_seq.
    destruct (Nat.ltb_spec i (length i_trial_starts)) as [_|]; [|lia].
    cbn [option_map Nat.add]. unfold g.
    now rewrite (nth_error_nth _ _ 0 Ha), (nth_error_nth _ _ 0 Hb).
Qed.

Lemma block_inds_per_trial_witness :
  exists blocks_per_trial,
    _compute_start_stop_block_inds 5 [2; 0] [6; 7] 4 2 true
    = Ok blocks_per_trial
    /\ length blocks_per_trial = length [2; 0]
    /\ forall i a b,
        nth_error [2; 0] i = Some a ->
        nth_error [6; 7] i = Some b ->
        nth_error blocks_per_trial i
        = _get_start_stop_blocks_for_trial a b 4 2 5.
Proof.
  apply (block_inds_per_trial 5 [2; 0] [6; 7] 4 2 true);
    [lia | reflexivity |].
  intros i a b Ha Hb.
  destruct i as [|[|i]]; simpl in Ha, Hb; [| |destruct i; discriminate];
    injection Ha as <-; injection Hb as <-;
    split; (lia || (vm_compute; lia)).
Defined.

(** With the check switched on, one non-empty trial shorter than
    [n_preds_per_input] makes [_compute_start_stop_block_inds] raise the
    assertion error of the coverage check (all trials being non-empty):
    the single window of such a trial predicts samples before the trial
    start. *)
Theorem block_inds_short_trial_asserts
        (fuel : nat) (i_trial_starts i_trial_stops : list Z)
        (input_time_length n_preds_per_input : Z) :
  1 <= n_preds_per_input ->
  length i_trial_starts = length i_trial_stops ->
  (forall i a b,
      nth_error i_trial_starts i = Some a ->
      nth_error i_trial_stops i = Some b ->
      a < b /\ (iterations b n_preds_per_input a < fuel)%nat) ->
  (exists i a b,
      nth_error i_trial_starts i = Some a
      /\ nth_error i_trial_stops i = Some b
      /\ b - a < n_preds_per_input) ->
  _compute_start_stop_block_inds
    fuel i_trial_starts i_trial_stops input_time_length n_preds_per_input
    true
  = Raise (AssertionError PredictedSamplesDiffer).
Proof.
  intros Hn Hlen Hvalid (i0 & a0 & b0 & Ha0 & Hb0 & Hshort).
  unfold _compute_start_stop_block_inds.
  assert (Hbody : forall i a b,
             nth_error i_trial_starts i = Some a ->
             nth_error i_trial_stops i = Some b ->
             b - a < n_preds_per_input ->
             blocks_of_trial fuel i_trial_starts i_trial_stops
                             input_time_length n_preds_per_input true i
             = Raise (AssertionError PredictedSamplesDiffer)).
  { intros i a b Ha Hb Hs. destruct (Hvalid i a b Ha Hb) as [Hab Hfuel].
    unfold blocks_of_trial.
    rewrite (PyFacts.py_index_nth_error _ i a Ha). cbn [bind].
    rewrite (PyFacts.py_index_nth_error _ i b Hb). cbn [bind].
    rewrite (plan_emit _ _ _ _ Hn fuel Hfuel). cbn [of_fuel bind].
    now rewrite check_preds_short. }
  apply for_each_raises.
  - intros i Hi. apply in_seq in Hi.
    assert (Ha : nth_error i_trial_starts i
                 = Some (nth i i_trial_starts 0))
      by (apply nth_error_nth'; lia).
    assert (Hb : nth_error i_trial_stops i = Some (nth i i_trial_stops 0))
      by (apply nth_error_nth'; lia).
    destruct (Hvalid i _ _ Ha Hb) as [Hab Hfuel].
    destruct (Z.le_gt_cases n_preds_per_input
                (nth i i_trial_stops 0 - nth i i_trial_starts 0))
      as [HL|Hs].
    + left. eexists.
      exact (blocks_of_trial_ok fuel _ _ input_time_length _ true i _ _
                                Hn Ha Hb HL Hfuel).
    + right. eapply Hbody; eassumption.
  - exists i0. split.
    + apply in_seq. split; [lia|]. cbn [Nat.add].
      apply nth_error_Some. congruence.
    + eapply Hbody; eassumption.
Qed.

Lemma block_inds_short_trial_asserts_witness :
  _compute_start_stop_block_inds 5 [2; 0] [6; 1] 4 2 true
  = Raise (AssertionError PredictedSamplesDiffer).
Proof.
  apply (block_inds_short_trial_asserts 5 [2; 0] [6; 1] 4 2);
    [lia | reflexivity | |].
  - intros i a b Ha Hb.
    destruct i as [|[|i]]; simpl in Ha, Hb; [| |destruct i; discriminate];
      injection Ha as <-; injection Hb as <-;
      split; (lia || (vm_compute; lia)).
  - exists 1%nat, 0, 1. repeat split; lia.
Defined.

(** An empty trial range has no window: without the check
    [_compute_start_stop_block_inds] gives it the empty list, and with the
    check it raises [ValueError], because [np.concatenate] is handed an
    empty list of ranges. *)
Theorem block_inds_empty_trial
        (fuel : nat) (a b : Z) (i_trial_starts i_trial_stops : list Z)
        (input_time_length n_preds_per_input : Z) :
  b <= a ->
  _compute_start_stop_block_inds
    (S fuel) (a :: i_trial_starts) (b :: i_trial_stops)
    input_time_length n_preds_per_input true
  = Raise ValueError
  /\ _compute_start_stop_block_inds
       (S fuel) [a] [b] input_time_length n_preds_per_input false
     = Ok [[]].
Proof.
  intros Hab.
  assert (Hplan : _get_start_stop_blocks_for_trial
                    a b input_time_length n_preds_per_input (S fuel)
                  = Some []).
  { unfold _get_start_stop_blocks_for_trial. simpl.
    destruct (Z.ltb_spec a b); [lia|reflexivity]. }
  unfold _compute_start_stop_block_inds.
  cbn [length seq for_each]. unfold blocks_of_trial at 1 3.
  cbn [py_index length nth_error Z.of_nat Z.ltb Z.leb Z.compare orb
       Z.to_nat bind Pos.compare Pos.compare_cont Pos.of_succ_nat].
  split.
  - destruct (Z.of_nat (S (length i_trial_starts)) <=? 0) eqn:E1;
      [apply Z.leb_le in E1; lia|].
    destruct (Z.of_nat (S (length i_trial_stops)) <=? 0) eqn:E2;
      [apply Z.leb_le in E2; lia|].
    cbn [bind]. rewrite Hplan. reflexivity.
  - rewrite Hplan. reflexivity.
Qed.

Lemma block_inds_empty_trial_witness :
  _compute_start_stop_block_inds 3 [5; 0] [5; 9] 4 2 true
  = Raise ValueError
  /\ _compute_start_stop_block_inds 3 [5] [5] 4 2 false = Ok [[]].
Proof. apply (block_inds_empty_trial 2 5 5 [0] [9] 4 2). lia. Defined.

(** The loop runs over [range(len(i_trial_starts))] and indexes
    [i_trial_stops] with the same number: when [i_trial_stops] is the
    shorter list (the trials it does cover being plannable), the call
    raises [IndexError]. *)
Theorem block_inds_missing_stop
        (fuel : nat) (i_trial_starts i_trial_stops : list Z)
        (input_time_length n_preds_per_input : Z) (check : bool) :
  1 <= n_preds_per_input ->
  (length i_trial_stops < length i_trial_starts)%nat ->
  (forall i a b,
      nth_error i_trial_starts i = Some a ->
      nth_error i_trial_stops i = Some b ->
      n_preds_per_input <= b - a
      /\ (iterations b n_preds_per_input a < fuel)%nat) ->
  _compute_start_stop_block_inds
    fuel i_trial_starts i_trial_stops input_time_length n_preds_per_input
    check
  = Raise IndexError.
Proof.
  intros Hn Hlen Hvalid. unfold _compute_start_stop_block_inds.
  assert (Hbody : forall i,
             (length i_trial_stops <= i < length i_trial_starts)%nat ->
             blocks_of_trial fuel i_trial_starts i_trial_stops
                             input_time_length n_preds_per_input check i
             = Raise IndexError).
  { intros i Hi. unfold blocks_of_trial.
    rewrite (PyFacts.py_index_nth_error
               i_trial_starts i (nth i i_trial_starts 0))
      by (apply nth_error_nth'; lia).
    cbn [bind]. rewrite py_index_out_of_range by lia. reflexivity. }
  apply for_each_raises.
  - intros i Hi. apply in_seq in Hi.
    destruct (Nat.lt_ge_cases i (length i_trial_stops)) as [Hlt|Hge].
    + left.
      assert (Ha : nth_error i_trial_starts i
                   = Some (nth i i_trial_starts 0))
        by (apply nth_error_nth'; lia).
      assert (Hb : nth_error i_trial_stops i
                   = Some (nth i i_trial_stops 0))
        by (apply nth_error_nth'; lia).
      destruct (Hvalid i _ _ Ha Hb) as [HL Hfuel].
      eexists.
      exact (blocks_of_trial_ok fuel _ _ input_time_length _ check i _ _
                                Hn Ha Hb HL Hfuel).
    + right. apply Hbody. lia.
  - exists (length i_trial_stops). split; [apply in_seq; lia|].
    apply Hbody. lia.
Qed.

Lemma block_inds_missing_stop_witness :
  _compute_start_stop_block_inds 5 [2; 2] [6] 4 2 true = Raise IndexError.
Proof.
  apply (block_inds_missing_stop 5 [2; 2] [6] 4 2 true);
    [lia | simpl; lia |].
  intros i a b Ha Hb.
  destruct i as [|[|i]]; simpl in Ha, Hb;
    try discriminate; try (destruct i; discriminate);
    injection Ha as <-; injection Hb as <-;
    split; (lia || (vm_compute; lia)).
Defined.

End TrialSetWindowPlannerEdges.

(** * Properties of the batches *)

Module BatchFacts.

Import CropsFromTrialsIterator ExampleRun.
Import TrialSetWindowPlannerEdges.

(** A slice with bounds inside the sequence is the part between them. *)
Lemma py_slice_in_range {A : Type} (l : list A) (start stop : Z) :
  0 <= start <= stop -> stop <= Z.of_nat (length l) ->
  py_slice l start stop
  = firstn (Z.to_nat (stop - start)) (skipn (Z.to_nat start) l).
Proof.
  intros Hs He. unfold py_slice, py_slice_bound.
  destruct (Z.ltb_spec start 0) as [|_]; [lia|].
  destruct (Z.ltb_spec stop 0) as [|_]; [lia|].
  now rewrite !Z.min_l by lia.
Qed.

Lemma py_slice_length {A : Type} (l : list A) (start stop : Z) :
  0 <= start <= stop -> stop <= Z.of_nat (length l) ->
  Z.of_nat (length (py_slice l start stop)) = stop - start.
Proof.
  intros Hs He. rewrite py_slice_in_range by assumption.
  rewrite length_firstn, length_skipn. lia.
Qed.

Section Batches.

Variables sample_t label_t : Type.

Local Notation "'trial'" := (trial sample_t).
Local Notation "'label'" := (label label_t).

(** The crop and the label that one row [[i_trial, start, stop]] gives. *)
Lemma crop_of_row_ok (X : list trial) (y : list label) (n : Z)
      (i : nat) (start stop : Z) (t : trial) (lab : label) :
  nth_error X i = Some t -> nth_error y i = Some lab ->
  crop_of_row X y n [Z.of_nat i; start; stop]
  = Ok (map (fun chan => py_slice chan start stop) (channels t),
        match lab with
        | Scalar v => Scalar v
        | Sequence vs => Sequence (py_slice vs (stop - n) stop)
        end).
Proof.
  intros Ht Hlab. unfold crop_of_row.
  rewrite (PyFacts.py_index_nth_error X i t Ht). cbn [bind].
  rewrite (PyFacts.py_index_nth_error y i lab Hlab). cbn [bind].
  destruct lab; reflexivity.
Qed.

(** Contents of a batch: when every row names a trial that has a label and
    a window that lies inside the trial, [_create_batch_from_i_trial_start_stop_blocks]
    returns one crop and one label per row, in the order of the rows; the
    crop of row [[i, start, stop]] holds, for every channel of trial [i],
    the samples [start, ..., stop - 1]; its label is the trial's scalar
    label, or the labels of the last [n_preds_per_input] samples of the
    window, [stop - n_preds_per_input, ..., stop - 1]. *)
Theorem create_batch_contents (X : list trial) (y : list label)
        (rows : list (list Z)) (n_preds_per_input : Z) :
  0 <= n_preds_per_input ->
  (forall row, In row rows ->
     exists i start stop t lab,
       row = [Z.of_nat i; start; stop]
       /\ nth_error X i = Some t /\ nth_error y i = Some lab
       /\ 0 <= start /\ start <= stop - n_preds_per_input
       /\ (forall chan, In chan (channels t) ->
                        stop <= Z.of_nat (length chan))
       /\ (forall vs, lab = Sequence vs -> stop <= Z.of_nat (length vs))) ->
  exists b,
    _create_batch_from_i_trial_start_stop_blocks X y rows n_preds_per_input
    = Ok b
    /\ length (batch_X b) = length rows
    /\ length (batch_y b) = length rows
    /\ forall j i start stop t lab,
        nth_error rows j = Some [Z.of_nat i; start; stop] ->
        nth_error X i = Some t -> nth_error y i = Some lab ->
        nth_error (batch_X b) j
        = Some (map (fun chan =>
                       firstn (Z.to_nat (stop - start))
                              (skipn (Z.to_nat start) chan))
                    (channels t))
        /\ nth_error (batch_y b) j
           = Some match lab with
                  | Scalar v => Scalar v
                  | Sequence vs =>
                      Sequence (firstn (Z.to_nat n_preds_per_input)
                                  (skipn (Z.to_nat (stop - n_preds_per_input))
                                         vs))
                  end.
Proof.
  intros Hn. unfold _create_batch_from_i_trial_start_stop_blocks.
  induction rows as [|row rows IH]; intros Hrows.
  - eexists. cbn. repeat split; destruct j; discriminate.
  - destruct IH as (b & Hb & HlX & Hly & Hnth).
    { intros r Hr. apply Hrows. now right. }
    destruct (for_each (crop_of_row X y n_preds_per_input) rows)
      as [crops| |] eqn:Hcrops; try discriminate.
    cbn [bind] in Hb. injection Hb as <-.
    cbn [batch_X batch_y] in HlX, Hly, Hnth.
    destruct (Hrows row (or_introl eq_refl))
      as (i & start & stop & t & lab & -> & Ht & Hlab & Hs & Hsn & Hchan
          & Hvs).
    cbn [for_each]. rewrite (crop_of_row_ok X y _ i start stop t lab Ht Hlab).
    cbn [bind]. rewrite Hcrops. cbn [bind]. eexists. split; [reflexivity|].
    cbn [batch_X batch_y map fst snd length].
    rewrite HlX, Hly. split; [reflexivity|]. split; [reflexivity|].
    intros [|j] i' start' stop' t' lab' Hj Ht' Hlab'.
    + cbn [nth_error] in Hj |- *. injection Hj as Hi <- <-.
      apply Nat2Z.inj in Hi. subst i'.
      rewrite Ht in Ht'. injection Ht' as <-.
      rewrite Hlab in Hlab'. injection Hlab' as <-.
      split.
      * f_equal. apply map_ext_in. intros chan Hin.
        apply py_slice_in_range; [lia|]. now apply Hchan.
      * f_equal. destruct lab as [v|vs]; [reflexivity|].
        f_equal. rewrite py_slice_in_range; [|lia|now apply Hvs].
        do 2 f_equal. lia.
    + cbn [nth_error] in Hj |- *. now apply (Hnth j i').
Qed.

(** A row that names a trial missing from [X] or from [y] makes the batch
    construction raise [IndexError] (rows being triples with a non-negative
    trial number), whatever the other rows are. *)
Theorem create_batch_missing_trial (X : list trial) (y : list label)
        (rows : list (list Z)) (n_preds_per_input : Z) :
  (forall row, In row rows ->
     exists (i : nat) start stop, row = [Z.of_nat i; start; stop]) ->
  (exists (i : nat) start stop,
      In [Z.of_nat i; start; stop] rows
      /\ ((length X <= i)%nat \/ (length y <= i)%nat)) ->
  _create_batch_from_i_trial_start_stop_blocks X y rows n_preds_per_input
  = Raise IndexError.
Proof.
  intros Hrows (i0 & s0 & e0 & Hin0 & Hmiss).
  unfold _create_batch_from_i_trial_start_stop_blocks.
  assert (Hbody : forall (i : nat) s e,
             (exists v, crop_of_row X y n_preds_per_input
                                    [Z.of_nat i; s; e] = Ok v)
             \/ crop_of_row X y n_preds_per_input [Z.of_nat i; s; e]
                = Raise IndexError).
  { intros i s e. unfold crop_of_row.
    destruct (nth_error X i) as [t|] eqn:Ht.
    - rewrite (PyFacts.py_index_nth_error X i t Ht). cbn [bind].
      destruct (nth_error y i) as [lab|] eqn:Hlab.
      + rewrite (PyFacts.py_index_nth_error y i lab Hlab). cbn [bind].
        left. destruct lab; eexists; reflexivity.
      + apply nth_error_None in Hlab.
        rewrite py_index_out_of_range by exact Hlab. now right.
    - apply nth_error_None in Ht.
      rewrite py_index_out_of_range by exact Ht. now right. }
  rewrite (for_each_raises _ IndexError); [reflexivity| |].
  - intros row Hrow. destruct (Hrows row Hrow) as (i & s & e & ->).
    apply Hbody.
  - exists [Z.of_nat i0; s0; e0]. split; [exact Hin0|].
    unfold crop_of_row. destruct Hmiss as [HX|Hy].
    + now rewrite py_index_out_of_range by exact HX.
    + destruct (nth_error X i0) as [t|] eqn:Ht.
      * rewrite (PyFacts.py_index_nth_error X i0 t Ht). cbn [bind].
        now rewrite py_index_out_of_range by exact Hy.
      * apply nth_error_None in Ht.
        now rewrite py_index_out_of_range by exact Ht.
Qed.

End Batches.

Lemma create_batch_contents_witness :
  exists b,
    _create_batch_from_i_trial_start_stop_blocks
      (X example_dataset) [Sequence [1; 2; 3; 4; 5; 6]] [[0; 2; 6]] 2
    = Ok b
    /\ length (batch_X b) = length [[0; 2; 6]]
    /\ length (batch_y b) = length [[0; 2; 6]]
    /\ forall j i start stop t lab,
        nth_error [[0; 2; 6]] j = Some [Z.of_nat i; start; stop] ->
        nth_error (X example_dataset) i = Some t ->
        nth_error [Sequence [1; 2; 3; 4; 5; 6]] i = Some lab ->
        nth_error (batch_X b) j
        = Some (map (fun chan =>
                       firstn (Z.to_nat (stop - start))
                              (skipn (Z.to_nat start) chan))
                    (channels t))
        /\ nth_error (batch_y b) j
           = Some match lab with
                  | Scalar v => Scalar v
                  | Sequence vs =>
                      Sequence (firstn (Z.to_nat 2)
                                       (skipn (Z.to_nat (stop - 2)) vs))
                  end.
Proof.
  apply (create_batch_contents
           Z Z (X example_dataset) [Sequence [1; 2; 3; 4; 5; 6]]
           [[0; 2; 6]] 2); [lia|].
  intros row [<-|[]].
  exists O, 2, 6,
    {| shape := (1%nat, 6%nat); channels := [[10; 11; 12; 13; 14; 15]] |},
    (Sequence [1; 2; 3; 4; 5; 6]).
  repeat split; try reflexivity; try lia.
  - intros chan [<-|[]]. simpl. lia.
  - intros vs Hvs. injection Hvs as <-. simpl. lia.
Defined.

Lemma create_batch_missing_trial_witness :
  _create_batch_from_i_trial_start_stop_blocks
    (X example_dataset) (y example_dataset) [[0; 0; 4]; [1; 0; 4]] 2
  = Raise IndexError.
Proof.
  apply (create_batch_missing_trial
           Z Z (X example_dataset) (y example_dataset)
           [[0; 0; 4]; [1; 0; 4]] 2).
  - intros row [<-|[<-|[]]];
      [exists O, 0, 4 | exists 1%nat, 0, 4]; reflexivity.
  - exists 1%nat, 0, 4. split; [right; left; reflexivity|].
    left. simpl. lia.
Defined.

End BatchFacts.

(** * From a valid dataset to its batches *)

Module PipelineFacts.

Import WindowPlanner TrialSetWindowPlanner BatchPartitioner.
Import CropsFromTrialsIterator ExampleRun.
Import TrialSetWindowPlannerEdges BatchFacts.

(** The windows planned by [get_batches] for a trial of [len] samples. *)
Lemma planned_window_in_trial (len T n : Z) (w : window) :
  1 <= n -> T <= len ->
  In w (emit len T n (iterations len n (T - n)) (T - n)) ->
  0 <= fst w /\ snd w <= len /\ snd w - fst w = T.
Proof.
  intros Hn Hlen Hin. apply In_nth_error in Hin. destruct Hin as [i Hi].
  apply WindowPlannerFacts.emitted_nth_inv in Hi.
  destruct Hi as (_ & Hstop & Hstart). nia.
Qed.

Lemma map_nth_seq {A B : Type} (f : A -> B) (l : list A) (d : A) :
  map (fun i => f (nth i l d)) (seq 0 (length l)) = map f l.
Proof.
  induction l as [|a l IH]; [reflexivity|].
  cbn [length seq map nth]. f_equal.
  rewrite <- seq_shift, map_map. exact IH.
Qed.

Lemma map_flat_map {A B C : Type} (f : B -> C) (g : A -> list B)
      (l : list A) :
  map f (flat_map g l) = flat_map (fun a => map f (g a)) l.
Proof.
  induction l as [|a l IH]; [reflexivity|].
  cbn [flat_map]. now rewrite map_app, IH.
Qed.

(** Numbering the trials and looking them up again is the same as pairing
    every trial with its own list of windows. *)
Lemma flat_map_enumerate {A B C : Type} (F : A -> B -> C) (d : A)
      (Xs : list A) : forall (bl : list (list B)) (s : nat) (Xall : list A),
  length Xs = length bl ->
  (forall k, (k < length Xs)%nat -> nth (s + k) Xall d = nth k Xs d) ->
  flat_map (fun '(i, block) => map (F (nth i Xall d)) block)
           (combine (seq s (length bl)) bl)
  = flat_map (fun '(t, block) => map (F t) block) (combine Xs bl).
Proof.
  induction Xs as [|t Xs IH]; intros bl s Xall Hlen Hnth;
    destruct bl as [|block bl]; try discriminate; [reflexivity|].
  cbn [length seq combine flat_map]. f_equal.
  - specialize (Hnth O ltac:(simpl; lia)). rewrite Nat.add_0_r in Hnth.
    now rewrite Hnth.
  - apply IH; [simpl in Hlen; lia|].
    intros k Hk. specialize (Hnth (S k) ltac:(simpl; lia)).
    cbn [nth] in Hnth. rewrite <- Hnth. f_equal. lia.
Qed.

Section Pipeline.

Variables sample_t label_t : Type.
Variables seed_t rng_state : Type.
Variable rng_shuffle : rng_state -> list nat -> list nat * rng_state.

Local Notation "'iterator'" := (iterator seed_t rng_state).
Local Notation "'dataset'" := (dataset sample_t label_t).

(** On a dataset whose trials are all at least [input_time_length] long
    (with [n_preds_per_input >= 1] and enough fuel for every trial),
    [get_batches] passes all its assertions and returns a generator that
    holds one list of windows per trial, in trial order; every window of a
    trial lies inside the trial ([0 <= start] and [stop <=] the trial's
    length) and spans [input_time_length] samples, and the windows of a
    trial are what the planner gives for the range
    [[input_time_length - n_preds_per_input, length)]. *)
Theorem get_batches_valid (fuel : nat) (self : iterator) (d : dataset)
        (shuffle : bool) :
  1 <= n_preds_per_input self ->
  (forall t, In t (X d) ->
     input_time_length self <= Z.of_nat (snd (shape t))
     /\ (iterations (Z.of_nat (snd (shape t))) (n_preds_per_input self)
                    (input_time_length self - n_preds_per_input self)
         < fuel)%nat) ->
  exists g,
    get_batches fuel self d shuffle = Ok g
    /\ gen_X g = X d /\ gen_y g = y d /\ gen_shuffle g = shuffle
    /\ length (gen_blocks g) = length (X d)
    /\ forall i t,
        nth_error (X d) i = Some t ->
        nth_error (gen_blocks g) i
        = _get_start_stop_blocks_for_trial
            (input_time_length self - n_preds_per_input self)
            (Z.of_nat (snd (shape t)))
            (input_time_length self) (n_preds_per_input self) fuel
        /\ forall blocks start stop,
            nth_error (gen_blocks g) i = Some blocks ->
            In (start, stop) blocks ->
            0 <= start /\ stop <= Z.of_nat (snd (shape t))
            /\ stop - start = input_time_length self.
Proof.
  intros Hn Hvalid.
  rewrite (CropsFromTrialsIteratorFacts.get_batches_ok
             sample_t label_t seed_t rng_state fuel self d shuffle Hn Hvalid).
  eexists. split; [reflexivity|]. cbn [gen_X gen_y gen_shuffle gen_blocks].
  repeat split; [apply length_map|..].
  - destruct (Hvalid t (nth_error_In _ _ H)) as [_ Hfuel].
    rewrite (WindowPlannerFacts.plan_emit _ _ _ _ Hn fuel Hfuel).
    now rewrite nth_error_map, H.
  - rewrite nth_error_map, H in H0. injection H0 as <-.
    destruct (Hvalid t (nth_error_In _ _ H)) as [Hlen _].
    now apply (planned_window_in_trial _ _ _ (start, stop) Hn Hlen).
  - rewrite nth_error_map, H in H0. injection H0 as <-.
    destruct (Hvalid t (nth_error_In _ _ H)) as [Hlen _].
    now apply (planned_window_in_trial _ _ _ (start, stop) Hn Hlen).
  - rewrite nth_error_map, H in H0. injection H0 as <-.
    destruct (Hvalid t (nth_error_In _ _ H)) as [Hlen _].
    now apply (planned_window_in_trial _ _ _ (start, stop) Hn Hlen).
Qed.

(** Every row names its crop: the batches are the groups of the
    partitioner, with every index replaced by the crop of its row. *)
Lemma yield_loop_ok (Xs : list (trial sample_t)) (ys : list (label label_t))
      (n : Z) (rows : list (list Z))
      (cr : list Z -> list (list sample_t) * label label_t)
      (groups : list (list nat)) :
  (forall row, In row rows -> crop_of_row Xs ys n row = Ok (cr row)) ->
  (forall g i, In g groups -> In i g -> (i < length rows)%nat) ->
  yield_loop Xs ys n rows groups
  = {| yielded :=
         map (fun g =>
                {| batch_X := map (fun i => fst (cr (nth i rows []))) g;
                   batch_y := map (fun i => snd (cr (nth i rows []))) g |})
             groups;
       ending := Ok tt |}.
Proof.
  intros Hrows. induction groups as [|g groups IH]; intros Hgroups;
    [reflexivity|].
  cbn [yield_loop map].
  rewrite (for_each_all_ok _ (fun i => nth i rows []) g).
  2:{ intros i Hi. apply PyFacts.py_index_nth_error, nth_error_nth'.
      apply (Hgroups g i); [now left|exact Hi]. }
  cbn [bind]. unfold _create_batch_from_i_trial_start_stop_blocks.
  rewrite (for_each_all_ok _ cr).
  2:{ intros row Hrow. apply Hrows. apply in_map_iff in Hrow.
      destruct Hrow as (i & <- & Hi). apply nth_In.
      apply (Hgroups g i); [now left|exact Hi]. }
  cbn [bind]. rewrite IH.
  2:{ intros g' i Hg' Hi. apply (Hgroups g' i); [now right|exact Hi]. }
  cbn [yielded ending]. now rewrite !map_map.
Qed.

(** [rng.shuffle] permutes the array it is given. *)
Hypothesis rng_shuffle_perm :
  forall s l, Permutation l (fst (rng_shuffle s l)).

(** On a dataset with at least one trial, whose trials are all at least
    [input_time_length] long and have a label each (with
    [batch_size >= 1], [n_preds_per_input >= 1] and enough fuel), consuming
    [get_batches] to the end raises nothing; it yields
    [ceil(N / batch_size)] batches, [N] being the number of windows planned
    over all trials, and the crops of all batches together are, up to their
    order, exactly one crop [trial[:, start:stop]] per planned window.  When
    every channel of a trial holds as many samples as the trial's shape
    says (and [input_time_length >= 0]), every channel of every crop holds
    [input_time_length] samples. *)
Theorem batches_of_valid_dataset (fuel : nat) (self : iterator) (d : dataset)
        (shuffle : bool) :
  1 <= batch_size self ->
  1 <= n_preds_per_input self ->
  X d <> [] ->
  (length (X d) <= length (y d))%nat ->
  (forall t, In t (X d) ->
     input_time_length self <= Z.of_nat (snd (shape t))
     /\ (iterations (Z.of_nat (snd (shape t))) (n_preds_per_input self)
                    (input_time_length self - n_preds_per_input self)
         < fuel)%nat) ->
  exists g c,
    get_batches fuel self d shuffle = Ok g
    /\ fst (_yield_block_batches rng_shuffle self g) = c
    /\ ending c = Ok tt
    /\ (Z.of_nat (length (yielded c)) - 1) * batch_size self
       < Z.of_nat (length (concat (gen_blocks g)))
       <= Z.of_nat (length (yielded c)) * batch_size self
    /\ Permutation
         (concat (map batch_X (yielded c)))
         (flat_map (fun '(t, blocks) =>
                      map (fun '(start, stop) =>
                             map (fun chan => py_slice chan start stop)
                                 (channels t))
                          blocks)
                   (combine (X d) (gen_blocks g)))
    /\ (0 <= input_time_length self ->
        (forall t chan,
            In t (X d) -> In chan (channels t) ->
            length chan = snd (shape t)) ->
        forall b crop chan,
          In b (yielded c) -> In crop (batch_X b) -> In chan crop ->
          Z.of_nat (length chan) = input_time_length self).
Proof.
  intros Hbs Hn HX Hy Hvalid.
  rewrite (CropsFromTrialsIteratorFacts.get_batches_ok
             sample_t label_t seed_t rng_state fuel self d shuffle Hn Hvalid).
  eexists. eexists. split; [reflexivity|]. split; [reflexivity|].
  unfold _yield_block_batches. cbn [gen_X gen_y gen_blocks gen_shuffle].
  set (T := input_time_length self) in *.
  set (n := n_preds_per_input self) in *.
  set (bl := map (fun t => emit (Z.of_nat (snd (shape t))) T n
                             (iterations (Z.of_nat (snd (shape t))) n (T - n))
                             (T - n)) (X d)).
  set (L := flat_map
              (fun '(i_trial, block) =>
                 map (fun '(start, stop) => (i_trial, start, stop)) block)
              (combine (seq 0 (length bl)) bl)).
  assert (Hbl : length bl = length (X d)) by apply length_map.
  assert (EX : exists t0 Xs, X d = t0 :: Xs).
  { destruct (X d) as [|t0 Xs]; [congruence|now exists t0, Xs]. }
  destruct EX as (t0 & Xs & EX).
  assert (Ey : exists l0, In l0 (y d)).
  { destruct (y d) as [|l0 ys]; [rewrite EX in Hy; simpl in Hy; lia|].
    exists l0. now left. }
  destruct Ey as (l0 & _).
  (* the rows *)
  set (row_of := fun '(i_trial, start, stop) =>
                   [Z.of_nat i_trial; start; stop]).
  assert (HL : L <> []).
  { unfold L, bl. rewrite EX. cbn [map length seq combine flat_map].
    assert (Hlt : T - n < Z.of_nat (snd (shape t0))).
    { destruct (Hvalid t0) as [Hlen _]; [rewrite EX; now left|lia]. }
    rewrite (WindowPlannerFacts.iterations_step _ n Hn _ Hlt).
    discriminate. }
  assert (Hrows : rows_2d (np_array L) = map row_of L).
  { destruct L; [congruence|reflexivity]. }
  rewrite Hrows.
  assert (HLlen : length (concat bl) = length L).
  { unfold L. generalize O as s. generalize bl as l.
    induction l as [|b l IH]; intros s; [reflexivity|].
    cbn [length seq combine flat_map concat].
    now rewrite !length_app, length_map, (IH (S s)). }
  rewrite HLlen.
  (* the crop of every row *)
  set (cr := fun row : list Z =>
               match row with
               | [i; start; stop] =>
                   (map (fun chan => py_slice chan start stop)
                        (channels (nth (Z.to_nat i) (X d) t0)),
                    match nth (Z.to_nat i) (y d) l0 with
                    | Scalar v => Scalar v
                    | Sequence vs => Sequence (py_slice vs (stop - n) stop)
                    end)
               | _ => ([], l0)
               end).
  assert (Hcr : forall row, In row (map row_of L) ->
                            crop_of_row (X d) (y d) n row = Ok (cr row)).
  { intros row Hrow. apply in_map_iff in Hrow.
    destruct Hrow as ([[i start] stop] & <- & Hin).
    assert (Hi : (i < length (X d))%nat).
    { unfold L in Hin. apply in_flat_map in Hin.
      destruct Hin as ([i' block] & Hpair & Hin).
      apply in_map_iff in Hin. destruct Hin as ([s e] & Heq & _).
      injection Heq as -> _ _.
      apply in_combine_l, in_seq in Hpair. lia. }
    unfold row_of, cr.
    rewrite (crop_of_row_ok sample_t label_t (X d) (y d) n i start stop
               (nth i (X d) t0) (nth i (y d) l0))
      by (apply nth_error_nth'; lia).
    now rewrite Nat2Z.id. }
  (* the groups *)
  destruct (BatchPartitionerFacts.groups_of_permutation
              rng_state rng_shuffle rng_shuffle_perm
              (length (map row_of L)) (batch_size self) (rng self) shuffle)
    as (inds & Hperm & Hgroups).
  destruct (get_balanced_batches _ _ _ _ _ _) as [groups rng'].
  cbn [fst] in Hgroups. subst groups. cbn [fst].
  pose proof (BatchPartitionerFacts.n_groups_ceil
                (length (map row_of L)) (batch_size self) Hbs) as Hceil.
  pose proof (Permutation_length Hperm) as Hplen.
  rewrite length_seq in Hplen.
  set (k := n_groups (length (map row_of L)) (batch_size self)) in *.
  assert (Hconcat : concat (contiguous_blocks
                              k (Z.to_nat (batch_size self)) inds) = inds).
  { apply BatchPartitionerFacts.contiguous_blocks_concat. nia. }
  rewrite (yield_loop_ok _ _ _ _ cr).
  2:{ exact Hcr. }
  2:{ intros g i Hg Hi.
      assert (Hin : In i inds).
      { rewrite <- Hconcat. apply in_concat. now exists g. }
      apply (Permutation_in _ (Permutation_sym Hperm)), in_seq in Hin.
      lia. }
  cbn [yielded ending]. split; [reflexivity|].
  rewrite length_map, BatchPartitionerFacts.contiguous_blocks_length.
  rewrite length_map in Hceil. split; [exact Hceil|].
  match goal with |- ?P /\ _ => assert (Hcrops : P) end.
  2:{ split; [exact Hcrops|]. intros HT Hchan b crop chan Hb Hcrop Hin.
      assert (Hc : In crop (concat (map batch_X
                     (map (fun g =>
                             {| batch_X :=
                                  map (fun i =>
                                         fst (cr (nth i (map row_of L) [])))
                                      g;
                                batch_y :=
                                  map (fun i =>
                                         snd (cr (nth i (map row_of L) [])))
                                      g |})
                          (contiguous_blocks k (Z.to_nat (batch_size self))
                                             inds))))).
      { apply in_concat. exists (batch_X b). split; [|exact Hcrop].
        now apply in_map. }
      apply (Permutation_in _ Hcrops) in Hc. apply in_flat_map in Hc.
      destruct Hc as ([t blocks] & Hpair & Hc).
      apply in_map_iff in Hc. destruct Hc as ([start stop] & <- & Hw).
      assert (Ht : In t (X d) /\ In (start, stop)
                    (emit (Z.of_nat (snd (shape t))) T n
                          (iterations (Z.of_nat (snd (shape t))) n (T - n))
                          (T - n))).
      { clear - Hpair Hw. unfold bl in Hpair. revert Hpair.
        induction (X d) as [|t' l IH]; cbn [map combine];
          intros Hpair; [destruct Hpair|].
        destruct Hpair as [Heq|Hpair].
        - injection Heq as -> <-. split; [now left|exact Hw].
        - destruct (IH Hpair) as [Hl Hw']. split; [now right|exact Hw']. }
      destruct Ht as [Ht Hwin].
      destruct (Hvalid t Ht) as [Hlen _].
      destruct (planned_window_in_trial _ _ _ _ Hn Hlen Hwin)
        as (H0 & Hstop & Hspan).
      cbn [fst snd] in H0, Hstop, Hspan.
      apply in_map_iff in Hin. destruct Hin as (chan0 & <- & Hchan0).
      rewrite py_slice_length; [exact Hspan|fold T in HT; lia|].
      rewrite (Hchan t chan0 Ht Hchan0). exact Hstop. }
  rewrite map_map. cbn [batch_X]. rewrite <- concat_map, Hconcat.
  apply Permutation_trans
    with (map (fun i => fst (cr (nth i (map row_of L) [])))
              (seq 0 (length (map row_of L)))).
  { apply Permutation_map, Permutation_sym. exact Hperm. }
  rewrite (map_nth_seq (fun row => fst (cr row))), map_map.
  unfold L. rewrite map_flat_map.
  apply Permutation_refl'.
  set (F := fun (t : trial sample_t) '(start, stop) =>
              map (fun chan : list sample_t => py_slice chan start stop)
                  (channels t)).
  transitivity
    (flat_map (fun '(i, block) => map (F (nth i (X d) t0)) block)
              (combine (seq 0 (length bl)) bl)).
  - apply flat_map_ext. intros [i block].
    rewrite map_map. apply map_ext. intros [start stop].
    unfold row_of, cr, F. cbn [fst]. now rewrite Nat2Z.id.
  - apply (flat_map_enumerate F t0 (X d) bl O (X d));
      [now symmetry|reflexivity].
Qed.

End Pipeline.

Lemma get_batches_valid_witness :
  exists g,
    get_batches 5 example_iterator example_dataset true = Ok g
    /\ gen_X g = X example_dataset /\ gen_y g = y example_dataset
    /\ gen_shuffle g = true
    /\ length (gen_blocks g) = length (X example_dataset)
    /\ forall i t,
        nth_error (X example_dataset) i = Some t ->
        nth_error (gen_blocks g) i
        = _get_start_stop_blocks_for_trial
            (input_time_length example_iterator
             - n_preds_per_input example_iterator)
            (Z.of_nat (snd (shape t)))
            (input_time_length example_iterator)
            (n_preds_per_input example_iterator) 5
        /\ forall blocks start stop,
            nth_error (gen_blocks g) i = Some blocks ->
            In (start, stop) blocks ->
            0 <= start /\ stop <= Z.of_nat (snd (shape t))
            /\ stop - start = input_time_length example_iterator.
Proof.
  apply (get_batches_valid Z Z nat ExampleRng.state 5 example_iterator
                           example_dataset true).
  - simpl. lia.
  - intros t [<-|[]]. split; [simpl; lia | vm_compute; lia].
Defined.

Lemma batches_of_valid_dataset_witness :
  exists g c,
    get_batches 5 example_iterator example_dataset true = Ok g
    /\ fst (_yield_block_batches ExampleRng.shuffle example_iterator g) = c
    /\ ending c = Ok tt
    /\ (Z.of_nat (length (yielded c)) - 1) * batch_size example_iterator
       < Z.of_nat (length (concat (gen_blocks g)))
       <= Z.of_nat (length (yielded c)) * batch_size example_iterator
    /\ Permutation
         (concat (map batch_X (yielded c)))
         (flat_map (fun '(t, blocks) =>
                      map (fun '(start, stop) =>
                             map (fun chan => py_slice chan start stop)
                                 (channels t))
                          blocks)
                   (combine (X example_dataset) (gen_blocks g)))
    /\ (0 <= input_time_length example_iterator ->
        (forall t chan,
            In t (X example_dataset) -> In chan (channels t) ->
            length chan = snd (shape t)) ->
        forall b crop chan,
          In b (yielded c) -> In crop (batch_X b) -> In chan crop ->
          Z.of_nat (length chan) = input_time_length example_iterator).
Proof.
  apply (batches_of_valid_dataset
           Z Z nat ExampleRng.state ExampleRng.shuffle
           BatchPartitionerFacts.example_shuffle_perm
           5 example_iterator example_dataset true).
  - simpl. lia.
  - simpl. lia.
  - discriminate.
  - simpl. lia.
  - intros t [<-|[]]. split; [simpl; lia | vm_compute; lia].
Defined.

End PipelineFacts.

(** * Properties of the dataset adapter *)

Module MoabbFacts.

Import TrialSetWindowPlanner Moabb.

Lemma dict_get_set {V : Type} (d : dict V) (k : Z) (v : V) (c : Z) :
  dict_get (dict_set d k v) c = if c =? k then Some v else dict_get d c.
Proof.
  induction d as [|[k' v'] d IH]; cbn [dict_set dict_get].
  - reflexivity.
  - destruct (Z.eqb_spec k k') as [->|Hk]; cbn [dict_get].
    + destruct (Z.eqb_spec c k'); reflexivity.
    + rewrite IH. destruct (Z.eqb_spec c k') as [->|Hc]; [|reflexivity].
      destruct (Z.eqb_spec k' k); [congruence|reflexivity].
Qed.

Lemma existsb_eqb_In (c : Z) (l : list Z) :
  existsb (Z.eqb c) l = true <-> In c l.
Proof.
  rewrite existsb_exists. split.
  - intros (x & Hx & Hc). apply Z.eqb_eq in Hc. now subst.
  - intros Hc. exists c. split; [exact Hc|apply Z.eqb_refl].
Qed.

(** The dict that [_select_events_based_on_id] builds over the codes
    [ids]: a code is a key when it is among [ids] and has a description. *)
Lemma described_get (func : Z -> pyval) (ids : list Z) : forall acc c,
  dict_get (fold_left (fun event_desc_ e =>
                         let trigger := func e in
                         if is_none trigger then event_desc_
                         else dict_set event_desc_ e trigger)
                      ids acc) c
  = if existsb (Z.eqb c) ids && negb (is_none (func c))
    then Some (func c) else dict_get acc c.
Proof.
  induction ids as [|e ids IH]; intros acc c; cbn [fold_left existsb].
  - reflexivity.
  - rewrite IH. cbv zeta.
    destruct (existsb (Z.eqb c) ids) eqn:Hin; cbn [andb orb].
    + rewrite orb_true_r. cbn [andb].
      destruct (is_none (func c)) eqn:Hc; cbn [negb]; [|reflexivity].
      destruct (is_none (func e)) eqn:He; [reflexivity|].
      rewrite dict_get_set. destruct (Z.eqb_spec c e); [congruence|].
      reflexivity.
    + rewrite orb_false_r.
      destruct (Z.eqb_spec c e) as [->|Hce]; cbn [andb].
      * destruct (is_none (func e)); cbn [negb]; [reflexivity|].
        rewrite dict_get_set, Z.eqb_refl. reflexivity.
      * destruct (is_none (func e)); [reflexivity|].
        rewrite dict_get_set. destruct (Z.eqb_spec c e); [congruence|].
        reflexivity.
Qed.

Lemma nth_first_index (v : Z) (a : list Z) :
  In v a -> nth (first_index v a) a 0 = v.
Proof.
  induction a as [|x a IH]; intros Hin; [destruct Hin|].
  cbn [first_index]. destruct (Z.eqb_spec v x) as [->|Hvx]; [reflexivity|].
  cbn [nth]. apply IH. destruct Hin; [congruence|assumption].
Qed.

(** Indexing with the positions of the first occurrences gives back the
    distinct values. *)
Lemma unique_by_index (a : list Z) :
  map (fun i => nth i a 0) (np_unique_index a) = np_unique a.
Proof.
  unfold np_unique_index. rewrite map_map.
  rewrite <- (map_id (np_unique a)) at 2.
  apply map_ext_in. intros v Hv. apply nth_first_index.
  now apply TrialSetWindowPlannerFacts.np_unique_In.
Qed.

(** Selecting by position the rows that pass a test is filtering. *)
Lemma take_rows_filter (P : event -> bool) (all : list event) :
  forall (l : list event) (s : nat),
    (forall k e, nth_error l k = Some e ->
                 nth_error all (s + k) = Some e) ->
    take_rows all
      (map fst (filter (fun '(ii, e) => P e)
                       (combine (seq s (length l)) l)))
    = Return (filter P l).
Proof.
  unfold take_rows.
  induction l as [|e l IH]; intros s Hall; [reflexivity|].
  cbn [length seq combine filter].
  assert (Hrest : forall k e', nth_error l k = Some e' ->
                               nth_error all (S s + k) = Some e').
  { intros k e' Hk. rewrite <- (Hall (S k) e' Hk). f_equal. lia. }
  destruct (P e) eqn:HP.
  - cbn [map fst rfor_each].
    pose proof (Hall O e eq_refl) as H0. rewrite Nat.add_0_r in H0.
    rewrite H0. cbn [rbind]. rewrite (IH (S s) Hrest). reflexivity.
  - apply (IH (S s) Hrest).
Qed.

Lemma rfor_each_all {A B : Type} (f : A -> res B) (g : A -> B)
      (xs : list A) :
  (forall x, In x xs -> f x = Return (g x)) ->
  rfor_each f xs = Return (map g xs).
Proof.
  induction xs as [|x xs IH]; intros Hf; [reflexivity|].
  cbn [rfor_each map]. rewrite (Hf x (or_introl eq_refl)). cbn [rbind].
  rewrite IH; [reflexivity|]. intros x' Hx'. apply Hf. now right.
Qed.

(** [dict(zip(codes, map(g, codes)))]. *)
Lemma dict_of_zip_get {V : Type} (g : Z -> V) (codes : list Z) (c : Z) :
  dict_get (dict_of_zip codes (map g codes)) c
  = if existsb (Z.eqb c) codes then Some (g c) else None.
Proof.
  unfold dict_of_zip. change (@None V) with (dict_get (@nil (Z * V)) c).
  generalize (@nil (Z * V)) as acc.
  induction codes as [|k codes IH]; intros acc;
    cbn [map combine fold_left existsb]; [reflexivity|].
  rewrite IH. destruct (existsb (Z.eqb c) codes); [now rewrite orb_true_r|].
  rewrite orb_false_r, dict_get_set.
  destruct (Z.eqb_spec c k) as [->|]; reflexivity.
Qed.

Section Annotations.

Variable float : Type.
Variable true_div : Z -> float -> float.
Variable fzero : float.
Variable orig_time_t : Type.

(** After the check of [event_desc], the function builds what the
    docstring describes. *)
Lemma annotations_of_checked (events : list event) (sfreq : float)
      (checked : checked_desc) (first_samp : Z) (orig : orig_time_t) :
  (let '(event_sel, event_desc_) :=
     _select_events_based_on_id events checked in
   events_sel <~ take_rows events event_sel ;;
   let onsets :=
     map (fun e => true_div (sample_of e - first_samp) sfreq) events_sel in
   descriptions <~
     rfor_each (fun e => dict_item event_desc_ (code_of e)) events_sel ;;
   let durations := repeat fzero (length events_sel) in
   Return {| onset := onsets;
             duration := durations;
             description := descriptions;
             orig_time := orig |})
  = Return (annotations_of_described true_div fzero (func_of checked)
                                     events sfreq first_samp orig).
Proof.
  unfold _select_events_based_on_id. cbv zeta.
  rewrite unique_by_index.
  set (func := func_of checked).
  set (event_desc_ := fold_left _ _ _).
  assert (Hget : forall e, In e events ->
             dict_get event_desc_ (code_of e)
             = if negb (is_none (func (code_of e)))
               then Some (func (code_of e)) else None).
  { intros e He. unfold event_desc_. rewrite described_get.
    replace (existsb (Z.eqb (code_of e)) (np_unique (map code_of events)))
      with true; [reflexivity|].
    symmetry. apply existsb_eqb_In.
    apply TrialSetWindowPlannerFacts.np_unique_In. now apply in_map. }
  set (P := fun e : event => negb (is_none (func (code_of e)))).
  assert (Hsel : filter (fun '(ii, e) =>
                           dict_contains event_desc_ (code_of e))
                        (combine (seq 0 (length events)) events)
                 = filter (fun '(ii, e) => P e)
                          (combine (seq 0 (length events)) events)).
  { apply filter_ext_in. intros [ii e] Hin. apply in_combine_r in Hin.
    unfold dict_contains, P. rewrite (Hget e Hin).
    destruct (negb (is_none (func (code_of e)))); reflexivity. }
  rewrite Hsel.
  rewrite (take_rows_filter P events events O) by (intros k e Hk; exact Hk).
  cbn [rbind].
  rewrite (rfor_each_all _ (fun e => func (code_of e))).
  - reflexivity.
  - intros e He. apply filter_In in He. destruct He as [He HP].
    unfold dict_item. rewrite (Hget e He). unfold P in HP. now rewrite HP.
Qed.

(** The values of a dict pass [_validate_type] unless one of them is
    neither a [str] nor [None]. *)
Lemma validate_values (vals : list pyval) :
  (~ In PyOther vals /\ exists r, rfor_each _validate_type vals = Return r)
  \/ (In PyOther vals /\ rfor_each _validate_type vals = Throw TypeError).
Proof.
  induction vals as [|v vals IH].
  - left. split; [intros []|now eexists].
  - destruct v.
    + destruct IH as [[Hno [r Hr]]|[Hin Hr]].
      * left. split; [intros [|]; [discriminate|auto]|].
        cbn [rfor_each _validate_type rbind]. rewrite Hr. now eexists.
      * right. split; [now right|].
        cbn [rfor_each _validate_type rbind]. now rewrite Hr.
    + destruct IH as [[Hno [r Hr]]|[Hin Hr]].
      * left. split; [intros [|]; [discriminate|auto]|].
        cbn [rfor_each _validate_type rbind]. rewrite Hr. now eexists.
      * right. split; [now right|].
        cbn [rfor_each _validate_type rbind]. now rewrite Hr.
    + right. split; [now left|reflexivity].
Qed.

(** With a dict whose values are all [str] or [None],
    [annotations_from_events] returns, in the order of the events, one
    annotation per event whose code is a key of the dict with a [str]
    value: its onset is [(sample - first_samp) / sfreq], its duration
    zero, its description the value of the dict; events whose code is
    missing from the dict or mapped to [None] are left out. *)
Theorem annotations_from_dict (events : list event) (sfreq : float)
        (d : dict pyval) (first_samp : Z) (orig : orig_time_t) :
  (forall k v, In (k, v) d -> v <> PyOther) ->
  annotations_from_events true_div fzero events sfreq (DescDict d)
                          first_samp orig
  = Return (annotations_of_described
              true_div fzero
              (fun c => match dict_get d c with
                        | Some v => v
                        | None => PyNone
                        end)
              events sfreq first_samp orig).
Proof.
  intros Hvals. unfold annotations_from_events.
  cbn [_check_event_description].
  destruct (validate_values (map snd d)) as [[_ [r Hr]]|[Hin _]].
  - rewrite Hr. cbn [rbind].
    apply (annotations_of_checked events sfreq (CheckedDict d)).
  - exfalso. apply in_map_iff in Hin. destruct Hin as ([k v] & Hv & Hin).
    cbn [snd] in Hv. subst v. now apply (Hvals k PyOther).
Qed.

(** With [event_desc=None] every event gets an annotation, in order,
    described by [str] of its code. *)
Theorem annotations_from_none (events : list event) (sfreq : float)
        (first_samp : Z) (orig : orig_time_t) :
  annotations_from_events true_div fzero events sfreq DescNone
                          first_samp orig
  = Return {| onset :=
                map (fun e => true_div (sample_of e - first_samp) sfreq)
                    events;
              duration := repeat fzero (length events);
              description := map (fun e => PyStr (str (code_of e))) events;
              orig_time := orig |}.
Proof.
  unfold annotations_from_events. cbn [_check_event_description rbind].
  rewrite annotations_of_checked. unfold annotations_of_described.
  cbn [func_of].
  assert (Hdesc : forall e, In e events ->
             match dict_get
                     (dict_of_zip (np_unique (map code_of events))
                        (map (fun c => PyStr (str c))
                             (np_unique (map code_of events))))
                     (code_of e)
             with Some v => v | None => PyNone end
             = PyStr (str (code_of e))).
  { intros e He. rewrite dict_of_zip_get.
    replace (existsb (Z.eqb (code_of e)) (np_unique (map code_of events)))
      with true; [reflexivity|].
    symmetry. apply existsb_eqb_In.
    apply TrialSetWindowPlannerFacts.np_unique_In. now apply in_map. }
  assert (Hall : filter
                   (fun e =>
                      negb (is_none
                              match dict_get
                                      (dict_of_zip
                                         (np_unique (map code_of events))
                                         (map (fun c => PyStr (str c))
                                            (np_unique (map code_of events))))
                                      (code_of e)
                              with Some v => v | None => PyNone end))
                   events = events).
  { apply forallb_filter_id. apply forallb_forall. intros e He.
    now rewrite (Hdesc e He). }
  rewrite Hall. do 2 f_equal. apply map_ext_in. exact Hdesc.
Qed.

(** With a list (or 1-d array) of codes, the events whose code is listed
    get an annotation, described by [str] of the code; the others are left
    out. *)
Theorem annotations_from_codes (events : list event) (sfreq : float)
        (codes : list Z) (first_samp : Z) (orig : orig_time_t) :
  annotations_from_events true_div fzero events sfreq (DescArray1 codes)
                          first_samp orig
  = Return (annotations_of_described
              true_div fzero
              (fun c => if existsb (Z.eqb c) codes
                        then PyStr (str c) else PyNone)
              events sfreq first_samp orig).
Proof.
  unfold annotations_from_events. cbn [_check_event_description rbind].
  rewrite annotations_of_checked. unfold annotations_of_described.
  cbn [func_of].
  assert (Hf : forall c,
             match dict_get
                     (dict_of_zip codes (map (fun c => PyStr (str c)) codes))
                     c
             with Some v => v | None => PyNone end
             = if existsb (Z.eqb c) codes then PyStr (str c) else PyNone).
  { intros c. rewrite dict_of_zip_get.
    destruct (existsb (Z.eqb c) codes); reflexivity. }
  rewrite (filter_ext _ (fun e => negb (is_none
             (if existsb (Z.eqb (code_of e)) codes
              then PyStr (str (code_of e)) else PyNone))))
    by (intros e; now rewrite Hf).
  do 2 f_equal. apply map_ext. intros e. apply Hf.
Qed.


(** With a callable, an event gets an annotation exactly when the
    callable does not return [None] on its code, and is described by what
    the callable returns. *)
Theorem annotations_from_callable (events : list event) (sfreq : float)
        (f : Z -> pyval) (first_samp : Z) (orig : orig_time_t) :
  annotations_from_events true_div fzero events sfreq (DescCallable f)
                          first_samp orig
  = Return (annotations_of_described true_div fzero f
                                     events sfreq first_samp orig).
Proof.
  unfold annotations_from_events. cbn [_check_event_description rbind].
  apply (annotations_of_checked events sfreq (CheckedCallable f)).
Qed.

End Annotations.

(** *** The inverted [event_id] *)

Lemma dict_get_In {V : Type} (d : dict V) (c : Z) (v : V) :
  dict_get d c = Some v -> In (c, v) d.
Proof.
  induction d as [|[k x] d IH]; cbn [dict_get]; [discriminate|].
  destruct (Z.eqb_spec c k) as [->|_].
  - intros H. injection H as <-. now left.
  - intros H. right. now apply IH.
Qed.

Lemma dict_set_In {V : Type} (d : dict V) (k : Z) (x : V) (c : Z) (v : V) :
  In (c, v) (dict_set d k x) -> (c = k /\ v = x) \/ In (c, v) d.
Proof.
  induction d as [|[k' x'] d IH]; cbn [dict_set].
  - intros [H|[]]. injection H as <- <-. now left.
  - destruct (Z.eqb_spec k k') as [->|_].
    + intros [H|H]; [injection H as <- <-; now left|right; now right].
    + intros [H|H]; [right; now left|].
      destruct (IH H) as [?|?]; [now left|right; now right].
Qed.

(** Every value of the inverted dict is an event name, filed under the
    code that [event_id] gives to that name. *)
Lemma inverse_mapping_In (event_id : list (String.string * Z)) :
  forall acc c v,
    In (c, v) (fold_left (fun mapping '(k, v) => dict_set mapping v (PyStr k))
                         event_id acc) ->
    (exists name, v = PyStr name /\ In (name, c) event_id) \/ In (c, v) acc.
Proof.
  induction event_id as [|[k x] items IH]; intros acc c v Hin;
    cbn [fold_left] in Hin; [now right|].
  destruct (IH _ _ _ Hin) as [(name & -> & Hname)|Hacc].
  - left. exists name. split; [reflexivity|now right].
  - destruct (dict_set_In _ _ _ _ _ Hacc) as [[-> ->]|Hold];
      [|now right].
    left. exists k. split; [reflexivity|now left].
Qed.

(** The codes of [event_id] are exactly the keys of the inverted dict. *)
Lemma inverse_mapping_key (event_id : list (String.string * Z)) :
  forall acc c,
    dict_get (fold_left (fun mapping '(k, v) =>
                           dict_set mapping v (PyStr k)) event_id acc) c
    = None
    <-> ~ In c (map snd event_id) /\ dict_get acc c = None.
Proof.
  induction event_id as [|[k x] items IH]; intros acc c;
    cbn [fold_left map snd].
  - intuition.
  - rewrite IH, dict_get_set. cbn [In].
    destruct (Z.eqb_spec c x) as [->|Hcx].
    + split; [intros [_ H]; discriminate|intros [H _]; exfalso; auto].
    + intuition.
Qed.

(** *** [find_data_set] *)

(** [find_data_set] returns the first class of [dataset_list] whose
    [__name__] is [dataset_name], and raises [ValueError] exactly when no
    class has that name. *)
Theorem find_data_set_first {float dataset_payload_t : Type}
        (dataset_list : list (dataset_class float dataset_payload_t))
        (dataset_name : String.string) :
  (forall cls,
      find_data_set dataset_list dataset_name = Return cls
      <-> exists before after,
          dataset_list = before ++ cls :: after
          /\ __name__ cls = dataset_name
          /\ forall c, In c before -> __name__ c <> dataset_name)
  /\ (forall e,
        find_data_set dataset_list dataset_name = Throw e
        <-> e = ValueError
            /\ forall c, In c dataset_list -> __name__ c <> dataset_name).
Proof.
  induction dataset_list as [|c0 l [IHr IHt]]; cbn [find_data_set].
  - split.
    + intros cls. split; [discriminate|].
      intros (before & after & Heq & _). destruct before; discriminate.
    + intros e. split.
      * intros H. injection H as <-. split; [reflexivity|intros c []].
      * intros [-> _]. reflexivity.
  - destruct (String.eqb_spec dataset_name (__name__ c0)) as [Heq|Hne].
    + split.
      * intros cls. split.
        -- intros H. injection H as <-. exists [], l.
           repeat split; [now symmetry|intros c []].
        -- intros (before & after & Hl & Hname & Hbefore).
           destruct before as [|b before].
           ++ injection Hl as -> _. reflexivity.
           ++ injection Hl as -> _. exfalso.
              apply (Hbefore b); [now left|now symmetry].
      * intros e. split; [discriminate|].
        intros [_ Hall]. exfalso. apply (Hall c0); [now left|now symmetry].
    + split.
      * intros cls. rewrite IHr. split.
        -- intros (before & after & -> & Hname & Hbefore).
           exists (c0 :: before), after. repeat split; [exact Hname|].
           intros c [<-|Hc]; [congruence|now apply Hbefore].
        -- intros (before & after & Hl & Hname & Hbefore).
           destruct before as [|b before].
           ++ injection Hl as -> _. congruence.
           ++ injection Hl as -> ->. exists before, after.
              repeat split; [exact Hname|].
              intros c Hc. apply Hbefore. now right.
      * intros e. rewrite IHt. split.
        -- intros [-> Hall]. split; [reflexivity|].
           intros c [<-|Hc]; [congruence|now apply Hall].
        -- intros [-> Hall]. split; [reflexivity|].
           intros c Hc. apply Hall. now right.
Qed.

(** *** [MOABBDataset] *)

Lemma existsb_code_In (c : Z) (event_id : list (String.string * Z)) :
  existsb (fun item => c =? snd item) event_id = true
  <-> In c (map snd event_id).
Proof.
  rewrite existsb_exists, in_map_iff. split.
  - intros (item & Hin & Hc). apply Z.eqb_eq in Hc. now exists item.
  - intros (item & Hc & Hin). exists item. split; [exact Hin|].
    subst c. apply Z.eqb_refl.
Qed.

(** What the inverted [event_id] says of a code: the name of an event with
    that code, or nothing when no event has it. *)
Lemma inverse_mapping_describes (event_id : list (String.string * Z))
      (c : Z) :
  (In c (map snd event_id)
   /\ exists name,
       dict_get (inverse_mapping event_id) c = Some (PyStr name)
       /\ In (name, c) event_id)
  \/ (~ In c (map snd event_id)
      /\ dict_get (inverse_mapping event_id) c = None).
Proof.
  unfold inverse_mapping.
  destruct (dict_get _ c) as [v|] eqn:Hget.
  - left. apply dict_get_In in Hget.
    destruct (inverse_mapping_In _ _ _ _ Hget) as [(name & -> & Hin)|[]].
    split; [|now exists name].
    apply in_map_iff. now exists (name, c).
  - right. apply inverse_mapping_key in Hget. now split.
Qed.

Lemma Forall2_map_r {A B : Type} (R : A -> B -> Prop) (f : A -> B)
      (l : list A) :
  (forall a, In a l -> R a (f a)) -> Forall2 R l (map f l).
Proof.
  induction l as [|a l IH]; intros HR; constructor.
  - apply HR. now left.
  - apply IH. intros a' Ha'. apply HR. now right.
Qed.

Section Dataset.

Variable float : Type.
Variable true_div : Z -> float -> float.
Variable fzero : float.
Variable fadd fsub : float -> float -> float.
Variable int_of_product : float -> float -> Z.
Variable orig_time_t : Type.
Variables subj_t sess_t run_t payload_t : Type.

Local Notation "'Raw'" := (Raw float subj_t sess_t run_t payload_t).

Variable find_events : Raw -> res (list event).
Variable set_annotations : Raw -> Annotations float orig_time_t -> res Raw.
Variable n_annotations : Raw -> nat.
Variable pick_eeg_channels : Raw -> res Raw.
Variable orig_time_none : orig_time_t.
Variable dataset_payload_t : Type.
Variable get_data :
  moabb_dataset float dataset_payload_t -> list Z ->
  res (list (subj_t * list (sess_t * list (run_t * Raw)))).
Variables windows_t window_transformer_t concat_t : Type.
Variable concat_init :
  list (WindowsDataset windows_t window_transformer_t) -> res concat_t.

Local Notation "'MOABBDataset'" :=
  (MOABBDataset float subj_t sess_t run_t payload_t dataset_payload_t
                windows_t window_transformer_t).

(** When [mne.find_events] returns, [_populate_raw_from_moabb] stores the
    run's identifiers and the events, shifted by
    [int(event_onset * fs)] samples, in [raw.info], and hands to
    [raw.set_annotations] one annotation for every shifted event whose code
    is a code of [event_id], in the order of the events: its onset is
    [(sample - first_samp) / sfreq], its duration
    [0 + (event_offset - event_onset)], and its description the name of an
    event of [event_id] with that code.  Events with another code get no
    annotation. *)
Theorem populate_annotations (self : MOABBDataset) (raw : Raw)
        (subj_id : subj_t) (sess_id : sess_t) (run_id : run_t)
        (found : list event) :
  find_events {| info_sfreq := info_sfreq raw;
                 info_subject_id := Some subj_id;
                 info_session := Some sess_id;
                 info_run := Some run_id;
                 info_events := info_events raw;
                 first_samp := first_samp raw;
                 payload := payload raw |}
  = Return found ->
  let shifted :=
    map (fun '(s, previous, code) =>
           (s + int_of_product (fst (interval (dataset self)))
                               (info_sfreq raw),
            previous, code)) found in
  let named :=
    filter (fun e => existsb (fun item => code_of e =? snd item)
                             (event_id (dataset self))) shifted in
  exists annots,
    _populate_raw_from_moabb
      true_div fzero fadd fsub int_of_product
      find_events set_annotations orig_time_none
      self raw subj_id sess_id run_id
    = set_annotations
        {| info_sfreq := info_sfreq raw;
           info_subject_id := Some subj_id;
           info_session := Some sess_id;
           info_run := Some run_id;
           info_events := Some shifted;
           first_samp := first_samp raw;
           payload := payload raw |}
        annots
    /\ onset annots
       = map (fun e => true_div (sample_of e - first_samp raw)
                                (info_sfreq raw)) named
    /\ duration annots
       = repeat (fadd fzero (fsub (snd (interval (dataset self)))
                                  (fst (interval (dataset self)))))
                (length named)
    /\ Forall2 (fun e d =>
                  exists name,
                    d = PyStr name
                    /\ In (name, code_of e) (event_id (dataset self)))
               named (description annots)
    /\ orig_time annots = orig_time_none.
Proof.
  intros Hfound.
  destruct (interval (dataset self)) as [event_onset event_offset] eqn:Hint.
  cbn [fst snd]. unfold _populate_raw_from_moabb.
  rewrite Hfound, Hint. cbn [rbind].
  cbn [fst snd info_sfreq first_samp info_subject_id info_session info_run
       payload].
  match goal with
  | |- context [Some (map ?f found)] => set (shifted := map f found)
  end.
  match goal with
  | |- context [filter ?g shifted] => set (named := filter g shifted)
  end.
  set (items := event_id (dataset self)) in *.
  set (describe := fun c => match dict_get (inverse_mapping items) c with
                            | Some v => v
                            | None => PyNone
                            end).
  assert (Hannots :
            annotations_from_events
              true_div fzero shifted (info_sfreq raw)
              (DescDict (inverse_mapping items)) (first_samp raw)
              orig_time_none
            = Return (annotations_of_described
                        true_div fzero describe shifted (info_sfreq raw)
                        (first_samp raw) orig_time_none)).
  { unfold annotations_from_events. cbn [_check_event_description].
    destruct (validate_values (map snd (inverse_mapping items)))
      as [[_ [r Hr]]|[Hin _]].
    - rewrite Hr. cbn [rbind].
      apply (annotations_of_checked
               float true_div fzero orig_time_t shifted (info_sfreq raw)
               (CheckedDict (inverse_mapping items))).
    - exfalso. apply in_map_iff in Hin.
      destruct Hin as ([c v] & Hv & Hin).
      cbn [snd] in Hv. subst v. unfold inverse_mapping in Hin.
      destruct (inverse_mapping_In _ _ _ _ Hin) as [(name & H & _)|[]].
      discriminate. }
  rewrite Hannots. cbn [rbind]. unfold annotations_of_described.
  assert (Hfilter : filter (fun e => negb (is_none (describe (code_of e))))
                           shifted = named).
  { unfold named. apply filter_ext. intros e. unfold describe.
    destruct (inverse_mapping_describes items (code_of e))
      as [[Hin (name & -> & _)]|[Hno ->]]; cbn [is_none negb].
    - symmetry. now apply existsb_code_In.
    - symmetry. apply not_true_is_false. intros H.
      apply Hno. now apply existsb_code_In. }
  rewrite Hfilter.
  eexists. split; [reflexivity|].
  cbn [onset duration description orig_time].
  split; [reflexivity|]. split; [now rewrite map_repeat|].
  split; [|reflexivity].
  apply Forall2_map_r. intros e He. unfold named in He.
  apply filter_In in He. destruct He as [_ He].
  apply existsb_code_In in He. unfold describe.
  destruct (inverse_mapping_describes items (code_of e))
    as [[_ (name & -> & Hname)]|[Hno _]]; [|contradiction].
  now exists name.
Qed.

(** The loop over the transformers stays failed once it has failed, and
    fails on a transformer that is [None]. *)
Lemma transformers_throw (l : list (option (Raw -> res Raw))) (e : error) :
  fold_left (fun r transformer => raw <~ r ;; call1 transformer raw)
            l (Throw e)
  = Throw e.
Proof. induction l as [|t l IH]; [reflexivity|exact IH]. Qed.

Lemma transformers_none (l : list (option (Raw -> res Raw))) :
  In None l ->
  forall r, exists e,
    fold_left (fun r transformer => raw <~ r ;; call1 transformer raw) l r
    = Throw e.
Proof.
  induction l as [|t l IH]; intros Hin r; [destruct Hin|].
  cbn [fold_left]. destruct Hin as [->|Hin]; [|now apply IH].
  destruct r as [raw|e]; cbn [rbind call1]; eexists;
    apply transformers_throw.
Qed.

(** A run never gives a dataset when [transform_online] is false, when
    there is no windower, or when a raw transformer is [None]. *)
Lemma run_appends_nothing (self : MOABBDataset)
      (subj_id : subj_t) (sess_id : sess_t) (run_id : run_t) (raw : Raw)
      (ds : WindowsDataset windows_t window_transformer_t) :
  transform_online self = false
  \/ windower self = None
  \/ In None (raw_transformer self) ->
  base_dataset_of_run
    true_div fzero fadd fsub int_of_product
    find_events set_annotations n_annotations pick_eeg_channels
    orig_time_none self subj_id sess_id run_id raw
  <> Return (Some ds).
Proof.
  intros Hcond. unfold base_dataset_of_run.
  destruct (_populate_raw_from_moabb _ _ _ _ _ _ _ _ _ _ _ _ _)
    as [raw1|e]; [|discriminate].
  cbn [rbind]. destruct (n_annotations raw1 =? 0)%nat; [discriminate|].
  destruct (pick_eeg_channels raw1) as [raw2|e]; [|discriminate].
  cbn [rbind].
  destruct Hcond as [Honline|[Hwindower|Hnone]].
  - destruct (fold_left _ _ _) as [raw3|e]; [|discriminate]. cbn [rbind].
    destruct (call1 _ _) as [w|e]; [|discriminate]. cbn [rbind].
    rewrite Honline. discriminate.
  - destruct (fold_left _ _ _) as [raw3|e]; [|discriminate]. cbn [rbind].
    rewrite Hwindower. discriminate.
  - destruct (transformers_none _ Hnone (Return raw2)) as [e ->].
    discriminate.
Qed.

Lemma nothing_appended {A B : Type} (f : A -> res (option B))
      (xs : list A) :
  (forall x b, f x <> Return (Some b)) ->
  forall results, rfor_each f xs = Return results -> appended results = [].
Proof.
  intros Hf. induction xs as [|x xs IH]; intros results Hrun.
  - injection Hrun as <-. reflexivity.
  - cbn [rfor_each] in Hrun.
    destruct (f x) as [[b|]|e] eqn:Hx; [now apply Hf in Hx| |discriminate].
    cbn [rbind] in Hrun.
    destruct (rfor_each f xs) as [rest|e]; [|discriminate].
    cbn [rbind] in Hrun. injection Hrun as <-. cbn [appended].
    now apply IH.
Qed.

(** [_base_datasets_from_moabb] never returns a dataset when
    [transform_online] is false, when the windower is [None], or when one
    of the raw transformers is [None]: it raises, or returns the empty
    list (when no run has an annotation). *)
Theorem base_datasets_never (self : MOABBDataset) :
  transform_online self = false
  \/ windower self = None
  \/ In None (raw_transformer self) ->
  (exists e,
      _base_datasets_from_moabb
        true_div fzero fadd fsub int_of_product
        find_events set_annotations n_annotations pick_eeg_channels
        orig_time_none get_data self
      = Throw e)
  \/ _base_datasets_from_moabb
       true_div fzero fadd fsub int_of_product
       find_events set_annotations n_annotations pick_eeg_channels
       orig_time_none get_data self
     = Return [].
Proof.
  intros Hcond. unfold _base_datasets_from_moabb.
  destruct (get_data (dataset self) (subject self)) as [data|e];
    [|left; now exists e].
  cbn [rbind].
  destruct (rfor_each _ (runs_of data)) as [results|e] eqn:Hrun;
    [|left; now exists e].
  right. cbn [rbind]. f_equal.
  match type of Hrun with
  | rfor_each ?f _ = _ =>
      assert (Hf : forall x b, f x <> Return (Some b))
  end.
  { intros [[[subj_id sess_id] run_id] raw] b.
    now apply run_appends_nothing. }
  exact (nothing_appended _ _ Hf _ Hrun).
Qed.

(** With the default arguments of [MOABBDataset.__init__]
    ([raw_transformer=None], [windower=None], [transform_online=False]),
    and more generally as soon as one of them is left at its default, the
    constructor raises or builds its [ConcatDataset] from the empty
    list. *)
Theorem init_defaults
        (dataset_list : list (dataset_class float dataset_payload_t))
        (dataset_name : String.string) (subj : Z + list Z)
        (raw_transformers : maybe_list (option (Raw -> res Raw)))
        (windower_arg :
           option (Raw * list (String.string * Z) -> res windows_t))
        (transformers : maybe_list (option window_transformer_t))
        (online : bool) :
  online = false
  \/ windower_arg = None
  \/ raw_transformers = NotAList None ->
  (exists e,
      MOABBDataset_init
        true_div fzero fadd fsub int_of_product
        find_events set_annotations n_annotations pick_eeg_channels
        orig_time_none get_data concat_init
        dataset_list dataset_name subj raw_transformers windower_arg
        transformers online
      = Throw e)
  \/ exists self concat,
      MOABBDataset_init
        true_div fzero fadd fsub int_of_product
        find_events set_annotations n_annotations pick_eeg_channels
        orig_time_none get_data concat_init
        dataset_list dataset_name subj raw_transformers windower_arg
        transformers online
      = Return (self, concat)
      /\ concat_init [] = Return concat.
Proof.
  intros Hcond. unfold MOABBDataset_init.
  destruct (find_data_set dataset_list dataset_name) as [cls|e];
    [|left; now exists e].
  cbn [rbind].
  destruct (instantiate cls) as [ds|e]; [|left; now exists e].
  cbn [rbind]. unfold _base_datasets_from_moabb.
  cbn [dataset subject].
  destruct (get_data ds _) as [data|e]; [|left; now exists e].
  cbn [rbind].
  destruct (rfor_each _ (runs_of data)) as [results|e] eqn:Hrun;
    [|left; now exists e].
  cbn [rbind].
  match type of Hrun with
  | rfor_each ?f _ = _ =>
      assert (Hf : forall x b, f x <> Return (Some b))
  end.
  { intros [[[subj_id sess_id] run_id] raw] b.
    apply run_appends_nothing.
    cbn [transform_online windower raw_transformer].
    destruct Hcond as [Ho|[Hw|Hr]]; [now left|right; now left|].
    right. right. subst raw_transformers. now left. }
  rewrite (nothing_appended _ _ Hf _ Hrun).
  destruct (concat_init []) as [concat|e] eqn:Hconcat;
    [|left; now exists e].
  right. cbn [rbind]. now eexists _, concat.
Qed.

End Dataset.

Lemma annotations_from_dict_witness :
  annotations_from_events
    MoabbExample.true_div MoabbExample.fzero MoabbExample.example_events 250
    (DescDict MoabbExample.example_desc) 100 tt
  = Return (annotations_of_described
              MoabbExample.true_div MoabbExample.fzero
              (fun c => match dict_get MoabbExample.example_desc c with
                        | Some v => v
                        | None => PyNone
                        end)
              MoabbExample.example_events 250 100 tt).
Proof.
  apply (annotations_from_dict
           MoabbExample.float MoabbExample.true_div MoabbExample.fzero unit
           MoabbExample.example_events 250 MoabbExample.example_desc 100 tt).
  intros k v [H|[H|[]]]; injection H as <- <-; discriminate.
Defined.

Lemma populate_annotations_witness :
  let shifted :=
    map (fun '(s, previous, code) =>
           (s + MoabbExample.int_of_product
                  (fst (interval (dataset MoabbExample.example_self)))
                  (info_sfreq MoabbExample.example_raw),
            previous, code))
        (fst (payload MoabbExample.example_raw)) in
  let named :=
    filter (fun e =>
              existsb (fun item => code_of e =? snd item)
                      (event_id (dataset MoabbExample.example_self)))
           shifted in
  exists annots,
    _populate_raw_from_moabb
      MoabbExample.true_div MoabbExample.fzero MoabbExample.fadd
      MoabbExample.fsub MoabbExample.int_of_product
      MoabbExample.find_events MoabbExample.set_annotations tt
      MoabbExample.example_self MoabbExample.example_raw 1 0 0
    = MoabbExample.set_annotations
        {| info_sfreq := info_sfreq MoabbExample.example_raw;
           info_subject_id := Some 1;
           info_session := Some 0;
           info_run := Some 0;
           info_events := Some shifted;
           first_samp := first_samp MoabbExample.example_raw;
           payload := payload MoabbExample.example_raw |}
        annots
    /\ onset annots
       = map (fun e =>
                MoabbExample.true_div
                  (sample_of e - first_samp MoabbExample.example_raw)
                  (info_sfreq MoabbExample.example_raw)) named
    /\ duration annots
       = repeat (MoabbExample.fadd MoabbExample.fzero
                   (MoabbExample.fsub
                      (snd (interval (dataset MoabbExample.example_self)))
                      (fst (interval (dataset MoabbExample.example_self)))))
                (length named)
    /\ Forall2 (fun e d =>
                  exists name,
                    d = PyStr name
                    /\ In (name, code_of e)
                          (event_id (dataset MoabbExample.example_self)))
               named (description annots)
    /\ orig_time annots = tt.
Proof.
  apply (populate_annotations
           MoabbExample.float MoabbExample.true_div MoabbExample.fzero
           MoabbExample.fadd MoabbExample.fsub MoabbExample.int_of_product
           unit Z Z Z (list event * MoabbExample.annots_t)
           MoabbExample.find_events MoabbExample.set_annotations tt
           unit nat unit
           MoabbExample.example_self MoabbExample.example_raw 1 0 0
           (fst (payload MoabbExample.example_raw))).
  reflexivity.
Defined.

Lemma base_datasets_never_witness :
  (exists e,
      _base_datasets_from_moabb
        MoabbExample.true_div MoabbExample.fzero MoabbExample.fadd
        MoabbExample.fsub MoabbExample.int_of_product
        MoabbExample.find_events MoabbExample.set_annotations
        MoabbExample.n_annotations MoabbExample.pick_eeg_channels tt
        MoabbExample.get_data MoabbExample.example_self
      = Throw e)
  \/ _base_datasets_from_moabb
       MoabbExample.true_div MoabbExample.fzero MoabbExample.fadd
       MoabbExample.fsub MoabbExample.int_of_product
       MoabbExample.find_events MoabbExample.set_annotations
       MoabbExample.n_annotations MoabbExample.pick_eeg_channels tt
       MoabbExample.get_data MoabbExample.example_self
     = Return [].
Proof.
  apply (base_datasets_never
           MoabbExample.float MoabbExample.true_div MoabbExample.fzero
           MoabbExample.fadd MoabbExample.fsub MoabbExample.int_of_product
           unit Z Z Z (list event * MoabbExample.annots_t)
           MoabbExample.find_events MoabbExample.set_annotations
           MoabbExample.n_annotations MoabbExample.pick_eeg_channels tt
           unit MoabbExample.get_data nat unit
           MoabbExample.example_self).
  left. reflexivity.
Defined.

Lemma init_defaults_witness :
  (exists e,
      MOABBDataset_init
        MoabbExample.true_div MoabbExample.fzero MoabbExample.fadd
        MoabbExample.fsub MoabbExample.int_of_product
        MoabbExample.find_events MoabbExample.set_annotations
        MoabbExample.n_annotations MoabbExample.pick_eeg_channels tt
        MoabbExample.get_data MoabbExample.concat_init
        [MoabbExample.other_class; MoabbExample.example_class]
        (__name__ MoabbExample.example_class) (inl 1)
        (NotAList None) None (NotAList None) false
      = Throw e)
  \/ exists self concat,
      MOABBDataset_init
        MoabbExample.true_div MoabbExample.fzero MoabbExample.fadd
        MoabbExample.fsub MoabbExample.int_of_product
        MoabbExample.find_events MoabbExample.set_annotations
        MoabbExample.n_annotations MoabbExample.pick_eeg_channels tt
        MoabbExample.get_data MoabbExample.concat_init
        [MoabbExample.other_class; MoabbExample.example_class]
        (__name__ MoabbExample.example_class) (inl 1)
        (NotAList None) None (NotAList None) false
      = Return (self, concat)
      /\ MoabbExample.concat_init [] = Return concat.
Proof.
  apply (init_defaults
           MoabbExample.float MoabbExample.true_div MoabbExample.fzero
           MoabbExample.fadd MoabbExample.fsub MoabbExample.int_of_product
           unit Z Z Z (list event * MoabbExample.annots_t)
           MoabbExample.find_events MoabbExample.set_annotations
           MoabbExample.n_annotations MoabbExample.pick_eeg_channels tt
           unit MoabbExample.get_data nat unit
           (list (WindowsDataset nat unit)) MoabbExample.concat_init
           [MoabbExample.other_class; MoabbExample.example_class]
           (__name__ MoabbExample.example_class) (inl 1)
           (NotAList None) None (NotAList None) false).
  left. reflexivity.
Defined.

(** On the example recording the default arguments fail on the first run,
    at the call of the raw transformer [None]. *)
Example example_init_raises :
  MOABBDataset_init
    MoabbExample.true_div MoabbExample.fzero MoabbExample.fadd
    MoabbExample.fsub MoabbExample.int_of_product
    MoabbExample.find_events MoabbExample.set_annotations
    MoabbExample.n_annotations MoabbExample.pick_eeg_channels tt
    MoabbExample.get_data MoabbExample.concat_init
    [MoabbExample.other_class; MoabbExample.example_class]
    (__name__ MoabbExample.example_class) (inl 1)
    (NotAList None) None (NotAList None) false
  = Throw TypeError.
Proof. reflexivity. Qed.

End MoabbFacts.
